(** * EchoPixel synthetic echocardiography generator: verification development

    Shallow embedding of the Python scripts under [src/python]:
    [generate_echo_dicom.py], [generate_echo_dicom_v2.py],
    [generate_echo_dicom_jpeg.py] and [generate_echo_dicom_realistic.py].

    Conventions of the embedding:
    - Python [int] is [Z]; Python/numpy floating point numbers are read as real
      numbers ([R]), i.e. arithmetic is the exact arithmetic the floating point
      operations approximate; [int(x)] on a float is truncation toward zero;
      the systole factor is also given on doubles (module [Double]), where
      the results of the two arithmetics differ;
    - [bytes] are [list byte]; 4-byte little-endian unsigned fields
      ([struct.pack('<I', n)]) are [le_split 4 n], which keeps [n mod 2^32];
    - a Python exception is the [Raise] constructor of [result];
    - numpy's process-wide random state is threaded explicitly. *)

From Stdlib Require Import ZArith List Lia Bool Arith Reals Lra.
From Stdlib Require Import Strings.Byte.
From Stdlib Require Strings.String Floats.
From coqutil Require Import Byte Word.LittleEndianList.
Import ListNotations.

(* ===================================================================== *)
(** ** Encapsulated pixel data (EncapsulatedPixelEncoder) *)
(* ===================================================================== *)

Module Encaps.

Local Open Scope Z_scope.

(** Modelled from the spec: the "4-byte little-endian" fields of
    [pydicom.encaps.encapsulate], i.e. [struct.pack('<I', n)]: four bytes,
    least significant first. *)
Definition pack_I (n : Z) : list byte := le_split 4 n.

(** Modelled from the spec: the "fixed tag" of an item header and the tag of
    the sequence-delimiter item of [pydicom.encaps.encapsulate].  The spec does
    not spell the bytes out; they are the DICOM item tag (FFFE,E000) and
    sequence delimitation tag (FFFE,E0DD), each written as two little-endian
    16-bit words. *)
Definition item_tag : list byte := [xfe; xff; x00; xe0].
Definition sequence_delimiter_tag : list byte := [xfe; xff; xdd; xe0].

(** Modelled from the spec: the fragment padding of
    [pydicom.encaps.encapsulate] (imported by the scripts, not part of the
    repository sources): "if its byte length is odd, append one padding byte
    (value 0x00) to make it even". *)
Definition pad_even (frame : list byte) : list byte :=
  if Nat.even (length frame) then frame else frame ++ [x00].

(** Modelled from the spec: one fragment item of [pydicom.encaps.encapsulate]:
    "a fragment item header (fixed tag + 4-byte little-endian length) followed
    by the (possibly padded) payload". *)
Definition itemise (fragment : list byte) : list byte :=
  item_tag ++ pack_I (Z.of_nat (length fragment)) ++ fragment.

(** Modelled from the spec: the offsets of the Basic Offset Table of
    [pydicom.encaps.encapsulate]: "the byte offset of each fragment's start
    relative to the first fragment", the first one being 0. *)
Fixpoint bot_offsets (start : Z) (frames : list (list byte)) : list Z :=
  match frames with
  | [] => []
  | f :: fs =>
      start :: bot_offsets (start + Z.of_nat (length (itemise (pad_even f)))) fs
  end.

(** Modelled from the spec: the Basic Offset Table item of
    [pydicom.encaps.encapsulate]: "a Basic Offset Table item whose payload is a
    4-byte little-endian offset for every fragment". *)
Definition basic_offset_table (frames : list (list byte)) : list byte :=
  item_tag ++ pack_I (4 * Z.of_nat (length frames))
           ++ flat_map pack_I (bot_offsets 0 frames).

(** Modelled from the spec: "After the last fragment, emit a
    sequence-delimiter item with zero length" (in pydicom the writer of an
    undefined-length element appends it). *)
Definition sequence_delimiter : list byte := sequence_delimiter_tag ++ pack_I 0.

(** Modelled from the spec: [pydicom.encaps.encapsulate(frames)] followed by
    the closing delimiter of the undefined-length pixel data element, which is
    what [ds.PixelData = encapsulate(jpeg_frames)] with
    [is_undefined_length = True] stores (sections 4.6 and 6 of the spec). *)
Definition encapsulate (frames : list (list byte)) : list byte :=
  basic_offset_table frames
    ++ flat_map (fun f => itemise (pad_even f)) frames
    ++ sequence_delimiter.

(** *** Reference decapsulation, following the documented layout

    Modelled from the spec: the "reference decapsulation" of the round-trip
    property (section 8), reading the layout of section 4.6 back: the Basic
    Offset Table item, then fragment items up to the sequence delimiter. *)

Definition bytes_eqb (a b : list byte) : bool :=
  if list_eq_dec Byte.byte_eq_dec a b then true else false.

(** Split off exactly [n] bytes, or fail when the stream is too short. *)
Definition take_exact (n : nat) (s : list byte) : option (list byte * list byte) :=
  if (n <=? length s)%nat then Some (firstn n s, skipn n s) else None.

(** Read a tag and a 4-byte little-endian length. *)
Definition read_header (s : list byte) : option (list byte * Z * list byte) :=
  match take_exact 4 s with
  | Some (tag, s1) =>
      match take_exact 4 s1 with
      | Some (len, s2) => Some (tag, le_combine len, s2)
      | None => None
      end
  | None => None
  end.

(** Read fragment items up to the sequence delimiter.  Every item consumes at
    least its 8 header bytes, so the length of the stream bounds the number of
    iterations. *)
Fixpoint read_fragments (fuel : nat) (s : list byte) : option (list (list byte)) :=
  match fuel with
  | O => None
  | S fuel' =>
      match read_header s with
      | Some (tag, len, rest) =>
          if bytes_eqb tag sequence_delimiter_tag then
            if (len =? 0) && (length rest =? 0)%nat then Some [] else None
          else if bytes_eqb tag item_tag then
            match take_exact (Z.to_nat len) rest with
            | Some (payload, rest') =>
                match read_fragments fuel' rest' with
                | Some frags => Some (payload :: frags)
                | None => None
                end
            | None => None
            end
          else None
      | None => None
      end
  end.

(** The reference reader: skip the Basic Offset Table item, then collect the
    fragments. *)
Definition decapsulate (s : list byte) : option (list (list byte)) :=
  match read_header s with
  | Some (tag, len, rest) =>
      if bytes_eqb tag item_tag then
        match take_exact (Z.to_nat len) rest with
        | Some (_, frags) => read_fragments (length frags) frags
        | None => None
        end
      else None
  | None => None
  end.

(** What the reader must give back for an input payload. *)
Definition recovered (input output : list byte) : Prop :=
  if Nat.even (length input) then output = input else output = input ++ [x00].

(** A payload fits a fragment item when its padded length fits the 4-byte
    length field. *)
Definition fits_item (f : list byte) : Prop := Z.of_nat (length f) < 2 ^ 32 - 1.

End Encaps.

(* ===================================================================== *)
(** ** Python values and operations *)
(* ===================================================================== *)

(** The exceptions the scripts can raise on their own account. *)
Inductive exn : Set := ZeroDivisionError | ValueError.

(** The outcome of a Python call: a value or a raised exception. *)
Inductive result (A : Type) : Type :=
| Ok (a : A)
| Raise (e : exn).
Arguments Ok {A} a.
Arguments Raise {A} e.

Module Py.

Local Open Scope R_scope.

(** [int(x)] on a float: truncation toward zero. *)
Definition int (x : R) : Z :=
  if Rle_dec 0 x then Zfloor x else (- Zfloor (- x))%Z.

(** [a / b] on two Python ints: true division, [ZeroDivisionError] when the
    divisor is zero. *)
Definition truediv (a b : Z) : result R :=
  if (b =? 0)%Z then Raise ZeroDivisionError else Ok (IZR a / IZR b).

(** [max(a, b)] and [min(a, b)] on ints. *)
Definition max (a b : Z) : Z := Z.max a b.
Definition min (a b : Z) : Z := Z.min a b.

End Py.

(* ===================================================================== *)
(** ** Cardiac cycle phase (all generators) *)
(* ===================================================================== *)

Module Cycle.

Local Open Scope R_scope.

(** [phase = 2 * np.pi * cycle] *)
Definition phase (cycle : R) : R := 2 * PI * cycle.

(** [systole_factor = (np.sin(phase) + 1) / 2] *)
Definition systole_of_cycle (cycle : R) : R := (sin (phase cycle) + 1) / 2.

(** The first lines of [generate_4chamber_frame] and of
    [generate_realistic_frame]:
    [cycle = frame / total_frames; phase = 2 * np.pi * cycle;
     systole_factor = (np.sin(phase) + 1) / 2]. *)
Definition systole_factor (frame total_frames : Z) : result R :=
  match Py.truediv frame total_frames with
  | Ok cycle => Ok (systole_of_cycle cycle)
  | Raise e => Raise e
  end.

End Cycle.

(* ===================================================================== *)
(** ** Cardiac anatomy of [generate_echo_dicom_realistic.py] *)
(* ===================================================================== *)

Module Anatomy.

Local Open Scope R_scope.

(** [class CardiacAnatomy]: the attributes set by [__init__]. *)
Record CardiacAnatomy : Type := {
  width : Z;
  height : Z;
  cx : Z;
  apex_y : Z;
  base_y : Z;
  mid_y : Z
}.

(** [CardiacAnatomy.__init__(self, width, height)] *)
Definition init (width height : Z) : CardiacAnatomy := {|
  width := width;
  height := height;
  cx := (width / 2)%Z;
  apex_y := Py.int (IZR height * 0.08);
  base_y := Py.int (IZR height * 0.82);
  mid_y := Py.int (IZR height * 0.48)
|}.

(** The dictionaries returned by the contour methods. *)
Record ventricle : Type := {
  v_center : Z * Z;
  outer : Z * Z;
  inner : Z * Z;
  v_apex_y : Z;
  v_wall_thickness : Z
}.

Record atrium : Type := {
  a_center : Z * Z;
  radius : Z * Z;
  a_wall_thickness : Z
}.

Record valve : Type := {
  position : Z * Z;
  opening : Z;
  leaflet_length : Z
}.

Definition get_lv_contour (self : CardiacAnatomy) (systole_factor : R) : ventricle :=
  let contraction := 0.22 * systole_factor in
  let outer_rx := Py.int (IZR (width self) * 0.14 * (1 - contraction * 0.15)) in
  let outer_ry := Py.int (IZR (height self) * 0.32 * (1 - contraction * 0.1)) in
  let inner_rx := Py.int (IZR (width self) * 0.10 * (1 - contraction * 0.4)) in
  let inner_ry := Py.int (IZR (height self) * 0.26 * (1 - contraction * 0.35)) in
  let cx' := (cx self - Py.int (IZR (width self) * 0.08))%Z in
  let cy := Py.int (IZR (height self) * 0.30) in
  {| v_center := (cx', cy);
     outer := (outer_rx, outer_ry);
     inner := (inner_rx, inner_ry);
     v_apex_y := (apex_y self + 15)%Z;
     v_wall_thickness := (outer_rx - inner_rx)%Z |}.

Definition get_rv_contour (self : CardiacAnatomy) (systole_factor : R) : ventricle :=
  let contraction := 0.15 * systole_factor in
  let outer_rx := Py.int (IZR (width self) * 0.11 * (1 - contraction * 0.15)) in
  let outer_ry := Py.int (IZR (height self) * 0.28 * (1 - contraction * 0.1)) in
  let inner_rx := Py.int (IZR (width self) * 0.08 * (1 - contraction * 0.35)) in
  let inner_ry := Py.int (IZR (height self) * 0.23 * (1 - contraction * 0.3)) in
  let cx' := (cx self + Py.int (IZR (width self) * 0.12))%Z in
  let cy := Py.int (IZR (height self) * 0.28) in
  {| v_center := (cx', cy);
     outer := (outer_rx, outer_ry);
     inner := (inner_rx, inner_ry);
     v_apex_y := (apex_y self + 25)%Z;
     v_wall_thickness := (outer_rx - inner_rx)%Z |}.

Definition get_la_contour (self : CardiacAnatomy) (systole_factor : R) : atrium :=
  let expansion := 0.12 * systole_factor in
  let rx := Py.int (IZR (width self) * 0.12 * (1 + expansion)) in
  let ry := Py.int (IZR (height self) * 0.12 * (1 + expansion)) in
  let cx' := (cx self - Py.int (IZR (width self) * 0.10))%Z in
  let cy := Py.int (IZR (height self) * 0.65) in
  {| a_center := (cx', cy);
     radius := (rx, ry);
     a_wall_thickness := Py.int (IZR (width self) * 0.015) |}.

Definition get_ra_contour (self : CardiacAnatomy) (systole_factor : R) : atrium :=
  let expansion := 0.10 * systole_factor in
  let rx := Py.int (IZR (width self) * 0.10 * (1 + expansion)) in
  let ry := Py.int (IZR (height self) * 0.11 * (1 + expansion)) in
  let cx' := (cx self + Py.int (IZR (width self) * 0.12))%Z in
  let cy := Py.int (IZR (height self) * 0.63) in
  {| a_center := (cx', cy);
     radius := (rx, ry);
     a_wall_thickness := Py.int (IZR (width self) * 0.012) |}.

Definition get_mitral_valve (self : CardiacAnatomy) (systole_factor : R) : valve :=
  let opening := Py.int (30 * (1 - systole_factor)) in
  {| position := ((cx self - Py.int (IZR (width self) * 0.08))%Z, mid_y self);
     opening := opening;
     leaflet_length := 35 |}.

Definition get_tricuspid_valve (self : CardiacAnatomy) (systole_factor : R) : valve :=
  let opening := Py.int (25 * (1 - systole_factor)) in
  {| position := ((cx self + Py.int (IZR (width self) * 0.10))%Z, (mid_y self - 5)%Z);
     opening := opening;
     leaflet_length := 30 |}.

End Anatomy.

(* ===================================================================== *)
(** ** Chamber geometry of [generate_4chamber_frame]
       ([generate_echo_dicom_v2.py], [generate_echo_dicom_jpeg.py]) *)
(* ===================================================================== *)

Module Chambers.

Local Open Scope R_scope.

(** The local variables of [generate_4chamber_frame] that depend on
    [systole_factor], each with the expression that defines it. *)
Definition lv_contraction (systole_factor : R) : R := 0.18 * systole_factor.
Definition lv_outer_rx s : Z := Py.int (75 * (1 - lv_contraction s * 0.3)).
Definition lv_outer_ry s : Z := Py.int (140 * (1 - lv_contraction s * 0.2)).
Definition lv_inner_rx s : Z := Py.int (55 * (1 - lv_contraction s)).
Definition lv_inner_ry s : Z := Py.int (115 * (1 - lv_contraction s * 0.8)).

Definition rv_contraction (systole_factor : R) : R := 0.12 * systole_factor.
Definition rv_outer_rx s : Z := Py.int (65 * (1 - rv_contraction s * 0.3)).
Definition rv_outer_ry s : Z := Py.int (120 * (1 - rv_contraction s * 0.2)).
Definition rv_inner_rx s : Z := Py.int (50 * (1 - rv_contraction s)).
Definition rv_inner_ry s : Z := Py.int (100 * (1 - rv_contraction s * 0.7)).

Definition la_expansion (systole_factor : R) : R := 0.08 * systole_factor.
Definition la_rx s : Z := Py.int (70 * (1 + la_expansion s)).
Definition la_ry s : Z := Py.int (55 * (1 + la_expansion s)).

Definition ra_expansion (systole_factor : R) : R := 0.06 * systole_factor.
Definition ra_rx s : Z := Py.int (60 * (1 + ra_expansion s)).
Definition ra_ry s : Z := Py.int (50 * (1 + ra_expansion s)).

Definition mv_opening (systole_factor : R) : Z := Py.int (25 * (1 - systole_factor)).
Definition tv_opening (systole_factor : R) : Z := Py.int (20 * (1 - systole_factor)).

End Chambers.

(** Componentwise order on a pair of radii [(rx, ry)]. *)
Definition radii_le (a b : Z * Z) : Prop :=
  (fst a <= fst b)%Z /\ (snd a <= snd b)%Z.

(* ===================================================================== *)
(** ** numpy arrays as lists *)
(* ===================================================================== *)

Module Np.

Local Open Scope R_scope.

(** A 2-D float array, as the list of its rows. *)
Definition raster : Type := list (list R).

(** One pixel of an (H, W, 3) array: the red, green and blue channels. *)
Definition rgb (A : Type) : Type := (A * A * A)%type.

Fixpoint zip_with {A B C : Type} (f : A -> B -> C) (a : list A) (b : list B)
  : list C :=
  match a, b with
  | x :: a', y :: b' => f x y :: zip_with f a' b'
  | _, _ => []
  end.

(** Elementwise operations on arrays of one shape. *)
Definition ew {A B : Type} (f : A -> B) (a : list (list A)) : list (list B) :=
  map (map f) a.
Definition ew2 {A B C : Type} (f : A -> B -> C)
  (a : list (list A)) (b : list (list B)) : list (list C) :=
  zip_with (zip_with f) a b.

(** An (H, 1) column broadcast against an (H, W) array. *)
Definition ew_col {A B C : Type} (f : A -> B -> C)
  (a : list (list A)) (col : list B) : list (list C) :=
  zip_with (fun row c => map (fun v => f v c) row) a col.

(** [np.arange(n)] *)
Definition arange (n : Z) : list Z := map Z.of_nat (seq 0 (Z.to_nat n)).

(** The (H, W) array whose entry at row [y], column [x] is [f y x]: an
    expression over [y, x = np.ogrid[:height, :width]]. *)
Definition ogrid {A : Type} (height width : Z) (f : Z -> Z -> A) : list (list A) :=
  map (fun y => map (fun x => f y x) (arange width)) (arange height).

(** [a[y, x]], for indices that are not negative. *)
Definition getitem {A : Type} (a : list (list A)) (y x : Z) : option A :=
  match nth_error a (Z.to_nat y) with
  | Some row => nth_error row (Z.to_nat x)
  | None => None
  end.

(** [np.clip(x, lo, hi)], i.e. [minimum(maximum(x, lo), hi)]. *)
Definition clip (x lo hi : R) : R := Rmin (Rmax x lo) hi.

(** The least and the greatest entry of an array (0 for an array without
    entries).  [a.min()] and [a.max()], which raise on such an array, are
    [Shape.np_min] and [Shape.np_max]. *)
Definition amin (a : raster) : R :=
  match concat a with
  | [] => 0
  | x :: xs => fold_left Rmin xs x
  end.
Definition amax (a : raster) : R :=
  match concat a with
  | [] => 0
  | x :: xs => fold_left Rmax xs x
  end.

(** [np.sum(a)] *)
Definition asum (a : raster) : R := fold_left Rplus (concat a) 0.

(** [np.linspace(start, stop, num)] *)
Definition linspace (start stop : R) (num : Z) : list R :=
  map (fun i => if (num =? 1)%Z then start
                else start + IZR i * ((stop - start) / IZR (num - 1)))
      (arange num).

(** [np.repeat(np.repeat(a, k, axis=0), k, axis=1)]: nearest-neighbour
    upsampling by [k]. *)
Definition repeat_each {A : Type} (k : nat) (l : list A) : list A :=
  flat_map (fun x => repeat x k) l.
Definition upsample (k : nat) (a : raster) : raster :=
  map (repeat_each k) (repeat_each k a).

(** [a[:height, :width]] *)
Definition crop (height width : Z) (a : raster) : raster :=
  map (firstn (Z.to_nat width)) (firstn (Z.to_nat height) a).

(** The array of [height] rows and [width] columns that holds [c]
    everywhere. *)
Definition full (height width : Z) (c : R) : raster :=
  ogrid height width (fun _ _ => c).

(** [x.astype(np.uint8)] on a float: the fraction is dropped and the integer
    is kept modulo 256. *)
Definition astype_uint8 (x : R) : Z := (Py.int x mod 256)%Z.

(** [np.deg2rad(x)] *)
Definition deg2rad (x : R) : R := x * (PI / 180).

End Np.

(* ===================================================================== *)
(** ** Shapes of arrays, and the errors numpy raises on them *)
(* ===================================================================== *)

Module Shape.

Import Np.
Local Open Scope R_scope.

(** [a.shape] of a 2-D array given as the list of its rows. *)
Definition shape (a : raster) : nat * nat := (length a, length (hd [] a)).

Definition same_shape (a b : raster) : bool :=
  (fst (shape a) =? fst (shape b))%nat && (snd (shape a) =? snd (shape b))%nat.

(** The array has [rows] rows of [cols] entries each. *)
Definition has_dims {A : Type} (rows cols : Z) (a : list (list A)) : Prop :=
  length a = Z.to_nat rows /\ Forall (fun row => length row = Z.to_nat cols) a.

(** [np.zeros((height, width))]: [ValueError] for a negative dimension. *)
Definition np_zeros (height width : Z) : result raster :=
  if (height <? 0)%Z || (width <? 0)%Z then Raise ValueError
  else Ok (full height width 0).

(** [np.ones((height, width)) * c]: [ValueError] for a negative dimension. *)
Definition np_full (height width : Z) (c : R) : result raster :=
  if (height <? 0)%Z || (width <? 0)%Z then Raise ValueError
  else Ok (full height width c).

(** [a.max()]: [ValueError] for an array without entries. *)
Definition np_max (a : raster) : result R :=
  match concat a with
  | [] => Raise ValueError
  | x :: xs => Ok (fold_left Rmax xs x)
  end.

(** [a.min()]: [ValueError] for an array without entries. *)
Definition np_min (a : raster) : result R :=
  match concat a with
  | [] => Raise ValueError
  | x :: xs => Ok (fold_left Rmin xs x)
  end.

(** [noise += operand], entry by entry with [f]: [ValueError] when the
    operand has another shape than [noise].  (numpy would stretch an operand
    dimension of size 1; the operands here have dimensions that are multiples
    of a scale of at least 2, or the shape of [noise] itself.) *)
Definition iadd (f : R -> R -> R) (noise operand : raster) : result raster :=
  if same_shape noise operand then Ok (ew2 f noise operand) else Raise ValueError.

(** [a + b] on two arrays: [ValueError] when the shapes differ.  (numpy
    would stretch a dimension of size 1.  Here that happens only for a field
    of height or width 1, whose upsampled layers have size 0 in that
    dimension: the sum is then empty and the normalisation that follows
    raises the same [ValueError] at [min()].) *)
Definition add_arrays (a b : raster) : result raster :=
  if same_shape a b then Ok (ew2 Rplus a b) else Raise ValueError.

End Shape.

(* ===================================================================== *)
(** ** Time-gain compensation *)
(* ===================================================================== *)

Module Tgc.

Import Np.
Local Open Scope R_scope.

(** [apply_tgc] of the realistic generator, the gain at normalised depth [d]:
    [tgc_curve = 0.7 + 0.6 * distance_map + 0.1 * np.sin(distance_map * np.pi)] *)
Definition tgc_curve (d : R) : R := 0.7 + 0.6 * d + 0.1 * sin (d * PI).

(** [apply_tgc(image, distance_map)]: [image * tgc_curve]. *)
Definition apply_tgc (image distance_map : raster) : raster :=
  ew2 (fun v d => v * tgc_curve d) image distance_map.

(** [apply_ultrasound_artifacts] of the v2 and JPEG generators, the gain at
    normalised depth [y_coords = np.arange(height) / height]:
    [tgc = 0.7 + 0.5 * y_coords] *)
Definition tgc_linear (y_coords : R) : R := 0.7 + 0.5 * y_coords.

(** [y_coords = np.arange(height).reshape(-1, 1) / height] *)
Definition y_coords (height : Z) : list R :=
  map (fun y => IZR y / IZR height) (arange height).

(** [apply_ultrasound_artifacts(image, mask)]:
    [image * tgc], [image * mask], [np.clip(image * 1.2, 0, 1)]. *)
Definition apply_ultrasound_artifacts (height : Z) (image mask : raster) : raster :=
  let image := ew_col (fun v y => v * tgc_linear y) image (y_coords height) in
  let image := ew2 Rmult image mask in
  ew (fun v => clip (v * 1.2) 0 1) image.

(** A gain curve that decreases somewhere on [[0,1]]. *)
Definition non_monotonic (gain : R -> R) : Prop :=
  exists d1 d2, 0 <= d1 /\ d1 < d2 /\ d2 <= 1 /\ gain d2 < gain d1.

End Tgc.

(* ===================================================================== *)
(** ** Uncompressed pixel data
       ([create_dicom_dataset] of [generate_echo_dicom.py] and
        [generate_echo_dicom_v2.py]) *)
(* ===================================================================== *)

Module Uncompressed.

(** One generated frame: a 2-D [uint8] array, as the list of its rows. *)
Definition frame : Type := list (list byte).

(** [a.shape] of a 2-D array. *)
Definition shape2 (a : frame) : nat * nat := (length a, length (hd [] a)).

Definition shape2_eqb (s t : nat * nat) : bool :=
  (fst s =? fst t)%nat && (snd s =? snd t)%nat.

(** The array has [rows] rows of [cols] entries each. *)
Definition has_shape (rows cols : nat) (a : frame) : Prop :=
  length a = rows /\ Forall (fun row => length row = cols) a.

(** [np.stack(frames, axis=0)]: the frames become the slices of a 3-D array;
    [ValueError] for an empty list or frames of different shapes. *)
Definition np_stack (frames : list frame) : result (list frame) :=
  match frames with
  | [] => Raise ValueError
  | f :: fs =>
      if forallb (fun g => shape2_eqb (shape2 g) (shape2 f)) fs
      then Ok frames else Raise ValueError
  end.

(** [pixel_data.shape] of the 3-D array. *)
Definition shape3 (pixel_data : list frame) : nat * nat * nat :=
  (length pixel_data, length (hd [] pixel_data), length (hd [] (hd [] pixel_data))).

(** [pixel_data.tobytes()]: the entries in C order, last index fastest. *)
Definition tobytes2 (a : frame) : list byte := concat a.
Definition tobytes (pixel_data : list frame) : list byte :=
  concat (map tobytes2 pixel_data).

(** The Image Pixel module of the dataset; the descriptive attributes carry no
    pixel content and are left out. *)
Record dataset : Type := {
  SamplesPerPixel : Z;
  NumberOfFrames : Z;
  Rows : Z;
  Columns : Z;
  BitsAllocated : Z;
  BitsStored : Z;
  HighBit : Z;
  PixelRepresentation : Z;
  PlanarConfiguration : Z;
  PixelData : list byte
}.

(** [create_dicom_dataset(pixel_data, ...)]:
    [num_frames, rows, cols = pixel_data.shape] and
    [ds.PixelData = pixel_data.tobytes()]. *)
Definition create_dicom_dataset (pixel_data : list frame) : dataset :=
  let '(num_frames, rows, cols) := shape3 pixel_data in
  {| SamplesPerPixel := 1;
     NumberOfFrames := Z.of_nat num_frames;
     Rows := Z.of_nat rows;
     Columns := Z.of_nat cols;
     BitsAllocated := 8;
     BitsStored := 8;
     HighBit := 7;
     PixelRepresentation := 0;
     PlanarConfiguration := 0;
     PixelData := tobytes pixel_data |}.

(** [pixel_data = np.stack(frames, axis=0)] followed by
    [create_dicom_dataset(pixel_data=pixel_data, ...)], as in
    [generate_echo_dicom_files] and [generate_echo_dicom_v2]. *)
Definition assemble (frames : list frame) : result dataset :=
  match np_stack frames with
  | Ok pixel_data => Ok (create_dicom_dataset pixel_data)
  | Raise e => Raise e
  end.

(** The pixel at row [i], column [j] of frame [f]. *)
Definition pixel (frames : list frame) (f i j : nat) : option byte :=
  match nth_error frames f with
  | Some a => match nth_error a i with
              | Some row => nth_error row j
              | None => None
              end
  | None => None
  end.

End Uncompressed.

(* ===================================================================== *)
(** ** The numerical and imaging libraries, and the random state *)
(* ===================================================================== *)

Module Lib.

Import Np.
Local Open Scope R_scope.

(** An 8-bit greyscale PIL image (mode 'L'), as the list of its rows. *)
Definition canvas : Type := list (list Z).

(** What the scripts use of numpy's random module, of scipy.ndimage and of
    PIL.ImageDraw.  [rng] is numpy's process-wide random state: each draw
    returns the samples and the state it leaves behind. *)
Class NumLib : Type := {
  rng : Type;
  (** the state [np.random.seed(seed)] installs *)
  random_seed : Z -> rng;
  (** [np.random.rayleigh(scale, (rows, cols))] *)
  random_rayleigh : R -> Z -> Z -> rng -> raster * rng;
  (** [np.random.normal(loc, scale, (rows, cols, 3))] *)
  random_normal : R -> R -> Z -> Z -> rng -> list (list (rgb R)) * rng;
  (** [gaussian_filter(a, sigma=(sy, sx))]; a scalar sigma is [(s, s)] *)
  gaussian_filter : raster -> R * R -> raster;
  (** [np.arctan2(a, b)] *)
  arctan2 : R -> R -> R;
  (** [draw.ellipse([x0, y0, x1, y1], fill=v)] *)
  draw_ellipse : canvas -> Z * Z * Z * Z -> Z -> canvas;
  (** [draw.line([p, q], fill=v, width=w)] *)
  draw_line : canvas -> list (Z * Z) -> Z -> Z -> canvas;
  (** [draw.polygon([p, q, r], fill=v)] *)
  draw_polygon : canvas -> list (Z * Z) -> Z -> canvas
}.

Section Monad.
Context {L : NumLib}.

(** A computation that reads and advances the random state and may raise. *)
Definition M (A : Type) : Type := rng -> result A * rng.

Definition ret {A : Type} (a : A) : M A := fun g => (Ok a, g).

Definition bind {A B : Type} (m : M A) (k : A -> M B) : M B :=
  fun g =>
    match m g with
    | (Ok a, g') => k a g'
    | (Raise e, g') => (Raise e, g')
    end.

(** A Python expression that may raise, run inside a computation. *)
Definition lift {A : Type} (r : result A) : M A := fun g => (r, g).

(** [np.random.seed(seed)], for a seed numpy accepts (see [seed_accepted]
    below; the statements that say a call returns take the seeds there). *)
Definition seed (s : Z) : M unit := fun _ => (Ok tt, random_seed s).

(** [np.random.rayleigh(scale, (rows, cols))] *)
Definition rayleigh (scale : R) (rows cols : Z) : M raster :=
  fun g => let (a, g') := random_rayleigh scale rows cols g in (Ok a, g').

(** [np.random.normal(loc, scale, (rows, cols, 3))] *)
Definition normal (loc scale : R) (rows cols : Z) : M (list (list (rgb R))) :=
  fun g => let (a, g') := random_normal loc scale rows cols g in (Ok a, g').

End Monad.

Declare Scope py_scope.
Notation "x <- m ;; k" := (bind m (fun x => k))
  (at level 61, m at next level, right associativity) : py_scope.
Notation "m ;; k" := (bind m (fun _ => k))
  (at level 61, right associativity) : py_scope.

(** Comparisons of floats, as the booleans numpy computes. *)
Definition Rleb (x y : R) : bool := if Rle_dec x y then true else false.
Definition Rltb (x y : R) : bool := if Rlt_dec x y then true else false.

(** [mask.astype(np.float32)] *)
Definition float_of_bool (b : bool) : R := if b then 1 else 0.

(** Operations on the three channels of a pixel. *)
Definition rgb_map {A B : Type} (f : A -> B) (p : rgb A) : rgb B :=
  let '(r, g, b) := p in (f r, f g, f b).
Definition rgb_map2 {A B C : Type} (f : A -> B -> C) (p : rgb A) (q : rgb B) : rgb C :=
  let '(r, g, b) := p in let '(r', g', b') := q in (f r r', f g g', f b b').
Definition rgb_all {A : Type} (P : A -> Prop) (p : rgb A) : Prop :=
  let '(r, g, b) := p in P r /\ P g /\ P b.

(** [np.stack([v, v, v], axis=-1)] at one pixel. *)
Definition grey {A : Type} (v : A) : rgb A := (v, v, v).

(** [Image.new('L', (width, height), 0)]: [ValueError] for a negative
    size. *)
Definition image_new (width height : Z) : result canvas :=
  if (width <? 0)%Z || (height <? 0)%Z then Raise ValueError
  else Ok (ogrid height width (fun _ _ => 0%Z)).

(** Pillow refuses a bounding box whose second corner lies before the first
    ([ValueError]: "x1 must be greater than or equal to x0", and the same
    for [y]). *)
Definition box_ordered (box : Z * Z * Z * Z) : bool :=
  let '(x0, y0, x1, y1) := box in (x0 <=? x1)%Z && (y0 <=? y1)%Z.

(** A seed [np.random.seed] accepts: an integer between 0 and [2 ** 32 - 1]
    (it raises [ValueError] on any other). *)
Definition seed_accepted (s : Z) : Prop := (0 <= s < 2 ^ 32)%Z.

Section Checked.
Context {L : NumLib}.

(** [draw.ellipse([x0, y0, x1, y1], fill=v)] as Pillow runs it. *)
Definition ellipse (img : canvas) (box : Z * Z * Z * Z) (fill : Z)
  : result canvas :=
  if box_ordered box then Ok (draw_ellipse img box fill) else Raise ValueError.

(** Every Rayleigh draw has the shape it was asked for. *)
Definition rayleigh_shaped : Prop :=
  forall scale rows cols g,
    Shape.has_dims rows cols (fst (random_rayleigh scale rows cols g)).

(** The Gaussian filter returns an array of the shape of its input. *)
Definition filter_shaped : Prop :=
  forall (a : raster) sigma rows cols,
    Shape.has_dims rows cols a -> Shape.has_dims rows cols (gaussian_filter a sigma).

End Checked.

End Lib.

(* ===================================================================== *)
(** ** Further library operations used by the generators *)
(* ===================================================================== *)

Module LibExt.

Import Np Lib.

(** A PIL drawing call on an RGB image; every text is drawn with
    [font=font_small]. *)
Inductive draw_cmd : Type :=
| Line (xy : list (Z * Z)) (fill : rgb Z) (width : Z)
| Arc (bbox : Z * Z * Z * Z) (start_angle end_angle : R) (fill : rgb Z) (width : Z)
| Text (xy : Z * Z) (text : String.string) (fill : rgb Z).

(** What the remaining functions use of numpy, PIL and Python's string
    formatting, beyond [NumLib]. *)
Class ImagingLib {L : NumLib} : Type := {
  (** [np.random.exponential(scale, (rows, cols))] *)
  random_exponential : R -> Z -> Z -> rng -> raster * rng;
  (** [np.random.normal(loc, scale, (rows, cols))] *)
  random_normal2 : R -> R -> Z -> Z -> rng -> raster * rng;
  (** [np.random.randint(low, high)] *)
  random_randint : Z -> Z -> rng -> Z * rng;
  (** [draw.ellipse([x0, y0, x1, y1], outline=v, width=w)] *)
  draw_ellipse_outline : canvas -> Z * Z * Z * Z -> Z -> Z -> canvas;
  (** [img.save(buffer, format='JPEG', quality=q, subsampling=0)] followed by
      [buffer.getvalue()], for a greyscale and for an RGB image *)
  jpeg_encode_grey : list (list Z) -> Z -> list byte;
  jpeg_encode_rgb : list (list (rgb Z)) -> Z -> list byte;
  (** one [ImageDraw] call on an RGB image *)
  draw_rgb : list (list (rgb Z)) -> draw_cmd -> list (list (rgb Z));
  (** [f"{x:.1f}"] *)
  format_1f : R -> String.string
}.

Section Loops.
Context {L : NumLib}.
Local Open Scope py_scope.

(** [for i in indices: item = body(i); items.append(item)] *)
Fixpoint for_each {A : Type} (body : Z -> M A) (indices : list Z) : M (list A) :=
  match indices with
  | [] => ret []
  | i :: rest =>
      item <- body i ;;
      items <- for_each body rest ;;
      ret (item :: items)
  end.

End Loops.

(** [float / int]: [ZeroDivisionError] when the divisor is zero. *)
Definition truediv_float (a : R) (b : Z) : result R :=
  if (b =? 0)%Z then Raise ZeroDivisionError else Ok (a / IZR b)%R.

(** [int // int]: floor division, [ZeroDivisionError] when the divisor is
    zero. *)
Definition floordiv (a b : Z) : result Z :=
  if (b =? 0)%Z then Raise ZeroDivisionError else Ok (a / b)%Z.

(** Sequencing of expressions that may raise. *)
Definition rbind {A B : Type} (r : result A) (k : A -> result B) : result B :=
  match r with
  | Ok a => k a
  | Raise e => Raise e
  end.

End LibExt.

Declare Scope res_scope.
Notation "x <-- r ;; k" := (LibExt.rbind r (fun x => k))
  (at level 61, r at next level, right associativity) : res_scope.

(* ===================================================================== *)
(** ** Speckle fields: combination of the layers and normalisation *)
(* ===================================================================== *)

Module Speckle.

Import Np Shape LibExt.
Local Open Scope R_scope.
Local Open Scope res_scope.

(** The last statement of [generate_realistic_speckle]:
    [(speckle - speckle.min()) / (speckle.max() - speckle.min() + 1e-8)];
    [min()] and [max()] raise [ValueError] on a field without entries. *)
Definition normalize (speckle : raster) : result raster :=
  lo <-- np_min speckle ;;
  hi <-- np_max speckle ;;
  Ok (ew (fun v => (v - lo) / (hi - lo + 1e-8)) speckle).

(** [generate_realistic_speckle] after the three layers were drawn and
    blurred: upsampling of the coarser layers, weighted sum
    [fine * 0.5 + medium * 0.35 + coarse * 0.15], depth modulation by
    [np.linspace(0.8, 1.2, height)], normalisation. *)
Definition combine_layers (width height : Z) (fine medium coarse : raster)
  : result raster :=
  let medium := crop height width (upsample 2 medium) in
  let coarse := crop height width (upsample 4 coarse) in
  speckle <-- add_arrays (ew (fun v => v * 0.5) fine)
                         (ew (fun v => v * 0.35) medium) ;;
  speckle <-- add_arrays speckle (ew (fun v => v * 0.15) coarse) ;;
  let depth_factor := linspace 0.8 1.2 height in
  let speckle := ew_col Rmult speckle depth_factor in
  normalize speckle.

(** The last statement of [generate_speckle_noise] (v2 and JPEG generators):
    [noise / noise.max() * intensity] *)
Definition scale_to_intensity (intensity : R) (noise : raster) : result raster :=
  hi <-- np_max noise ;;
  Ok (ew (fun v => v / hi * intensity) noise).

(** One pass of the loop of [generate_speckle_noise], once the layer is
    drawn: the layer is upsampled and cropped, then
    [noise += layer * (1.0 / scale)]. *)
Definition add_layer (width height : Z) (scale : nat) (noise layer : raster)
  : result raster :=
  let layer := crop height width (upsample scale layer) in
  iadd (fun n l => n + l * (1.0 / INR scale)) noise layer.

(** A field that is min-max normalised to [[0,1]]: its minimum is 0, its
    maximum is 1. *)
Definition min_max_normalized (a : raster) : Prop :=
  amin a = 0 /\ amax a = 1 /\ Forall (Forall (fun v => 0 <= v <= 1)) a.

End Speckle.

(* ===================================================================== *)
(** ** Frame synthesis of [generate_echo_dicom_realistic.py] *)
(* ===================================================================== *)

Module Realistic.

Import Np Shape Lib LibExt Anatomy.
Local Open Scope R_scope.
Local Open Scope py_scope.
Local Open Scope res_scope.

(** The dictionary returned by [create_sector_geometry]. *)
Record sector : Type := {
  mask : raster;
  distance_map : raster;
  angle_map : raster;
  center : Z * Z;
  max_dist : R
}.

(** [apply_lateral_blur]: the depth bands, [np.arange(0.3, 1.0, 0.1)]. *)
Definition depth_starts : list R := map (fun i => 0.3 + IZR i * 0.1) (arange 7).

(** *** The Doppler overlay before the noise: masked assignments *)

(** [flow_rgb[mask, channel] = v] on an image given by its pixels. *)
Definition assign (m : Z -> Z -> bool) (channel : nat) (v : R)
  (flow : Z -> Z -> rgb R) : Z -> Z -> rgb R :=
  fun y x =>
    if m y x then
      let '(r, g, b) := flow y x in
      match channel with
      | O => (v, g, b)
      | S O => (r, v, b)
      | _ => (r, g, v)
      end
    else flow y x.

(** [mv_dist = np.sqrt((x - mv_x) ** 2 + (y - mv_y) ** 2)] and the like. *)
Definition dist (px py : Z) (y x : Z) : R :=
  sqrt (IZR ((x - px) ^ 2 + (y - py) ^ 2)).

(** [mv_mask = (mv_dist < 50) & (y > mv_y - 30) & (y < mv_y + 60)] *)
Definition mv_mask (mv_x mv_y : Z) (y x : Z) : bool :=
  Rltb (dist mv_x mv_y y x) 50 && (mv_y - 30 <? y)%Z && (y <? mv_y + 60)%Z.

(** [fast_flow = mv_mask & (mv_dist < 20)] *)
Definition fast_flow (mv_x mv_y : Z) (y x : Z) : bool :=
  mv_mask mv_x mv_y y x && Rltb (dist mv_x mv_y y x) 20.

(** [tv_mask = (tv_dist < 40) & (y > tv_y - 25) & (y < tv_y + 50)] *)
Definition tv_mask (tv_x tv_y : Z) (y x : Z) : bool :=
  Rltb (dist tv_x tv_y y x) 40 && (tv_y - 25 <? y)%Z && (y <? tv_y + 50)%Z.

(** [generate_color_doppler_flow] up to, but not including, the noise: the
    array of zeros and the assignments of the two [if diastole_factor > 0.3]
    blocks. *)
Definition flow_layer (anatomy : CardiacAnatomy) (systole_factor frame_phase : R)
  : Z -> Z -> rgb R :=
  let flow_rgb := fun (_ _ : Z) => (0, 0, 0) in
  let diastole_factor := 1 - systole_factor in
  let mv := get_mitral_valve anatomy systole_factor in
  let '(mv_x, mv_y) := position mv in
  let flow_rgb :=
    if Rltb 0.3 diastole_factor then
      let e_wave := sin (frame_phase * 2 * PI) * 0.5 + 0.5 in
      let flow_intensity := diastole_factor * e_wave in
      let flow_rgb :=
        assign (mv_mask mv_x mv_y) 2 (clip (flow_intensity * 0.9) 0 1) flow_rgb in
      assign (fast_flow mv_x mv_y) 0 (clip (flow_intensity * 0.3) 0 1) flow_rgb
    else flow_rgb in
  let tv := get_tricuspid_valve anatomy systole_factor in
  let '(tv_x, tv_y) := position tv in
  if Rltb 0.3 diastole_factor then
    assign (tv_mask tv_x tv_y) 2 (clip (diastole_factor * 0.7) 0 1) flow_rgb
  else flow_rgb.

(** The pixel lies in one of the two valve-adjacent regions. *)
Definition in_valve_region (anatomy : CardiacAnatomy) (systole_factor : R)
  (y x : Z) : bool :=
  let '(mv_x, mv_y) := position (get_mitral_valve anatomy systole_factor) in
  let '(tv_x, tv_y) := position (get_tricuspid_valve anatomy systole_factor) in
  mv_mask mv_x mv_y y x || tv_mask tv_x tv_y y x.

(** The end of [generate_color_doppler_flow]:
    [flow_rgb = flow_rgb + noise; flow_rgb = np.clip(flow_rgb, 0, 1)]. *)
Definition add_noise_and_clip (flow_rgb noise : list (list (rgb R)))
  : list (list (rgb R)) :=
  ew (rgb_map (fun v => clip v 0 1)) (ew2 (rgb_map2 Rplus) flow_rgb noise).

(** [generate_color_doppler_flow] for a given sample of the noise. *)
Definition color_doppler_flow_with (noise : list (list (rgb R)))
  (width height : Z) (anatomy : CardiacAnatomy) (systole_factor frame_phase : R)
  : list (list (rgb R)) :=
  add_noise_and_clip
    (ogrid height width (flow_layer anatomy systole_factor frame_phase)) noise.

(** The final conversion [(image * 255).astype(np.uint8)]. *)
Definition quantize (v : R) : Z := astype_uint8 (v * 255).

Section WithLib.
Context {L : NumLib}.

(** [generate_realistic_speckle(width, height, seed)] *)
Definition generate_realistic_speckle (width height : Z) (seed_ : option Z)
  : M raster :=
  match seed_ with Some s => seed s | None => ret tt end ;;
  lift (np_zeros height width) ;;
  fine <- rayleigh 0.6 height width ;;
  let fine := gaussian_filter fine (0.8, 0.8) in
  let h2 := (height / 2)%Z in
  let w2 := (width / 2)%Z in
  medium <- rayleigh 0.5 h2 w2 ;;
  let medium := gaussian_filter medium (1.2, 1.2) in
  let h4 := (height / 4)%Z in
  let w4 := (width / 4)%Z in
  coarse <- rayleigh 0.4 h4 w4 ;;
  let coarse := gaussian_filter coarse (1.5, 1.5) in
  lift (Speckle.combine_layers width height fine medium coarse).

(** [create_sector_geometry(width, height, angle_deg)] *)
Definition create_sector_geometry (width height : Z) (angle_deg : R) : sector :=
  let cx := (width / 2)%Z in
  let cy := Py.int (IZR height * 0.02) in
  let angles := fun y x => arctan2 (IZR (x - cx)) (IZR (y - cy)) in
  let angle_rad := deg2rad (angle_deg / 2) in
  let distances := fun y x => sqrt (IZR ((x - cx) ^ 2 + (y - cy) ^ 2)) in
  let max_dist := IZR height * 0.92 in
  let min_dist := IZR height * 0.03 in
  let in_sector := fun y x => Rleb (Rabs (angles y x)) angle_rad in
  let in_range := fun y x =>
    Rleb min_dist (distances y x) && Rleb (distances y x) max_dist in
  let mask := ogrid height width
    (fun y x => float_of_bool (in_sector y x && in_range y x)) in
  let mask := gaussian_filter mask (2, 2) in
  let distance_map := ogrid height width
    (fun y x => clip ((distances y x - min_dist) / (max_dist - min_dist)) 0 1) in
  let angle_map := ogrid height width
    (fun y x => clip (Rabs (angles y x) / angle_rad) 0 1) in
  {| mask := mask; distance_map := distance_map; angle_map := angle_map;
     center := (cx, cy); max_dist := max_dist |}.

(** One pass of the loop of [apply_lateral_blur]. *)
Definition blur_band (image distance_map : raster) (result : raster)
  (depth_start : R) : raster :=
  let depth_end := depth_start + 0.15 in
  let depth_mask := ew
    (fun d => float_of_bool (Rleb depth_start d && Rltb d depth_end))
    distance_map in
  if Rltb 0 (asum depth_mask) then
    let blur_sigma := 0.5 + depth_start * 1.5 in
    let blurred := gaussian_filter image (0, blur_sigma) in
    ew2 Rplus (ew2 (fun r m => r * (1 - m)) result depth_mask)
              (ew2 Rmult blurred depth_mask)
  else result.

(** [apply_lateral_blur(image, distance_map)] *)
Definition apply_lateral_blur (image distance_map : raster) : raster :=
  fold_left (blur_band image distance_map) depth_starts image.

(** [generate_color_doppler_flow(width, height, anatomy, systole_factor,
    frame_phase)] *)
Definition generate_color_doppler_flow (width height : Z)
  (anatomy : CardiacAnatomy) (systole_factor frame_phase : R)
  : M (list (list (rgb R))) :=
  noise <- normal 0 0.05 height width ;;
  ret (color_doppler_flow_with noise width height anatomy systole_factor
         frame_phase).

(** [draw_heart_structure(image, anatomy, systole_factor)] *)
Definition draw_heart_structure (image : raster) (anatomy : CardiacAnatomy)
  (systole_factor : R) : result raster :=
  let height := Z.of_nat (length image) in
  let width := Z.of_nat (length (hd [] image)) in
  let img_pil : canvas := ew (fun v => astype_uint8 (v * 255)) image in
  (* LV *)
  let lv := get_lv_contour anatomy systole_factor in
  let '(lv_cx, lv_cy) := v_center lv in
  let '(lv_orx, lv_ory) := outer lv in
  let '(lv_irx, lv_iry) := inner lv in
  let apex_y := v_apex_y lv in
  img_pil <-- ellipse img_pil
    (lv_cx - lv_orx, apex_y, lv_cx + lv_orx, lv_cy + lv_ory)%Z 145 ;;
  img_pil <-- ellipse img_pil
    (lv_cx - lv_irx, apex_y + 20, lv_cx + lv_irx, lv_cy + lv_iry)%Z 15 ;;
  (* RV *)
  let rv := get_rv_contour anatomy systole_factor in
  let '(rv_cx, rv_cy) := v_center rv in
  let '(rv_orx, rv_ory) := outer rv in
  let '(rv_irx, rv_iry) := inner rv in
  let rv_apex_y := v_apex_y rv in
  img_pil <-- ellipse img_pil
    (rv_cx - rv_orx, rv_apex_y, rv_cx + rv_orx, rv_cy + rv_ory)%Z 125 ;;
  img_pil <-- ellipse img_pil
    (rv_cx - rv_irx, rv_apex_y + 15, rv_cx + rv_irx, rv_cy + rv_iry)%Z 18 ;;
  (* IVS *)
  let septum_x := (cx anatomy - Py.int (IZR width * 0.02))%Z in
  let img_pil := draw_line img_pil
    [(septum_x, apex_y + 15); (septum_x, mid_y anatomy - 10)]%Z 165 20 in
  (* LA *)
  let la := get_la_contour anatomy systole_factor in
  let '(la_cx, la_cy) := a_center la in
  let '(la_rx, la_ry) := radius la in
  let la_wall := a_wall_thickness la in
  img_pil <-- ellipse img_pil
    (la_cx - la_rx - la_wall, la_cy - la_ry - la_wall,
     la_cx + la_rx + la_wall, la_cy + la_ry + la_wall)%Z 120 ;;
  img_pil <-- ellipse img_pil
    (la_cx - la_rx, la_cy - la_ry, la_cx + la_rx, la_cy + la_ry)%Z 20 ;;
  (* RA *)
  let ra := get_ra_contour anatomy systole_factor in
  let '(ra_cx, ra_cy) := a_center ra in
  let '(ra_rx, ra_ry) := radius ra in
  let ra_wall := a_wall_thickness ra in
  img_pil <-- ellipse img_pil
    (ra_cx - ra_rx - ra_wall, ra_cy - ra_ry - ra_wall,
     ra_cx + ra_rx + ra_wall, ra_cy + ra_ry + ra_wall)%Z 110 ;;
  img_pil <-- ellipse img_pil
    (ra_cx - ra_rx, ra_cy - ra_ry, ra_cx + ra_rx, ra_cy + ra_ry)%Z 22 ;;
  (* IAS *)
  let img_pil := draw_line img_pil
    [(cx anatomy, mid_y anatomy + 15); (cx anatomy, Py.int (IZR height * 0.75))]%Z
    140 12 in
  (* MV *)
  let mv := get_mitral_valve anatomy systole_factor in
  let '(mv_x, mv_y) := position mv in
  let mv_opening := opening mv in
  let mv_len := leaflet_length mv in
  let img_pil := draw_polygon img_pil
    [(mv_x - 25, mv_y - 5); (mv_x, mv_y + mv_opening + mv_len - 10);
     (mv_x + 10, mv_y - 5)]%Z 210 in
  let img_pil := draw_polygon img_pil
    [(mv_x - 30, mv_y); (mv_x - 10, mv_y + mv_opening + mv_len - 20);
     (mv_x - 35, mv_y + 10)]%Z 195 in
  (* TV *)
  let tv := get_tricuspid_valve anatomy systole_factor in
  let '(tv_x, tv_y) := position tv in
  let tv_opening := opening tv in
  let tv_len := leaflet_length tv in
  let img_pil := draw_polygon img_pil
    [(tv_x - 20, tv_y - 3); (tv_x, tv_y + tv_opening + tv_len - 15);
     (tv_x + 15, tv_y - 3)]%Z 190 in
  Ok (ew (fun v => IZR v / 255) img_pil).

(** The seed handed to the second speckle field:
    [seed + 1000 if seed else None] (0 and [None] are both false). *)
Definition heart_seed (seed_ : option Z) : option Z :=
  match seed_ with
  | Some s => if (s =? 0)%Z then None else Some (s + 1000)%Z
  | None => None
  end.

(** The seed of a frame: [speckle_seed + frame], or [None]. *)
Definition frame_seed (speckle_seed : option Z) (frame : Z) : option Z :=
  match speckle_seed with
  | Some s => Some (s + frame)%Z
  | None => None
  end.

(** The Doppler blend at one pixel and channel:
    [np.where(blood_mask & (doppler > 0.05), doppler * 0.8 + image_rgb * 0.2,
              image_rgb)], then [np.clip(image_rgb, 0, 1)]. *)
Definition blend (heart image doppler : R) : R :=
  let blood_mask := Rltb heart 0.1 in
  let v := if blood_mask && Rltb 0.05 doppler
           then doppler * 0.8 + image * 0.2 else image in
  clip v 0 1.

(** [generate_realistic_frame(width, height, frame, total_frames,
    include_color_doppler, speckle_seed)] *)
Definition generate_realistic_frame (width height frame total_frames : Z)
  (include_color_doppler : bool) (speckle_seed : option Z)
  : M (list (list (rgb Z))) :=
  let anatomy := Anatomy.init width height in
  cycle <- lift (Py.truediv frame total_frames) ;;
  let systole_factor := Cycle.systole_of_cycle cycle in
  let sector := create_sector_geometry width height 72 in
  lift (np_zeros height width) ;;
  let seed_ := frame_seed speckle_seed frame in
  speckle <- generate_realistic_speckle width height seed_ ;;
  let image := ew (fun v => v * 0.15) speckle in
  heart <- lift (draw_heart_structure image anatomy systole_factor) ;;
  heart_speckle <- generate_realistic_speckle width height (heart_seed seed_) ;;
  let image := ew2 (fun h s => h * (0.85 + s * 0.25)) heart heart_speckle in
  let image := Tgc.apply_tgc image (distance_map sector) in
  let image := apply_lateral_blur image (distance_map sector) in
  let image := ew2 Rmult image (mask sector) in
  let image := ew (fun v => clip v 0 1) image in
  if include_color_doppler then
    doppler <- generate_color_doppler_flow width height anatomy systole_factor
                 cycle ;;
    let image_rgb :=
      ew2 (fun (hi : R * R) d => rgb_map (blend (fst hi) (snd hi)) d)
          (ew2 pair heart image) doppler in
    ret (ew (rgb_map quantize) image_rgb)
  else
    ret (ew (fun v => grey (quantize v)) image).

End WithLib.

End Realistic.

(* ===================================================================== *)
(** ** Frame synthesis of [generate_echo_dicom_v2.py] and
       [generate_echo_dicom_jpeg.py] *)
(* ===================================================================== *)

Module V2.

Import Np Shape Lib LibExt Chambers.
Local Open Scope R_scope.
Local Open Scope py_scope.
Local Open Scope res_scope.

Section WithLib.
Context {L : NumLib}.

(** [create_sector_mask(width, height, angle_deg)] *)
Definition create_sector_mask (width height : Z) (angle_deg : R) : raster :=
  let cx := (width / 2)%Z in
  let cy := Py.int (IZR height * 0.02) in
  let angles := fun y x => arctan2 (IZR (x - cx)) (IZR (y - cy)) in
  let angle_rad := deg2rad (angle_deg / 2) in
  let in_sector := fun y x => Rleb (Rabs (angles y x)) angle_rad in
  let distances := fun y x => sqrt (IZR ((x - cx) ^ 2 + (y - cy) ^ 2)) in
  let max_dist := IZR height * 0.95 in
  let min_dist := IZR height * 0.03 in
  let in_range := fun y x =>
    Rleb min_dist (distances y x) && Rleb (distances y x) max_dist in
  let mask := ogrid height width
    (fun y x => float_of_bool (in_sector y x && in_range y x)) in
  gaussian_filter mask (2, 2).

(** The body of the loop of [generate_speckle_noise]. *)
Definition speckle_pass (width height : Z) (scale : nat) (noise : raster)
  : M raster :=
  let h := (height / Z.of_nat scale)%Z in
  let w := (width / Z.of_nat scale)%Z in
  layer <- rayleigh 0.5 h w ;;
  lift (Speckle.add_layer width height scale noise layer).

(** The loop [for scale in scales] of [generate_speckle_noise]. *)
Fixpoint speckle_passes (width height : Z) (scales : list nat) (noise : raster)
  : M raster :=
  match scales with
  | [] => ret noise
  | scale :: rest =>
      noise <- speckle_pass width height scale noise ;;
      speckle_passes width height rest noise
  end.

(** [generate_speckle_noise(width, height, intensity)] *)
Definition generate_speckle_noise (width height : Z) (intensity : R) : M raster :=
  noise <- lift (np_zeros height width) ;;
  noise <- speckle_passes width height [1; 2; 4; 8]%nat noise ;;
  lift (Speckle.scale_to_intensity intensity noise).

(** The drawing part of [generate_4chamber_frame], for a given systole
    factor. *)
Definition draw_4chamber (img : canvas) (width height : Z) (systole_factor : R)
  : result raster :=
  let apex_y := Py.int (IZR height * 0.12) in
  let base_y := Py.int (IZR height * 0.75) in
  let mid_y := Py.int (IZR height * 0.45) in
  let center_x := (width / 2)%Z in
  (* LV *)
  let lv_cx := (center_x - Py.int (IZR width * 0.12))%Z in
  let lv_cy := Py.int (IZR height * 0.35) in
  let lv_outer_rx := lv_outer_rx systole_factor in
  let lv_outer_ry := lv_outer_ry systole_factor in
  let lv_inner_rx := lv_inner_rx systole_factor in
  let lv_inner_ry := lv_inner_ry systole_factor in
  img <-- ellipse img
    (lv_cx - lv_outer_rx, apex_y, lv_cx + lv_outer_rx, lv_cy + lv_outer_ry)%Z
    170 ;;
  img <-- ellipse img
    (lv_cx - lv_inner_rx, apex_y + 25, lv_cx + lv_inner_rx, lv_cy + lv_inner_ry)%Z
    12 ;;
  (* RV *)
  let rv_cx := (center_x + Py.int (IZR width * 0.15))%Z in
  let rv_cy := Py.int (IZR height * 0.32) in
  let rv_outer_rx := rv_outer_rx systole_factor in
  let rv_outer_ry := rv_outer_ry systole_factor in
  let rv_inner_rx := rv_inner_rx systole_factor in
  let rv_inner_ry := rv_inner_ry systole_factor in
  img <-- ellipse img
    (rv_cx - rv_outer_rx, apex_y + 15, rv_cx + rv_outer_rx, rv_cy + rv_outer_ry)%Z
    150 ;;
  img <-- ellipse img
    (rv_cx - rv_inner_rx, apex_y + 30, rv_cx + rv_inner_rx, rv_cy + rv_inner_ry)%Z
    15 ;;
  (* IVS *)
  let septum_x := center_x in
  let img := draw_line img
    [(septum_x, apex_y + 20); (septum_x, mid_y - 10)]%Z 190 18 in
  (* LA *)
  let la_cx := (center_x - Py.int (IZR width * 0.14))%Z in
  let la_cy := Py.int (IZR height * 0.62) in
  let la_rx := la_rx systole_factor in
  let la_ry := la_ry systole_factor in
  img <-- ellipse img
    (la_cx - la_rx - 8, la_cy - la_ry - 8, la_cx + la_rx + 8, la_cy + la_ry + 8)%Z
    140 ;;
  img <-- ellipse img
    (la_cx - la_rx, la_cy - la_ry, la_cx + la_rx, la_cy + la_ry)%Z 18 ;;
  (* RA *)
  let ra_cx := (center_x + Py.int (IZR width * 0.16))%Z in
  let ra_cy := Py.int (IZR height * 0.60) in
  let ra_rx := ra_rx systole_factor in
  let ra_ry := ra_ry systole_factor in
  img <-- ellipse img
    (ra_cx - ra_rx - 6, ra_cy - ra_ry - 6, ra_cx + ra_rx + 6, ra_cy + ra_ry + 6)%Z
    130 ;;
  img <-- ellipse img
    (ra_cx - ra_rx, ra_cy - ra_ry, ra_cx + ra_rx, ra_cy + ra_ry)%Z 20 ;;
  (* IAS *)
  let img := draw_line img
    [(septum_x, mid_y + 20); (septum_x, base_y - 30)]%Z 160 10 in
  (* mitral valve *)
  let mv_y := mid_y in
  let mv_x := lv_cx in
  let mv_opening := mv_opening systole_factor in
  let img := draw_polygon img
    [(mv_x - 30, mv_y); (mv_x - 5, mv_y + mv_opening + 20); (mv_x + 5, mv_y)]%Z
    200 in
  let img := draw_polygon img
    [(mv_x - 35, mv_y + 5); (mv_x - 15, mv_y + mv_opening + 10);
     (mv_x - 40, mv_y + 15)]%Z 190 in
  (* tricuspid valve *)
  let tv_y := (mid_y - 5)%Z in
  let tv_x := (rv_cx - 15)%Z in
  let tv_opening := tv_opening systole_factor in
  let img := draw_polygon img
    [(tv_x - 20, tv_y); (tv_x, tv_y + tv_opening + 15); (tv_x + 15, tv_y)]%Z
    180 in
  (* pulmonary veins *)
  let pv_y := (la_cy - la_ry - 5)%Z in
  img <-- ellipse img (la_cx - 25, pv_y - 8, la_cx - 10, pv_y + 8)%Z 25 ;;
  img <-- ellipse img (la_cx + 10, pv_y - 8, la_cx + 25, pv_y + 8)%Z 25 ;;
  Ok (ew (fun v => IZR v / 255) img).

(** [generate_4chamber_frame(width, height, frame, total_frames)] *)
Definition generate_4chamber_frame (width height frame total_frames : Z)
  : result raster :=
  img <-- image_new width height ;;
  systole_factor <-- Cycle.systole_factor frame total_frames ;;
  draw_4chamber img width height systole_factor.

(** [generate_echo_frame_v2(width, height, frame, total_frames)]
    ([generate_echo_frame] in the JPEG generator) *)
Definition generate_echo_frame_v2 (width height frame total_frames : Z)
  : M (list (list Z)) :=
  let mask := create_sector_mask width height 75 in
  background <- lift (np_full height width 0.02) ;;
  speckle <- generate_speckle_noise width height 0.25 ;;
  heart <- lift (generate_4chamber_frame width height frame total_frames) ;;
  let image :=
    ew2 Rplus (ew2 Rplus background (ew (fun v => v * 0.3) speckle))
              (ew (fun v => v * 0.85) heart) in
  let image := Tgc.apply_ultrasound_artifacts height image mask in
  let image := ew (fun v => clip v 0 1) image in
  ret (ew Realistic.quantize image).

End WithLib.

End V2.

(* ===================================================================== *)
(** ** A small instance of the libraries, to run the model on examples *)
(* ===================================================================== *)

Module Example.

Import Np Lib.
Local Open Scope R_scope.

(** The random state is a counter; a Rayleigh draw gives a constant field of
    the scale, a normal draw a constant field 0.04; the filter and the drawing
    operations leave their input unchanged. *)
#[local] Instance lib : NumLib := {|
  rng := Z;
  random_seed := fun s => s;
  random_rayleigh := fun scale rows cols g => (full rows cols scale, (g + 1)%Z);
  random_normal := fun loc scale rows cols g =>
    (ogrid rows cols (fun _ _ => (0.04, 0.04, 0.04)), (g + 1)%Z);
  gaussian_filter := fun a _ => a;
  arctan2 := fun _ _ => 0;
  draw_ellipse := fun c _ _ => c;
  draw_line := fun c _ _ _ => c;
  draw_polygon := fun c _ _ => c
|}.

End Example.

(** A value in the closed unit interval, and an 8-bit value that is the
    truncation of [255 * v] for such a [v] (the cast did not wrap around). *)
Definition in_unit (v : R) : Prop := (0 <= v <= 1)%R.
Definition quantized (z : Z) : Prop :=
  (0 <= z <= 255)%Z /\ exists v, in_unit v /\ z = Py.int (v * 255).

(* ===================================================================== *)
(** ** Per-pixel view of [apply_lateral_blur] *)
(* ===================================================================== *)

Module BlurPixel.

Import Np Lib Realistic.
Local Open Scope R_scope.

(** The pixel lies in the depth band that starts at [depth_start]. *)
Definition in_band (depth_start d : R) : bool :=
  Rleb depth_start d && Rltb d (depth_start + 0.15).

Section WithLib.
Context {L : NumLib}.

(** The value the bands leave at a pixel of depth [d], band after band. *)
Definition blur_pixel (image : raster) (y x : Z) (d : R) (bands : list R) (u : R) : R :=
  fold_left
    (fun r ds =>
       if in_band ds d then
         match getitem (gaussian_filter image (0, 0.5 + ds * 1.5)) y x with
         | Some b => b
         | None => r
         end
       else r)
    bands u.

(** The blurred images exist at the pixel, for every band. *)
Definition blurred_everywhere (image : raster) (y x : Z) : Prop :=
  forall ds, In ds depth_starts ->
    getitem (gaussian_filter image (0, 0.5 + ds * 1.5)) y x <> None.

End WithLib.

End BlurPixel.

(* ===================================================================== *)
(** ** Cine and cardiac attributes of [create_dicom_dataset]
       ([generate_echo_dicom_v2.py]) *)
(* ===================================================================== *)

Module Cine.

Import LibExt.
Local Open Scope res_scope.

(** The Cine module. *)
Record cine : Type := {
  FrameTime : R;
  FrameTimeVector : list R;
  StartTrim : Z;
  StopTrim : Z;
  RecommendedDisplayFrameRate : Z;
  CineRate : Z;
  EffectiveDuration : R;
  ActualFrameDuration : Z
}.

(** The Cardiac module. *)
Record cardiac : Type := {
  HeartRate : Z;
  CardiacNumberOfImages : Z;
  IntervalsAcquired : Z;
  NominalInterval : Z;
  LowRRValue : Z;
  HighRRValue : Z
}.

(** The Cine module, in the order of the assignments:
    [ds.FrameTime = 1000.0 / frame_rate],
    [ds.FrameTimeVector = [1000.0 / frame_rate] * num_frames], ...,
    [ds.EffectiveDuration = num_frames / frame_rate],
    [ds.ActualFrameDuration = int(1000000 / frame_rate)]. *)
Definition cine_module (num_frames frame_rate : Z) : result cine :=
  frame_time <-- truediv_float 1000 frame_rate ;;
  frame_time' <-- truediv_float 1000 frame_rate ;;
  effective <-- Py.truediv num_frames frame_rate ;;
  actual <-- Py.truediv 1000000 frame_rate ;;
  Ok {| FrameTime := frame_time;
        FrameTimeVector := repeat frame_time' (Z.to_nat num_frames);
        StartTrim := 1;
        StopTrim := num_frames;
        RecommendedDisplayFrameRate := frame_rate;
        CineRate := frame_rate;
        EffectiveDuration := effective;
        ActualFrameDuration := Py.int actual |}.

(** The Cardiac module:
    [ds.NominalInterval = int(60000 / heart_rate)],
    [ds.LowRRValue = int(60000 / (heart_rate + 10))],
    [ds.HighRRValue = int(60000 / (heart_rate - 10))]. *)
Definition cardiac_module (num_frames heart_rate : Z) : result cardiac :=
  nominal <-- Py.truediv 60000 heart_rate ;;
  low <-- Py.truediv 60000 (heart_rate + 10) ;;
  high <-- Py.truediv 60000 (heart_rate - 10) ;;
  Ok {| HeartRate := heart_rate;
        CardiacNumberOfImages := num_frames;
        IntervalsAcquired := num_frames;
        NominalInterval := Py.int nominal;
        LowRRValue := Py.int low;
        HighRRValue := Py.int high |}.

(** The two modules as [create_dicom_dataset] fills them, Cine first. *)
Definition timing (num_frames heart_rate frame_rate : Z) : result (cine * cardiac) :=
  c <-- cine_module num_frames frame_rate ;;
  k <-- cardiac_module num_frames heart_rate ;;
  Ok (c, k).

End Cine.

(* ===================================================================== *)
(** ** [generate_echo_dicom_v2]: the number of frames and the frame loop *)
(* ===================================================================== *)

Module V2Run.

Import Np Lib LibExt.
Local Open Scope res_scope.

(** The first statements of [generate_echo_dicom_v2]:
    [bytes_per_frame = width * height],
    [target_bytes = target_size_mb * 1024 * 1024],
    [num_frames = int(target_bytes / bytes_per_frame)],
    [cycles = max(1, num_frames // (frame_rate * 60 // 72))],
    [num_frames = max(num_frames, frame_rate)].
    The result is [(num_frames, cycles)]. *)
Definition plan (target_size_mb : R) (width height frame_rate : Z) : result (Z * Z) :=
  let bytes_per_frame := (width * height)%Z in
  let target_bytes := (target_size_mb * 1024 * 1024)%R in
  q <-- truediv_float target_bytes bytes_per_frame ;;
  let num_frames := Py.int q in
  c <-- floordiv num_frames (frame_rate * 60 / 72)%Z ;;
  let cycles := Py.max 1 c in
  let num_frames := Py.max num_frames frame_rate in
  Ok (num_frames, cycles).

Section WithLib.
Context {L : NumLib}.
Local Open Scope py_scope.

(** [generate_echo_dicom_v2] up to the list [frames]: the plan, then
    [for i in range(num_frames): frames.append(generate_echo_frame_v2(width,
    height, i, num_frames))]. *)
Definition generate_frames (target_size_mb : R) (width height frame_rate : Z)
  : M (list (list (list Z))) :=
  p <- lift (plan target_size_mb width height frame_rate) ;;
  let num_frames := fst p in
  for_each (fun i => V2.generate_echo_frame_v2 width height i num_frames)
           (arange num_frames).

End WithLib.

End V2Run.

(* ===================================================================== *)
(** ** Sector border and user-interface overlay
       ([add_sector_frame], [add_ui_overlay]) *)
(* ===================================================================== *)

Module Overlay.

Import Np Lib LibExt.
Import String.StringSyntax.
Local Open Scope R_scope.

Definition white : rgb Z := (255, 255, 255)%Z.

(** The end point of a border line of [add_sector_frame], at the signed half
    angle [a]: [(cx + int(radius * np.sin(a)), cy + int(radius * np.cos(a)))]. *)
Definition border_end (cx cy radius : Z) (a : R) : Z * Z :=
  ((cx + Py.int (IZR radius * sin a))%Z, (cy + Py.int (IZR radius * cos a))%Z).

(** The drawing calls of [add_sector_frame(image, angle_deg)], in order: the
    left line, the right line, the arc. *)
Definition sector_frame_cmds (width height : Z) (angle_deg : R) : list draw_cmd :=
  let cx := (width / 2)%Z in
  let cy := Py.int (IZR height * 0.02) in
  let radius := Py.int (IZR height * 0.92) in
  let angle_rad := deg2rad (angle_deg / 2) in
  let p1 := border_end cx cy radius (- angle_rad) in
  let p2 := border_end cx cy radius angle_rad in
  let start_angle := 90 - angle_deg / 2 in
  let end_angle := 90 + angle_deg / 2 in
  let bbox := (cx - radius, cy - radius, cx + radius, cy + radius)%Z in
  [Line [(cx, cy + 5)%Z; p1] white 2;
   Line [(cx, cy + 5)%Z; p2] white 2;
   Arc bbox start_angle end_angle white 2].

(** The colour of row [i] of the velocity bar of [add_ui_overlay]:
    [ratio = i / bar_height], red fading out in the upper half, blue fading in
    in the lower half. *)
Definition bar_color (i : Z) : rgb Z :=
  let bar_height := 120%Z in
  let ratio := IZR i / IZR bar_height in
  if Rltb ratio 0.5 then (Py.int (255 * (1 - ratio * 2)), 0%Z, 0%Z)
  else (0%Z, 0%Z, Py.int (255 * (ratio - 0.5) * 2)).

Section WithLib.
Context {L : NumLib} {I : ImagingLib}.
Local Open Scope string_scope.

(** The drawing calls of [add_ui_overlay(image, frame, total_frames,
    heart_rate, depth_cm)], in order. *)
Definition ui_overlay_cmds (width height : Z) (depth_cm : R) : list draw_cmd :=
  let text_color : rgb Z := (200, 200, 200)%Z in
  let left_x := 10%Z in
  let top_y := 10%Z in
  let line_height := 16%Z in
  let params :=
    ["S9-2"; "32Hz"; String.append (format_1f depth_cm) "cm"; String.EmptyString; "2D"; " 53%";
     " C 46"; " P Off"; " HGen"; String.EmptyString; "CF"; " 40%"; " 7920Hz"; " WF 792Hz";
     " 3.3MHz"] in
  let bar_x := (width - 40)%Z in
  let bar_y := 30%Z in
  let bar_height := 120%Z in
  let bar_width := 15%Z in
  let scale_y := (height - 30)%Z in
  let scale_x := (width / 2 - 50)%Z in
  let scale_length := 100%Z in
  zip_with (fun i text => Text (left_x, top_y + i * line_height)%Z text text_color)
           (arange 15) params
  ++ map (fun i => Line [(bar_x, bar_y + i); (bar_x + bar_width, bar_y + i)]%Z
                        (bar_color i) 0)
         (arange bar_height)
  ++ [Text (bar_x - 5, bar_y - 15)%Z "+92.4" text_color;
      Text (bar_x + 2, bar_y + bar_height / 2 - 5)%Z "0" text_color;
      Text (bar_x - 5, bar_y + bar_height + 2)%Z "-92.4" text_color;
      Text (bar_x - 5, bar_y + bar_height + 14)%Z "cm/s" text_color;
      Text (width - 90, 10)%Z "TIS2.0" text_color;
      Text (width - 90, 24)%Z "MI 1.2" text_color;
      Line [(scale_x, scale_y); (scale_x + scale_length, scale_y)]%Z text_color 2;
      Line [(scale_x, scale_y - 5); (scale_x, scale_y + 5)]%Z text_color 1;
      Line [(scale_x + scale_length, scale_y - 5);
            (scale_x + scale_length, scale_y + 5)]%Z text_color 1;
      Text (scale_x + scale_length / 2 - 10, scale_y + 5)%Z "2 cm" text_color].

(** [height, width = image.shape[:2]] *)
Definition shape_of (image : list (list (rgb Z))) : Z * Z :=
  (Z.of_nat (length image), Z.of_nat (length (hd [] image))).

(** [add_sector_frame(image, angle_deg)] *)
Definition add_sector_frame (image : list (list (rgb Z))) (angle_deg : R)
  : list (list (rgb Z)) :=
  let '(height, width) := shape_of image in
  fold_left draw_rgb (sector_frame_cmds width height angle_deg) image.

(** [add_ui_overlay(image, frame, total_frames, heart_rate, depth_cm)] *)
Definition add_ui_overlay (image : list (list (rgb Z))) (frame total_frames : Z)
  (depth_cm : R) : list (list (rgb Z)) :=
  let '(height, width) := shape_of image in
  fold_left draw_rgb (ui_overlay_cmds width height depth_cm) image.

End WithLib.

(** The points a drawing call is anchored at. *)
Definition anchors (c : draw_cmd) : list (Z * Z) :=
  match c with
  | Line xy _ _ => xy
  | Arc (x0, y0, x1, y1) _ _ _ _ => [(x0, y0); (x1, y1)]
  | Text xy _ _ => [xy]
  end.

(** The point lies inside an image of the given size. *)
Definition inside (width height : Z) (p : Z * Z) : Prop :=
  (0 <= fst p < width)%Z /\ (0 <= snd p < height)%Z.

End Overlay.

(* ===================================================================== *)
(** ** The JPEG and realistic generators: frame loop and dataset *)
(* ===================================================================== *)

Module JpegRun.

Import Np Lib LibExt.
Import String.StringSyntax.
Local Open Scope string_scope.
Local Open Scope res_scope.

(** The attributes of the encapsulated datasets that depend on the frames
    and on the arguments (the UIDs, dates and times, which differ from run to
    run, and the constant attributes are left out).  [PixelData] is the value
    of the element as it is written to the file: the encapsulated frames and
    the closing delimiter of the undefined-length element. *)
Record dataset : Type := {
  SamplesPerPixel : Z;
  PhotometricInterpretation : String.string;
  NumberOfFrames : Z;
  Rows : Z;
  Columns : Z;
  PixelData : list byte;
  is_undefined_length : bool;
  FrameTime : R;
  FrameTimeVector : list R;
  RecommendedDisplayFrameRate : Z;
  HeartRate : Z;
  CardiacNumberOfImages : Z
}.

(** [create_jpeg_dicom_dataset(jpeg_frames, rows, cols, ..., heart_rate,
    frame_rate)] *)
Definition create_jpeg_dicom_dataset (jpeg_frames : list (list byte))
  (rows cols heart_rate frame_rate : Z) : result dataset :=
  let num_frames := Z.of_nat (length jpeg_frames) in
  let pixel_data := Encaps.encapsulate jpeg_frames in
  frame_time <-- truediv_float 1000 frame_rate ;;
  frame_time' <-- truediv_float 1000 frame_rate ;;
  Ok {| SamplesPerPixel := 1;
        PhotometricInterpretation := "MONOCHROME2";
        NumberOfFrames := num_frames;
        Rows := rows;
        Columns := cols;
        PixelData := pixel_data;
        is_undefined_length := true;
        FrameTime := frame_time;
        FrameTimeVector := repeat frame_time' (Z.to_nat num_frames);
        RecommendedDisplayFrameRate := frame_rate;
        HeartRate := heart_rate;
        CardiacNumberOfImages := num_frames |}.

(** [create_realistic_dicom_dataset(jpeg_frames, rows, cols, ..., heart_rate,
    frame_rate, include_color)] *)
Definition create_realistic_dicom_dataset (jpeg_frames : list (list byte))
  (rows cols heart_rate frame_rate : Z) (include_color : bool) : result dataset :=
  let num_frames := Z.of_nat (length jpeg_frames) in
  let pixel_data := Encaps.encapsulate jpeg_frames in
  frame_time <-- truediv_float 1000 frame_rate ;;
  frame_time' <-- truediv_float 1000 frame_rate ;;
  Ok {| SamplesPerPixel := if include_color then 3 else 1;
        PhotometricInterpretation :=
          if include_color then "YBR_FULL_422" else "MONOCHROME2";
        NumberOfFrames := num_frames;
        Rows := rows;
        Columns := cols;
        PixelData := pixel_data;
        is_undefined_length := true;
        FrameTime := frame_time;
        FrameTimeVector := repeat frame_time' (Z.to_nat num_frames);
        RecommendedDisplayFrameRate := frame_rate;
        HeartRate := heart_rate;
        CardiacNumberOfImages := num_frames |}.

(** [total_jpeg_size]: the sum of [len(jpeg_data)] over the frames. *)
Definition total_size (jpeg_frames : list (list byte)) : Z :=
  fold_left (fun total jpeg_data => (total + Z.of_nat (length jpeg_data))%Z)
            jpeg_frames 0%Z.

Section WithLib.
Context {L : NumLib} {I : ImagingLib}.
Local Open Scope py_scope.

(** The loop of [generate_jpeg_dicom]: each frame is generated and encoded in
    turn. *)
Definition encode_frames (num_frames quality width height : Z)
  : M (list (list byte)) :=
  for_each
    (fun i =>
       frame <- V2.generate_echo_frame_v2 width height i num_frames ;;
       ret (jpeg_encode_grey frame quality))
    (arange num_frames).

(** [generate_jpeg_dicom(output_dir, num_frames, quality, width, height,
    frame_rate)] up to the dataset: the loop, the compression ratio
    [uncompressed_size / total_jpeg_size], the dataset with heart rate 72. *)
Definition generate_jpeg_dicom (num_frames quality width height frame_rate : Z)
  : M dataset :=
  jpeg_frames <- encode_frames num_frames quality width height ;;
  let total_jpeg_size := total_size jpeg_frames in
  let uncompressed_size := (num_frames * width * height)%Z in
  compression_ratio <- lift (Py.truediv uncompressed_size total_jpeg_size) ;;
  lift (create_jpeg_dicom_dataset jpeg_frames height width 72 frame_rate).

(** The body of the loop of [generate_realistic_dicom] after the frame is
    generated: sector border, overlay when asked for, JPEG encoding. *)
Definition finish_frame (include_ui : bool) (quality i num_frames : Z)
  (frame : list (list (rgb Z))) : list byte :=
  let frame := Overlay.add_sector_frame frame 72 in
  let frame := if include_ui then Overlay.add_ui_overlay frame i num_frames 16.0
               else frame in
  jpeg_encode_rgb frame quality.

(** The loop of [generate_realistic_dicom] for a given [base_seed]. *)
Definition encode_realistic_frames (base_seed num_frames quality width height : Z)
  (include_color_doppler include_ui : bool) : M (list (list byte)) :=
  for_each
    (fun i =>
       frame <- Realistic.generate_realistic_frame width height i num_frames
                  include_color_doppler (Some base_seed) ;;
       ret (finish_frame include_ui quality i num_frames frame))
    (arange num_frames).

(** [generate_realistic_dicom(output_dir, num_frames, quality, width, height,
    frame_rate, include_color_doppler, include_ui)] up to the dataset:
    [base_seed = np.random.randint(0, 10000)], the loop, and
    [create_realistic_dicom_dataset] called without a frame rate, hence with
    its defaults [heart_rate=72] and [frame_rate=30]. *)
Definition generate_realistic_dicom (num_frames quality width height frame_rate : Z)
  (include_color_doppler include_ui : bool) : M dataset :=
  base_seed <- (fun g => let (b, g') := random_randint 0 10000 g in (Ok b, g')) ;;
  jpeg_frames <- encode_realistic_frames base_seed num_frames quality width height
                   include_color_doppler include_ui ;;
  lift (create_realistic_dicom_dataset jpeg_frames height width 72 30
          include_color_doppler).

End WithLib.

End JpegRun.

Module ExampleExt.

Import Np Lib LibExt.
Import String.StringSyntax.
Local Open Scope string_scope.

(** Stand-ins for the further library operations: constant samples, a
    two-byte JPEG payload, drawing calls that leave the image unchanged. *)
#[local] Instance imaging : @ImagingLib Example.lib :=
  @Build_ImagingLib Example.lib
    (fun scale rows cols (g : Z) => (full rows cols scale, (g + 1)%Z))
    (fun loc scale rows cols (g : Z) => (full rows cols loc, (g + 1)%Z))
    (fun low high (g : Z) => (low, (g + 1)%Z))
    (fun c _ _ _ => c)
    (fun _ _ => [xff; xd8])
    (fun _ _ => [xff; xd8])
    (fun image _ => image)
    (fun _ => "16.0").

End ExampleExt.

(* ===================================================================== *)
(** ** The first generator ([generate_echo_dicom.py]) *)
(* ===================================================================== *)

Module V1.

Export Shape.
Import Np Lib LibExt.
Local Open Scope R_scope.
Local Open Scope res_scope.

(** [noise += small_noise / s]: [ValueError] when the operand has another
    shape than [noise].  (numpy would stretch an operand dimension of size 1;
    the operand here has the shape of [noise] for [s = 1] and dimensions that
    are multiples of [s] otherwise.) *)
Definition iadd_scaled (s : Z) (noise small_noise : raster) : result raster :=
  if same_shape noise small_noise
  then Ok (ew2 (fun n v => n + v / IZR s) noise small_noise)
  else Raise ValueError.

(** The geometry of [generate_heart_structure], for a given contraction. *)
Definition contraction (phase : R) : R := 0.15 * sin phase.
Definition outer_rx (c : R) : Z := Py.int (80 * (1 - c * 0.5)).
Definition outer_ry (c : R) : Z := Py.int (120 * (1 - c * 0.3)).
Definition inner_rx (c : R) : Z := Py.int (IZR (outer_rx c) * 0.6 * (1 - c)).
Definition inner_ry (c : R) : Z := Py.int (IZR (outer_ry c) * 0.6 * (1 - c)).
Definition valve_opening (c : R) : Z := Py.int (30 * (1 + c)).

(** The distance of pixel [(y, x)] from the apex [(0, width // 2)], as
    [create_sector_mask] computes it. *)
Definition distance (width : Z) (y x : Z) : R :=
  let cx := (width / 2)%Z in
  let cy := 0%Z in
  sqrt (IZR ((x - cx) ^ 2 + (y - cy) ^ 2)).

(** [attenuation = 1.0 - (y_coords / height) * 0.3] at row [y]. *)
Definition attenuation (height : Z) (y : Z) : R :=
  1.0 - (IZR y / IZR height) * 0.3.

Section WithLib.
Context {L : NumLib} {I : ImagingLib}.
Local Open Scope py_scope.

(** [create_sector_mask(width, height, angle_deg)] *)
Definition create_sector_mask (width height : Z) (angle_deg : R) : raster :=
  let cx := (width / 2)%Z in
  let cy := 0%Z in
  let angles := fun y x => arctan2 (IZR (x - cx)) (IZR (y - cy)) in
  let angle_rad := deg2rad (angle_deg / 2) in
  let in_sector := fun y x => Rleb (Rabs (angles y x)) angle_rad in
  let max_dist := IZR height * 0.95 in
  let min_dist := IZR height * 0.05 in
  let in_range := fun y x =>
    Rleb min_dist (distance width y x) && Rleb (distance width y x) max_dist in
  ogrid height width (fun y x => float_of_bool (in_sector y x && in_range y x)).

(** One pass of the loop of [generate_speckle_noise], for [s] in
    [[1, 2, 4]]. *)
Definition speckle_pass (width height : Z) (scale : R) (s : Z) (noise : raster)
  : M raster :=
  let small_h := (height / s)%Z in
  let small_w := (width / s)%Z in
  small_noise <- rayleigh scale small_h small_w ;;
  let small_noise :=
    if (1 <? s)%Z then crop height width (upsample (Z.to_nat s) small_noise)
    else small_noise in
  lift (iadd_scaled s noise small_noise).

(** [generate_speckle_noise(width, height, scale)] *)
Definition generate_speckle_noise (width height : Z) (scale : R) : M raster :=
  noise <- lift (np_zeros height width) ;;
  noise <- speckle_pass width height scale 1 noise ;;
  noise <- speckle_pass width height scale 2 noise ;;
  noise <- speckle_pass width height scale 4 noise ;;
  hi <- lift (np_max noise) ;;
  ret (ew (fun v => v / hi) noise).

(** [generate_heart_structure(width, height, frame, total_frames)] *)
Definition generate_heart_structure (width height frame total_frames : Z)
  : result raster :=
  (img <-- image_new width height ;;
   phase <-- truediv_float (2 * PI * IZR frame) total_frames ;;
   let contraction := contraction phase in
   let cx := (width / 2)%Z in
   let cy := (height / 2 + 30)%Z in
   let outer_rx := outer_rx contraction in
   let outer_ry := outer_ry contraction in
   let img := draw_ellipse_outline img
     (cx - outer_rx, cy - outer_ry, cx + outer_rx, cy + outer_ry)%Z 200 8 in
   let inner_rx := inner_rx contraction in
   let inner_ry := inner_ry contraction in
   let img := draw_ellipse img
     (cx - inner_rx, cy - inner_ry, cx + inner_rx, cy + inner_ry)%Z 20 in
   let valve_y := (cy - outer_ry + 20)%Z in
   let valve_opening := valve_opening contraction in
   let img := draw_line img
     [(cx - valve_opening, valve_y); (cx, valve_y + 15);
      (cx + valve_opening, valve_y)]%Z 180 4 in
   Ok (ew (fun v => IZR v / 255.0) img))%R.

(** [generate_echo_frame(width, height, frame, total_frames)] *)
Definition generate_echo_frame (width height frame total_frames : Z)
  : M (list (list Z)) :=
  let mask := create_sector_mask width height 80 in
  noise <- generate_speckle_noise width height 0.4 ;;
  heart <- lift (generate_heart_structure width height frame total_frames) ;;
  let base := full height width 0.05 in
  let image := ew2 Rplus base (ew (fun v => v * 0.3) noise) in
  let image := ew2 Rplus image (ew (fun v => v * 0.7) heart) in
  let image := ew2 Rmult image mask in
  let attenuation := map (attenuation height) (arange height) in
  let image := ew_col Rmult image attenuation in
  let image := ew (fun v => clip v 0 1) image in
  ret (ew Realistic.quantize image).

(** The loop of [generate_echo_dicom_files]. *)
Definition generate_frames (num_frames width height : Z) : M (list (list (list Z))) :=
  for_each (fun i => generate_echo_frame width height i num_frames)
           (arange num_frames).

(** The drawing calls return an image of the size of the one they are given. *)
Definition drawing_shaped : Prop :=
  forall rows cols (img : canvas),
    has_dims rows cols img ->
    (forall bbox v w, has_dims rows cols (draw_ellipse_outline img bbox v w))
    /\ (forall bbox v, has_dims rows cols (draw_ellipse img bbox v))
    /\ (forall xy v w, has_dims rows cols (draw_line img xy v w)).

End WithLib.

End V1.

(* ===================================================================== *)
(** ** The files of the first generator ([generate_echo_dicom_files]) *)
(* ===================================================================== *)

Module V1Files.

Import Uncompressed Lib LibExt.
Local Open Scope res_scope.

(** The rows of an (h, w) array with the given entries in C order. *)
Fixpoint rows_of (h w : nat) (entries : list byte) : frame :=
  match h with
  | O => []
  | S h' => firstn w entries :: rows_of h' w (skipn w entries)
  end.

(** [frame.reshape(1, height, width)]: the same entries as one slice of
    [height] rows and [width] columns; [ValueError] when the number of
    entries is not [height * width]. *)
Definition reshape_1 (height width : Z) (a : frame) : result (list frame) :=
  if ((0 <=? height)%Z && (0 <=? width)%Z
      && (Z.of_nat (length (tobytes2 a)) =? height * width)%Z)%bool
  then Ok [rows_of (Z.to_nat height) (Z.to_nat width) (tobytes2 a)]
  else Raise ValueError.

(** A dataset with its [InstanceNumber]. *)
Definition instance : Type := (Z * dataset)%type.

(** The body of the second loop of [generate_echo_dicom_files]:
    [create_dicom_dataset(single_pixel, frame_index=i, ...)] with
    [NumberOfFrames = 1] and [InstanceNumber = i + 1]. *)
Definition single_frame (height width : Z) (i : Z) (a : frame) : result instance :=
  single_pixel <-- reshape_1 height width a ;;
  let ds_single := create_dicom_dataset single_pixel in
  let ds_single :=
    {| SamplesPerPixel := SamplesPerPixel ds_single;
       NumberOfFrames := 1;
       Rows := Rows ds_single;
       Columns := Columns ds_single;
       BitsAllocated := BitsAllocated ds_single;
       BitsStored := BitsStored ds_single;
       HighBit := HighBit ds_single;
       PixelRepresentation := PixelRepresentation ds_single;
       PlanarConfiguration := PlanarConfiguration ds_single;
       PixelData := PixelData ds_single |} in
  Ok ((i + 1)%Z, ds_single).

(** [for i, frame in enumerate(frames)], from index [i] on. *)
Fixpoint single_frames (height width : Z) (i : Z) (frames : list frame)
  : result (list instance) :=
  match frames with
  | [] => Ok []
  | a :: rest =>
      ds_single <-- single_frame height width i a ;;
      others <-- single_frames height width (i + 1) rest ;;
      Ok (ds_single :: others)
  end.

(** [generate_echo_dicom_files] once the frames are generated: the
    multi-frame dataset, of instance number [frame_index + 1 = 1], then one
    dataset per frame. *)
Definition datasets (height width : Z) (frames : list frame)
  : result (instance * list instance) :=
  ds <-- assemble frames ;;
  singles <-- single_frames height width 0 frames ;;
  Ok ((1%Z, ds), singles).

(** The bytes of a [uint8] frame. *)
Definition to_bytes (a : list (list Z)) : frame := map (map byte.of_Z) a.

Section WithLib.
Context {L : NumLib} {I : ImagingLib}.
Local Open Scope py_scope.

(** [generate_echo_dicom_files(output_dir, num_frames, width, height)] up to
    the datasets: the frame loop, then the multi-frame dataset and the
    single-frame ones. *)
Definition generate_echo_dicom_files (num_frames width height : Z)
  : M (instance * list instance) :=
  frames <- V1.generate_frames num_frames width height ;;
  lift (datasets height width (map to_bytes frames)).

End WithLib.

End V1Files.

(* ===================================================================== *)
(** ** Tissue textures ([generate_tissue_texture]) *)
(* ===================================================================== *)

Module Texture.

Import Np Lib LibExt.
Import String.StringSyntax.
Local Open Scope R_scope.
Local Open Scope string_scope.

Section WithLib.
Context {L : NumLib} {I : ImagingLib}.
Local Open Scope py_scope.

Definition exponential (scale : R) (rows cols : Z) : M raster :=
  fun g => let (a, g') := random_exponential scale rows cols g in (Ok a, g').

Definition normal2 (loc scale : R) (rows cols : Z) : M raster :=
  fun g => let (a, g') := random_normal2 loc scale rows cols g in (Ok a, g').

(** The branches of [generate_tissue_texture]: the texture before clipping
    and the intensity. *)
Definition texture_of (width height : Z) (texture_type : String.string)
  : M (raster * R) :=
  if String.eqb texture_type "myocardium" then
    base <- rayleigh 0.5 height width ;;
    ret (gaussian_filter base (2, 0.5), 0.6)
  else if String.eqb texture_type "blood" then
    base <- exponential 0.1 height width ;;
    ret (gaussian_filter base (1.5, 1.5), 0.08)
  else if String.eqb texture_type "valve" then
    base <- normal2 0.9 0.05 height width ;;
    ret (gaussian_filter base (0.5, 0.5), 0.95)
  else if String.eqb texture_type "pericardium" then
    base <- normal2 0.85 0.08 height width ;;
    ret (gaussian_filter base (0.3, 1.5), 0.9)
  else
    ret (full height width 0.5, 0.5).

(** [generate_tissue_texture(width, height, texture_type)] *)
Definition generate_tissue_texture (width height : Z) (texture_type : String.string)
  : M raster :=
  ti <- texture_of width height texture_type ;;
  let '(texture, intensity) := ti in
  ret (ew (fun v => clip v 0 1 * intensity) texture).

End WithLib.

End Texture.

(* ===================================================================== *)
(** ** Entry points: [main] of the JPEG and of the realistic generator *)
(* ===================================================================== *)

Module Cli.

Import Lib LibExt.
Local Open Scope Z_scope.
Local Open Scope res_scope.

(** The code of a character of a command-line argument. *)
Definition code (c : Ascii.ascii) : Z := Z.of_N (Ascii.N_of_ascii c).

(** The argument holds ASCII characters only. *)
Definition is_ascii (s : String.string) : Prop :=
  Forall (fun c => code c < 128) (String.list_ascii_of_string s).

(** The whitespace [int] skips around a number: tab, line feed, vertical tab,
    form feed, carriage return and space. *)
Definition is_space (c : Ascii.ascii) : bool :=
  ((9 <=? code c) && (code c <=? 13)) || (code c =? 32).

Definition digit_of (c : Ascii.ascii) : option Z :=
  if (48 <=? code c) && (code c <=? 57) then Some (code c - 48) else None.

Fixpoint lstrip (s : list Ascii.ascii) : list Ascii.ascii :=
  match s with
  | c :: s' => if is_space c then lstrip s' else s
  | [] => []
  end.

Definition strip (s : list Ascii.ascii) : list Ascii.ascii :=
  rev (lstrip (rev (lstrip s))).

(** Decimal digits with single underscores between them: the value and the
    number of digits, or [None] when the characters are no such number. *)
Fixpoint digits (acc count : Z) (after_digit : bool) (s : list Ascii.ascii)
  : option (Z * Z) :=
  match s with
  | [] => if after_digit then Some (acc, count) else None
  | c :: s' =>
      match digit_of c with
      | Some d => digits (10 * acc + d) (count + 1) true s'
      | None =>
          if (code c =? 95) && after_digit then digits acc count false s'
          else None
      end
  end.

(** [sys.get_int_max_str_digits()], the most digits [int] converts. *)
Definition max_str_digits : Z := 4300.

(** [int(s)] on a string of ASCII characters: an optional sign and decimal
    digits, with whitespace around them allowed; [ValueError] on any other
    string, and on more than 4300 digits. *)
Definition int_of_str (s : String.string) : result Z :=
  let body := strip (String.list_ascii_of_string s) in
  let '(negative, body) :=
    match body with
    | c :: rest =>
        if code c =? 45 then (true, rest)
        else if code c =? 43 then (false, rest)
        else (false, body)
    | [] => (false, body)
    end in
  match digits 0 0 false body with
  | Some (n, count) =>
      if count <=? max_str_digits then Ok (if negative then - n else n)
      else Raise ValueError
  | None => Raise ValueError
  end.

(** [if len(sys.argv) > k: x = int(sys.argv[k])], after [x = default]. *)
Definition int_arg (argv : list String.string) (k : nat) (default : Z)
  : result Z :=
  match nth_error argv k with
  | Some s => int_of_str s
  | None => Ok default
  end.

(** A compression quality outside 1-100. *)
Definition invalid_quality (q : Z) : Prop := q < 1 \/ 100 < q.

Section WithLib.
Context {L : NumLib} {I : ImagingLib}.
Local Open Scope py_scope.

(** [main()] of [generate_echo_dicom_jpeg.py], up to the dataset that
    [generate_jpeg_dicom] builds; [argv] is [sys.argv]. *)
Definition main_jpeg (argv : list String.string) : M JpegRun.dataset :=
  let num_frames := 60 in
  let quality := 85 in
  num_frames <- lift (int_arg argv 2 num_frames) ;;
  quality <- lift (int_arg argv 3 quality) ;;
  let quality := Py.max 1 (Py.min 100 quality) in
  JpegRun.generate_jpeg_dicom num_frames quality 640 480 30.

(** [main()] of [generate_echo_dicom_realistic.py], up to the dataset that
    [generate_realistic_dicom] builds. *)
Definition main_realistic (argv : list String.string) : M JpegRun.dataset :=
  let num_frames := 90 in
  let quality := 90 in
  num_frames <- lift (int_arg argv 2 num_frames) ;;
  quality <- lift (int_arg argv 3 quality) ;;
  let quality := Py.max 1 (Py.min 100 quality) in
  JpegRun.generate_realistic_dicom num_frames quality 640 480 30 true true.

End WithLib.

End Cli.

(* ===================================================================== *)
(** ** The systole factor in double precision *)
(* ===================================================================== *)

Module Double.

Import Floats.
Local Open Scope float_scope.

(** [np.pi] *)
Definition np_pi : float := 0x1.921fb54442d18p+1.

(** The float of a Python int of less than [2 ** 53] in absolute value. *)
Definition of_int (z : Z) : float :=
  match z with
  | Z0 => 0
  | Zpos _ => of_uint63 (Uint63.of_Z z)
  | Zneg p => - of_uint63 (Uint63.of_Z (Zpos p))
  end.

(** The systole factor as [generate_4chamber_frame] and
    [generate_realistic_frame] compute it: [cycle = frame / total_frames],
    [phase = 2 * np.pi * cycle], [systole_factor = (np.sin(phase) + 1) / 2],
    on doubles, for a sine routine [sin]. *)
Definition systole_factor (sin : float -> float) (frame total_frames : Z)
  : result float :=
  if (total_frames =? 0)%Z then Raise ZeroDivisionError
  else
    let cycle := of_int frame / of_int total_frames in
    let phase := 2 * np_pi * cycle in
    Ok ((sin phase + 1) / 2).

(** A sine routine on doubles, after fdlibm: the argument is reduced by the
    nearest multiple of pi/2, which is held in three parts, and the sine or
    the cosine polynomial is evaluated on the remainder. *)
Definition kernel_sin (x y : float) : float :=
  let z := x * x in
  let w := z * z in
  let r := 0x1.111111110f8a6p-7
           + z * (-0x1.a01a019c161d5p-13 + z * 0x1.71de357b1fe7dp-19)
           + z * w * (-0x1.ae5e68a2b9cebp-26 + z * 0x1.5d93a5acfd57cp-33) in
  let v := z * x in
  x - ((z * (0.5 * y - v * r) - y) - v * -0x1.5555555555549p-3).

Definition kernel_cos (x y : float) : float :=
  let z := x * x in
  let w := z * z in
  let r := z * (0x1.555555555554cp-5
                + z * (-0x1.6c16c16c15177p-10 + z * 0x1.a01a019cb1590p-16))
           + w * w * (-0x1.27e4f809c52adp-22
                      + z * (0x1.1ee9ebdb4b1c4p-29
                             + z * -0x1.8fae9be8838d4p-37)) in
  let hz := 0.5 * z in
  let w := 1 - hz in
  w + (((1 - w) - hz) + (z * r - x * y)).

(** Rounding to the nearest integer, by adding and subtracting
    [1.5 * 2 ** 52]. *)
Definition rint (x : float) : float := (x + 0x1.8p+52) - 0x1.8p+52.

Definition rem_pio2 (x : float) : float * float * float :=
  let fn := rint (x * 0x1.45f306dc9c883p-1) in
  let r := x - fn * 0x1.921fb54400000p+0 in
  let t := r in
  let w := fn * 0x1.0b4611a600000p-34 in
  let r := t - w in
  let w := fn * 0x1.3198a2e037073p-69 - ((t - r) - w) in
  let t := r in
  let w := fn * 0x1.3198a2e000000p-69 in
  let r := t - w in
  let w := fn * 0x1.b839a252049c1p-104 - ((t - r) - w) in
  let y0 := r - w in
  let y1 := (r - y0) - w in
  (fn, y0, y1).

Definition sin (x : float) : float :=
  let '(fn, y0, y1) := rem_pio2 x in
  let q := fn - 4 * rint (fn * 0.25) in
  if q =? 0 then kernel_sin y0 y1
  else if q =? 1 then kernel_cos y0 y1
  else if q =? -1 then - kernel_cos y0 y1
  else - kernel_sin y0 y1.

End Double.




(* ===================================================================== *)
(** * Theorems *)
(* ===================================================================== *)

(** ** Encapsulation round trip *)

Section EncapsFacts.
Import Encaps.
Local Open Scope Z_scope.

Lemma length_pack_I n : length (pack_I n) = 4%nat.
Proof. apply length_le_split. Qed.

Lemma le_combine_pack_I n : 0 <= n < 2 ^ 32 -> le_combine (pack_I n) = n.
Proof.
  intros Hn. unfold pack_I. rewrite le_combine_split.
  change (Z.of_nat 4 * 8) with 32. apply Z.mod_small. exact Hn.
Qed.

Lemma take_exact_app (a b : list byte) :
  take_exact (length a) (a ++ b) = Some (a, b).
Proof.
  unfold take_exact.
  assert (Hle : (length a <=? length (a ++ b))%nat = true).
  { apply Nat.leb_le. rewrite length_app. lia. }
  rewrite Hle, firstn_app, skipn_app, Nat.sub_diag, firstn_all, skipn_all.
  cbn. now rewrite app_nil_r.
Qed.

Lemma take_exact_app_n n (a b : list byte) :
  length a = n -> take_exact n (a ++ b) = Some (a, b).
Proof. intros <-. apply take_exact_app. Qed.

Lemma read_header_app tag n rest :
  length tag = 4%nat -> 0 <= n < 2 ^ 32 ->
  read_header (tag ++ pack_I n ++ rest) = Some (tag, n, rest).
Proof.
  intros Ht Hn. unfold read_header.
  rewrite (take_exact_app_n 4 tag) by exact Ht.
  rewrite (take_exact_app_n 4 (pack_I n)) by apply length_pack_I.
  now rewrite le_combine_pack_I.
Qed.

Lemma bytes_eqb_refl a : bytes_eqb a a = true.
Proof. unfold bytes_eqb. destruct (list_eq_dec _ a a); congruence. Qed.

Lemma length_pad_even_even f : Nat.even (length (pad_even f)) = true.
Proof.
  unfold pad_even. destruct (Nat.even (length f)) eqn:E; [exact E|].
  rewrite length_app. cbn [length].
  replace (length f + 1)%nat with (S (length f)) by lia.
  rewrite Nat.even_succ. rewrite <- Nat.negb_even, E. reflexivity.
Qed.

Lemma length_pad_even_le f : (length (pad_even f) <= length f + 1)%nat.
Proof.
  unfold pad_even. destruct (Nat.even (length f)); [lia|].
  rewrite length_app. cbn. lia.
Qed.

Lemma recovered_pad_even f : recovered f (pad_even f).
Proof. unfold recovered, pad_even. destruct (Nat.even (length f)); reflexivity. Qed.

Lemma read_fragments_items frames : forall fuel,
  Forall fits_item frames ->
  (length (flat_map (fun f => itemise (pad_even f)) frames ++ sequence_delimiter)
     <= fuel)%nat ->
  read_fragments fuel
    (flat_map (fun f => itemise (pad_even f)) frames ++ sequence_delimiter)
  = Some (map pad_even frames).
Proof.
  induction frames as [|f fs IH]; intros fuel Hfit Hfuel.
  - destruct fuel as [|fuel]; [cbn in Hfuel; lia|]. reflexivity.
  - inversion Hfit as [|? ? Hf Hfs]; subst.
    destruct fuel as [|fuel]; [cbn in Hfuel; lia|].
    cbn [flat_map] in *. unfold itemise at 1 in Hfuel. unfold itemise at 1.
    rewrite <- !app_assoc in *.
    cbn [read_fragments].
    pose proof (length_pad_even_le f) as Hle. unfold fits_item in Hf.
    rewrite read_header_app by (try reflexivity; lia).
    change (bytes_eqb item_tag sequence_delimiter_tag) with false.
    rewrite bytes_eqb_refl. cbn iota.
    rewrite Nat2Z.id, take_exact_app.
    rewrite IH; [reflexivity | assumption |].
    rewrite !length_app in Hfuel. rewrite length_app.
    cbn [length item_tag] in Hfuel. lia.
Qed.

Lemma length_bot_offsets frames : forall start,
  length (bot_offsets start frames) = length frames.
Proof. induction frames; intros; cbn; [|rewrite IHframes]; reflexivity. Qed.

Lemma length_flat_map_pack_I (l : list Z) :
  length (flat_map pack_I l) = (4 * length l)%nat.
Proof.
  induction l as [|x l IH]; [reflexivity|].
  cbn [flat_map]. rewrite length_app, length_pack_I, IH. cbn [length]. lia.
Qed.

(** C1: for every ordered list of payloads whose lengths fit the 4-byte length
    fields, decapsulating the encapsulated stream by the documented layout
    gives back exactly as many payloads, in the same order, each equal to its
    input except for one trailing 0x00 byte when the input length is odd, and
    the stream ends with the zero-length sequence delimiter item. *)
Theorem encapsulate_round_trip (frames : list (list byte)) :
  Forall fits_item frames ->
  4 * Z.of_nat (length frames) < 2 ^ 32 ->
  exists out,
    decapsulate (encapsulate frames) = Some out
    /\ length out = length frames
    /\ Forall2 recovered frames out
    /\ exists body, encapsulate frames = body ++ sequence_delimiter.
Proof.
  intros Hfit Hbot. exists (map pad_even frames). repeat split.
  - unfold decapsulate, encapsulate, basic_offset_table.
    rewrite <- !app_assoc.
    rewrite read_header_app by (try reflexivity; lia).
    rewrite bytes_eqb_refl.
    rewrite (take_exact_app_n _ (flat_map pack_I (bot_offsets 0 frames))).
    + apply read_fragments_items; [assumption | lia].
    + rewrite length_flat_map_pack_I, length_bot_offsets. lia.
  - apply length_map.
  - clear. induction frames; cbn; constructor; auto using recovered_pad_even.
  - exists (basic_offset_table frames
            ++ flat_map (fun f => itemise (pad_even f)) frames).
    unfold encapsulate. now rewrite app_assoc.
Qed.

Lemma encapsulate_round_trip_witness :
  exists out,
    decapsulate (encapsulate [[x01; x02; x03]; [x04; x05]; []]) = Some out
    /\ length out = 3%nat
    /\ Forall2 recovered [[x01; x02; x03]; [x04; x05]; []] out
    /\ exists body,
         encapsulate [[x01; x02; x03]; [x04; x05]; []] = body ++ sequence_delimiter.
Proof.
  apply (encapsulate_round_trip [[x01; x02; x03]; [x04; x05]; []]).
  - repeat constructor.
  - reflexivity.
Defined.

End EncapsFacts.


(** ** Python [int()] on floats *)

Section PyIntFacts.
Local Open Scope R_scope.

Lemma py_int_le (x y : R) : x <= y -> (Py.int x <= Py.int y)%Z.
Proof.
  intros Hxy. unfold Py.int.
  destruct (Rle_dec 0 x) as [Hx|Hx], (Rle_dec 0 y) as [Hy|Hy].
  - now apply Zfloor_le.
  - lra.
  - assert (0 <= Zfloor (- x))%Z by (apply Zfloor_lub; lra).
    assert (0 <= Zfloor y)%Z by (apply Zfloor_lub; lra).
    lia.
  - assert (Zfloor (- y) <= Zfloor (- x))%Z by (apply Zfloor_le; lra).
    lia.
Qed.

Lemma py_int_nonneg (x : R) : 0 <= x -> (0 <= Py.int x)%Z.
Proof.
  intros Hx. unfold Py.int. destruct (Rle_dec 0 x); [|lra].
  apply Zfloor_lub. exact Hx.
Qed.

(** [int] of a value between [z] and [z + 1], for [z >= 0]. *)
Lemma py_int_eq (z : Z) (x : R) :
  (0 <= z)%Z -> IZR z <= x < IZR z + 1 -> Py.int x = z.
Proof.
  intros Hz Hx. unfold Py.int.
  assert (0 <= IZR z) by now apply IZR_le.
  destruct (Rle_dec 0 x); [|lra]. now apply Zfloor_eq.
Qed.

Lemma py_int_bounds (x : R) (lo hi : Z) :
  IZR lo <= x -> x <= IZR hi -> (lo <= Py.int x <= hi)%Z.
Proof.
  intros Hlo Hhi. split.
  - replace lo with (Py.int (IZR lo)); [now apply py_int_le|].
    unfold Py.int. destruct (Rle_dec 0 (IZR lo)).
    + apply ZfloorZ.
    + rewrite ZfloorNZ. lia.
  - replace hi with (Py.int (IZR hi)); [now apply py_int_le|].
    unfold Py.int. destruct (Rle_dec 0 (IZR hi)).
    + apply ZfloorZ.
    + rewrite ZfloorNZ. lia.
Qed.

End PyIntFacts.


(** ** Chamber and valve sizes against the systole factor *)

Section AnatomyFacts.
Import Anatomy.
Local Open Scope R_scope.

(** Truncation of [k * m] where [k >= 0] and [m] moves monotonically. *)
Lemma py_int_scaled_le (k m1 m2 : R) :
  0 <= k -> m1 <= m2 -> (Py.int (k * m1) <= Py.int (k * m2))%Z.
Proof. intros Hk Hm. apply py_int_le. now apply Rmult_le_compat_l. Qed.

(** C7: for systole factors [s1 <= s2] in [[0,1]] (and image dimensions that
    are not negative), every ventricular outer and inner radius at [s2] is at
    most its value at [s1], every atrial radius at [s2] is at least its value
    at [s1], and every valve opening at [s2] is at most its value at [s1]; this
    holds for the anatomy class of the realistic generator and for the chamber
    geometry of [generate_4chamber_frame]. *)
Theorem antiphase_sizes (w h : Z) (s1 s2 : R) :
  (0 <= w)%Z -> (0 <= h)%Z -> 0 <= s1 -> s1 <= s2 -> s2 <= 1 ->
  let a := init w h in
  (radii_le (outer (get_lv_contour a s2)) (outer (get_lv_contour a s1))
   /\ radii_le (inner (get_lv_contour a s2)) (inner (get_lv_contour a s1))
   /\ radii_le (outer (get_rv_contour a s2)) (outer (get_rv_contour a s1))
   /\ radii_le (inner (get_rv_contour a s2)) (inner (get_rv_contour a s1))
   /\ radii_le (radius (get_la_contour a s1)) (radius (get_la_contour a s2))
   /\ radii_le (radius (get_ra_contour a s1)) (radius (get_ra_contour a s2))
   /\ (opening (get_mitral_valve a s2) <= opening (get_mitral_valve a s1))%Z
   /\ (opening (get_tricuspid_valve a s2) <= opening (get_tricuspid_valve a s1))%Z)
  /\
  (radii_le (Chambers.lv_outer_rx s2, Chambers.lv_outer_ry s2)
            (Chambers.lv_outer_rx s1, Chambers.lv_outer_ry s1)
   /\ radii_le (Chambers.lv_inner_rx s2, Chambers.lv_inner_ry s2)
               (Chambers.lv_inner_rx s1, Chambers.lv_inner_ry s1)
   /\ radii_le (Chambers.rv_outer_rx s2, Chambers.rv_outer_ry s2)
               (Chambers.rv_outer_rx s1, Chambers.rv_outer_ry s1)
   /\ radii_le (Chambers.rv_inner_rx s2, Chambers.rv_inner_ry s2)
               (Chambers.rv_inner_rx s1, Chambers.rv_inner_ry s1)
   /\ radii_le (Chambers.la_rx s1, Chambers.la_ry s1)
               (Chambers.la_rx s2, Chambers.la_ry s2)
   /\ radii_le (Chambers.ra_rx s1, Chambers.ra_ry s1)
               (Chambers.ra_rx s2, Chambers.ra_ry s2)
   /\ (Chambers.mv_opening s2 <= Chambers.mv_opening s1)%Z
   /\ (Chambers.tv_opening s2 <= Chambers.tv_opening s1)%Z).
Proof.
  intros Hw Hh Hs1 Hs12 Hs2 a.
  assert (HW : 0 <= IZR w) by now apply IZR_le.
  assert (HH : 0 <= IZR h) by now apply IZR_le.
  unfold radii_le, Chambers.lv_outer_rx, Chambers.lv_outer_ry,
    Chambers.lv_inner_rx, Chambers.lv_inner_ry, Chambers.rv_outer_rx,
    Chambers.rv_outer_ry, Chambers.rv_inner_rx, Chambers.rv_inner_ry,
    Chambers.la_rx, Chambers.la_ry, Chambers.ra_rx, Chambers.ra_ry,
    Chambers.mv_opening, Chambers.tv_opening, Chambers.lv_contraction,
    Chambers.rv_contraction, Chambers.la_expansion, Chambers.ra_expansion.
  subst a. cbn [init get_lv_contour get_rv_contour get_la_contour get_ra_contour
                get_mitral_valve get_tricuspid_valve outer inner radius opening
                width height fst snd].
  repeat split; apply py_int_scaled_le; lra.
Qed.

Lemma antiphase_sizes_witness :
  radii_le (outer (get_lv_contour (init 640 480) 1))
           (outer (get_lv_contour (init 640 480) 0))
  /\ radii_le (radius (get_la_contour (init 640 480) 0))
              (radius (get_la_contour (init 640 480) 1))
  /\ (Chambers.mv_opening 1 <= Chambers.mv_opening 0)%Z.
Proof.
  assert (H0 : (0 <= 640)%Z) by lia.
  assert (H1 : (0 <= 480)%Z) by lia.
  assert (H2 : 0 <= 0) by lra.
  assert (H3 : 0 <= 1) by lra.
  assert (H4 : 1 <= 1) by lra.
  pose proof (antiphase_sizes 640 480 0 1 H0 H1 H2 H3 H4) as H.
  cbv zeta in H. intuition.
Defined.

End AnatomyFacts.


(** ** The cycle phase *)

Section CycleFacts.
Local Open Scope R_scope.

Lemma systole_of_cycle_bounded (c : R) : 0 <= Cycle.systole_of_cycle c <= 1.
Proof.
  unfold Cycle.systole_of_cycle.
  pose proof (SIN_bound (Cycle.phase c)). lra.
Qed.

Lemma truediv_nonzero (a b : Z) : b <> 0%Z -> Py.truediv a b = Ok (IZR a / IZR b).
Proof.
  intros Hb. unfold Py.truediv.
  destruct (Z.eqb_spec b 0); [contradiction | reflexivity].
Qed.

Lemma truediv_zero (a : Z) : Py.truediv a 0 = Raise ZeroDivisionError.
Proof. reflexivity. Qed.

(** C8, amended: for every frame index and every total frame count (other
    than 0, where the quotient does not exist), the systole factor
    [(sin(2 pi frame / total_frames) + 1) / 2] is computed and lies in
    [[0,1]]. *)
Theorem systole_factor_bounded (frame total_frames : Z) :
  total_frames <> 0%Z ->
  exists s,
    Cycle.systole_factor frame total_frames = Ok s
    /\ 0 <= s <= 1.
Proof.
  intros Ht.
  exists (Cycle.systole_of_cycle (IZR frame / IZR total_frames)).
  unfold Cycle.systole_factor. rewrite truediv_nonzero by assumption.
  split; [reflexivity|]. apply systole_of_cycle_bounded.
Qed.

Lemma systole_factor_bounded_witness :
  exists s, Cycle.systole_factor 7 30 = Ok s /\ 0 <= s <= 1.
Proof.
  apply (systole_factor_bounded 7 30). discriminate.
Defined.

End CycleFacts.

(** ** The cycle phase in double precision *)

Section DoubleFacts.
Import Floats.
Local Open Scope float_scope.

(** The phase at frame 0 is 0 and the phase at frame [total_frames] is the
    double [2 * np.pi], whatever the sine routine. *)
Lemma phase_at_period (sin : float -> float) :
  Double.systole_factor sin 0 30 = Ok ((sin 0 + 1) / 2)
  /\ Double.systole_factor sin (0 + 30) 30 = Ok ((sin (2 * Double.np_pi) + 1) / 2).
Proof.
  unfold Double.systole_factor. cbn [Z.eqb Z.add].
  replace (2 * Double.np_pi * (Double.of_int 0 / Double.of_int 30)) with 0
    by (vm_compute; reflexivity).
  replace (2 * Double.np_pi * (Double.of_int 30 / Double.of_int 30))
    with (2 * Double.np_pi) by (vm_compute; reflexivity).
  split; reflexivity.
Qed.

(** With a sine routine that returns 0 at 0 and the double nearest to the
    sine of the double [2 * np.pi] there (about -2.45e-16: the double
    [2 * np.pi] lies below 2 pi), the systole factor is 0.5 at frame 0 of 30
    and the next smaller double but one at frame 30. *)
Lemma systole_factor_at_period (sin : float -> float) :
  sin 0 = 0 -> sin (2 * Double.np_pi) = -0x1.1a62633145c07p-52 ->
  Double.systole_factor sin 0 30 = Ok 0.5
  /\ Double.systole_factor sin (0 + 30) 30 = Ok 0x1.ffffffffffffep-2.
Proof.
  intros H0 H1. destruct (phase_at_period sin) as [E0 E1].
  rewrite E0, E1, H0, H1. split; vm_compute; reflexivity.
Qed.

Lemma sin_at_period :
  Double.sin 0 = 0 /\ Double.sin (2 * Double.np_pi) = -0x1.1a62633145c07p-52.
Proof. split; vm_compute; reflexivity. Qed.

(** C8, as stated, fails on the doubles the scripts compute with: with 30
    frames the systole factor is 0.5 at frame 0 and 0.49999999999999989 at
    frame 0 + 30, so it is not the same one period later. *)
Lemma systole_factor_not_periodic :
  Double.systole_factor Double.sin 0 30 = Ok 0.5
  /\ Double.systole_factor Double.sin (0 + 30) 30 = Ok 0x1.ffffffffffffep-2
  /\ Double.systole_factor Double.sin 0 30
     <> Double.systole_factor Double.sin (0 + 30) 30.
Proof.
  destruct sin_at_period as [H0 H1].
  destruct (systole_factor_at_period Double.sin H0 H1) as [E0 E1].
  split; [exact E0|]. split; [exact E1|].
  rewrite E0, E1. vm_compute. intros H. discriminate H.
Qed.

End DoubleFacts.


(** ** The gain curves *)

Section TgcFacts.
Import Tgc.
Local Open Scope R_scope.

Lemma abs_sin_le (u : R) : 0 <= u -> - u <= sin u <= u.
Proof.
  intros Hu. destruct (Req_dec u 0) as [->|Hne].
  - rewrite sin_0. lra.
  - assert (Hpos : 0 < u) by lra.
    pose proof (sin_lt_x u Hpos). pose proof (SIN_bound u) as [Hlo Hhi].
    split; [|lra].
    destruct (Rle_dec u 1) as [H1|H1].
    + assert (0 <= sin u).
      { apply sin_ge_0; [lra|]. pose proof PI_RGT_0.
        pose proof (PI2_3_2). lra. }
      lra.
    + lra.
Qed.

(** The sine varies by at most the distance of its arguments. *)
Lemma sin_diff_bound (a b : R) : a <= b -> - (b - a) <= sin b - sin a.
Proof.
  intros Hab. rewrite form4.
  set (u := (b - a) / 2). set (c := cos ((b + a) / 2)).
  assert (Hu : 0 <= u) by (unfold u; lra).
  pose proof (abs_sin_le u Hu) as [Hs1 Hs2].
  pose proof (COS_bound ((b + a) / 2)) as [Hc1 Hc2]. fold c in Hc1, Hc2.
  replace (b - a) with (2 * u) by (unfold u; field).
  assert (- u <= c * sin u) by nra.
  lra.
Qed.

(** The gain of [apply_tgc] is strictly increasing. *)
Lemma tgc_curve_increasing (d1 d2 : R) : d1 < d2 -> tgc_curve d1 < tgc_curve d2.
Proof.
  intros Hd. unfold tgc_curve.
  assert (Hle : d1 * PI <= d2 * PI).
  { pose proof PI_RGT_0. nra. }
  pose proof (sin_diff_bound _ _ Hle) as Hs.
  pose proof PI_4. pose proof PI_RGT_0.
  assert ((d2 - d1) * PI <= (d2 - d1) * 4) by nra.
  nra.
Qed.

Lemma tgc_linear_increasing (y1 y2 : R) : y1 < y2 -> tgc_linear y1 < tgc_linear y2.
Proof. unfold tgc_linear. lra. Qed.

Lemma tgc_curve_0 : tgc_curve 0 = 0.7.
Proof. unfold tgc_curve. rewrite Rmult_0_l, sin_0. lra. Qed.

Lemma tgc_curve_1 : tgc_curve 1 = 1.3.
Proof. unfold tgc_curve. rewrite Rmult_1_l, sin_PI. lra. Qed.

(** C6, as stated, fails: neither gain curve decreases anywhere on [[0,1]]. *)
Lemma tgc_not_non_monotonic :
  ~ non_monotonic tgc_curve /\ ~ non_monotonic tgc_linear.
Proof.
  split; intros (d1 & d2 & _ & Hlt & _ & Hdec).
  - pose proof (tgc_curve_increasing d1 d2 Hlt). lra.
  - pose proof (tgc_linear_increasing d1 d2 Hlt). lra.
Qed.

(** C6, amended: the gain of the time-gain compensation is a strictly
    increasing function of the normalised depth. For [apply_tgc] it is
    [0.7 + 0.6 d + 0.1 sin(pi d)], going from 0.7 (suppression) at depth 0 to 1.3
    (boost) at depth 1, the sine term being a bump that vanishes at both ends;
    for [apply_ultrasound_artifacts] it is the line [0.7 + 0.5 d]. *)
Theorem tgc_gain_increasing (d1 d2 : R) :
  0 <= d1 -> d1 < d2 -> d2 <= 1 ->
  tgc_curve d1 < tgc_curve d2
  /\ tgc_linear d1 < tgc_linear d2
  /\ 0.7 <= tgc_curve d1 /\ tgc_curve d2 <= 1.3
  /\ tgc_curve 0 = 0.7 /\ tgc_curve 1 = 1.3.
Proof.
  intros H0 Hlt H1.
  split; [now apply tgc_curve_increasing|].
  split; [now apply tgc_linear_increasing|].
  split.
  - destruct (Req_dec d1 0) as [->|Hne]; [rewrite tgc_curve_0; lra|].
    pose proof (tgc_curve_increasing 0 d1 ltac:(lra)). rewrite tgc_curve_0 in *. lra.
  - split.
    + destruct (Req_dec d2 1) as [->|Hne]; [rewrite tgc_curve_1; lra|].
      pose proof (tgc_curve_increasing d2 1 ltac:(lra)). rewrite tgc_curve_1 in *. lra.
    + split; [apply tgc_curve_0 | apply tgc_curve_1].
Qed.

Lemma tgc_gain_increasing_witness :
  tgc_curve 0 < tgc_curve 1 /\ tgc_linear 0 < tgc_linear 1.
Proof.
  assert (H0 : 0 <= 0) by lra.
  assert (H1 : 0 < 1) by lra.
  assert (H2 : 1 <= 1) by lra.
  pose proof (tgc_gain_increasing 0 1 H0 H1 H2) as H. tauto.
Defined.

End TgcFacts.


(** ** Minimum and maximum of an array *)

Section ArrayBounds.
Import Np.
Local Open Scope R_scope.

Lemma fold_min_le_init xs : forall x, fold_left Rmin xs x <= x.
Proof.
  induction xs as [|y xs IH]; intros x; cbn; [lra|].
  eapply Rle_trans; [apply IH | apply Rmin_l].
Qed.

Lemma fold_min_lower xs : forall x v, In v (x :: xs) -> fold_left Rmin xs x <= v.
Proof.
  induction xs as [|y xs IH]; intros x v [<-|Hin]; cbn.
  - lra.
  - contradiction.
  - eapply Rle_trans; [apply fold_min_le_init | apply Rmin_l].
  - destruct Hin as [<-|Hin].
    + eapply Rle_trans; [apply fold_min_le_init | apply Rmin_r].
    + apply IH. now right.
Qed.

Lemma fold_min_in xs : forall x, In (fold_left Rmin xs x) (x :: xs).
Proof.
  induction xs as [|y xs IH]; intros x; cbn; [now left|].
  destruct (IH (Rmin x y)) as [H|H].
  - rewrite <- H. unfold Rmin.
    destruct (Rle_dec x y); [left | right; left]; reflexivity.
  - right; right; exact H.
Qed.

Lemma fold_max_ge_init xs : forall x, x <= fold_left Rmax xs x.
Proof.
  induction xs as [|y xs IH]; intros x; cbn; [lra|].
  eapply Rle_trans; [apply Rmax_l | apply IH].
Qed.

Lemma fold_max_upper xs : forall x v, In v (x :: xs) -> v <= fold_left Rmax xs x.
Proof.
  induction xs as [|y xs IH]; intros x v [<-|Hin]; cbn.
  - lra.
  - contradiction.
  - eapply Rle_trans; [apply Rmax_l | apply fold_max_ge_init].
  - destruct Hin as [<-|Hin].
    + eapply Rle_trans; [apply Rmax_r | apply fold_max_ge_init].
    + apply IH. now right.
Qed.

Lemma fold_max_in xs : forall x, In (fold_left Rmax xs x) (x :: xs).
Proof.
  induction xs as [|y xs IH]; intros x; cbn; [now left|].
  destruct (IH (Rmax x y)) as [H|H].
  - rewrite <- H. unfold Rmax.
    destruct (Rle_dec x y); [right; left | left]; reflexivity.
  - right; right; exact H.
Qed.

(** A non-decreasing map commutes with minimum and maximum. *)
Lemma fold_min_map (f : R -> R) xs :
  (forall a b, a <= b -> f a <= f b) ->
  forall x, fold_left Rmin (map f xs) (f x) = f (fold_left Rmin xs x).
Proof.
  intros Hf. induction xs as [|y xs IH]; intros x; cbn; [reflexivity|].
  rewrite <- IH. f_equal. unfold Rmin.
  destruct (Rle_dec x y) as [Hxy|Hxy], (Rle_dec (f x) (f y)) as [Hf'|Hf'];
    try reflexivity.
  - exfalso. apply Hf'. now apply Hf.
  - assert (f y <= f x) by (apply Hf; lra). lra.
Qed.

Lemma fold_max_map (f : R -> R) xs :
  (forall a b, a <= b -> f a <= f b) ->
  forall x, fold_left Rmax (map f xs) (f x) = f (fold_left Rmax xs x).
Proof.
  intros Hf. induction xs as [|y xs IH]; intros x; cbn; [reflexivity|].
  rewrite <- IH. f_equal. unfold Rmax.
  destruct (Rle_dec x y) as [Hxy|Hxy], (Rle_dec (f x) (f y)) as [Hf'|Hf'];
    try reflexivity.
  - exfalso. apply Hf'. now apply Hf.
  - assert (f y <= f x) by (apply Hf; lra). lra.
Qed.

Lemma concat_ew (f : R -> R) (a : raster) : concat (ew f a) = map f (concat a).
Proof. unfold ew. now rewrite concat_map. Qed.

Lemma amin_ew (f : R -> R) (a : raster) :
  (forall x y, x <= y -> f x <= f y) -> concat a <> [] ->
  amin (ew f a) = f (amin a).
Proof.
  intros Hf Hne. unfold amin. rewrite concat_ew.
  destruct (concat a) as [|x xs]; [contradiction|]. cbn [map].
  now apply fold_min_map.
Qed.

Lemma amax_ew (f : R -> R) (a : raster) :
  (forall x y, x <= y -> f x <= f y) -> concat a <> [] ->
  amax (ew f a) = f (amax a).
Proof.
  intros Hf Hne. unfold amax. rewrite concat_ew.
  destruct (concat a) as [|x xs]; [contradiction|]. cbn [map].
  now apply fold_max_map.
Qed.

Lemma amin_le (a : raster) v : In v (concat a) -> amin a <= v.
Proof.
  unfold amin. destruct (concat a) as [|x xs]; [contradiction|].
  apply fold_min_lower.
Qed.

Lemma amax_ge (a : raster) v : In v (concat a) -> v <= amax a.
Proof.
  unfold amax. destruct (concat a) as [|x xs]; [contradiction|].
  apply fold_max_upper.
Qed.

Lemma amin_le_amax (a : raster) : amin a <= amax a.
Proof.
  unfold amin, amax. destruct (concat a) as [|x xs]; [lra|].
  eapply Rle_trans; [apply fold_min_le_init | apply fold_max_ge_init].
Qed.

Lemma amax_in (a : raster) : concat a <> [] -> In (amax a) (concat a).
Proof.
  unfold amax. destruct (concat a) as [|x xs]; [contradiction|].
  intros _. apply fold_max_in.
Qed.

Lemma in_raster_concat (a : raster) row v : In row a -> In v row -> In v (concat a).
Proof. intros Hr Hv. apply in_concat. eauto. Qed.

(** A property of every entry of [ew f a], from the entries of [a]. *)
Lemma Forall_ew (f : R -> R) (P : R -> Prop) (a : raster) :
  (forall v, In v (concat a) -> P (f v)) -> Forall (Forall P) (ew f a).
Proof.
  intros H. unfold ew. apply Forall_forall. intros row' Hrow'.
  apply in_map_iff in Hrow' as (row & <- & Hrow).
  apply Forall_forall. intros v' Hv'.
  apply in_map_iff in Hv' as (v & <- & Hv).
  apply H. eapply in_raster_concat; eauto.
Qed.

End ArrayBounds.


(** ** Normalisation of the speckle fields *)

Section SpeckleFacts.
Import Np Shape Speckle.
Local Open Scope R_scope.

Lemma div_le_compat (d a b : R) : 0 < d -> a <= b -> a / d <= b / d.
Proof.
  intros Hd Hab. unfold Rdiv. apply Rmult_le_compat_r; [|exact Hab].
  left. now apply Rinv_0_lt_compat.
Qed.

Lemma div_pos_bounds (d a : R) : 0 < d -> 0 <= a -> a < d -> 0 <= a / d < 1.
Proof.
  intros Hd Ha Had. split.
  - apply Rmult_le_pos; [exact Ha | left; now apply Rinv_0_lt_compat].
  - apply (Rmult_lt_reg_r d); [exact Hd|].
    unfold Rdiv. rewrite Rmult_assoc, Rinv_l by lra. lra.
Qed.

(** [a.min()] and [a.max()] on an array with entries, and on one without. *)
Lemma np_min_amin (a : raster) : concat a <> [] -> np_min a = Ok (amin a).
Proof.
  intros Hne. unfold np_min, amin. destruct (concat a); [contradiction|reflexivity].
Qed.

Lemma np_max_amax (a : raster) : concat a <> [] -> np_max a = Ok (amax a).
Proof.
  intros Hne. unfold np_max, amax. destruct (concat a); [contradiction|reflexivity].
Qed.

Lemma np_min_empty (a : raster) : concat a = [] -> np_min a = Raise ValueError.
Proof. intros E. unfold np_min. now rewrite E. Qed.

Lemma np_max_empty (a : raster) : concat a = [] -> np_max a = Raise ValueError.
Proof. intros E. unfold np_max. now rewrite E. Qed.

Lemma np_max_returns (a : raster) (hi : R) :
  np_max a = Ok hi -> concat a <> [] /\ hi = amax a.
Proof.
  unfold np_max, amax. destruct (concat a); [discriminate|].
  intros [= <-]. split; [discriminate|reflexivity].
Qed.

(** The normalisation returns for a field with entries and raises for one
    without. *)
Lemma normalize_returns (speckle : raster) :
  concat speckle <> [] ->
  normalize speckle
  = Ok (ew (fun v => (v - amin speckle) / (amax speckle - amin speckle + 1e-8))
           speckle).
Proof.
  intros Hne. unfold normalize.
  now rewrite np_min_amin, np_max_amax by assumption.
Qed.

Lemma normalize_raises (speckle : raster) :
  concat speckle = [] -> normalize speckle = Raise ValueError.
Proof. intros E. unfold normalize. now rewrite np_min_empty. Qed.

Lemma normalize_inv (speckle a : raster) :
  normalize speckle = Ok a ->
  concat speckle <> []
  /\ a = ew (fun v => (v - amin speckle) / (amax speckle - amin speckle + 1e-8))
            speckle.
Proof.
  intros E. assert (Hne : concat speckle <> []).
  { intros Ec. rewrite normalize_raises in E by assumption. discriminate. }
  rewrite normalize_returns in E by assumption. injection E as <-.
  split; [exact Hne | reflexivity].
Qed.

(** The realistic generator: the minimum of the normalised field is 0 and its
    maximum stays below 1. *)
Lemma normalize_range (speckle a : raster) :
  normalize speckle = Ok a ->
  amin a = 0
  /\ amax a = (amax speckle - amin speckle) / (amax speckle - amin speckle + 1e-8)
  /\ amax a < 1
  /\ Forall (Forall (fun v => 0 <= v < 1)) a.
Proof.
  intros E. apply normalize_inv in E as [Hne ->].
  set (lo := amin speckle). set (hi := amax speckle).
  pose proof (amin_le_amax speckle) as Hlohi. fold lo hi in Hlohi.
  assert (Hd : 0 < hi - lo + 1e-8) by lra.
  assert (Hmono : forall x y, x <= y ->
            (x - lo) / (hi - lo + 1e-8) <= (y - lo) / (hi - lo + 1e-8)).
  { intros x y Hxy. apply div_le_compat; lra. }
  rewrite amin_ew, amax_ew by assumption. fold lo hi.
  split; [unfold Rdiv; ring|].
  split; [reflexivity|].
  split; [apply div_pos_bounds; lra|].
  apply Forall_ew. intros v Hv.
  pose proof (amin_le _ _ Hv). pose proof (amax_ge _ _ Hv).
  apply div_pos_bounds; unfold lo, hi in *; lra.
Qed.

(** The v2 and JPEG generators: the scaling returns for a field with
    entries. *)
Lemma scale_to_intensity_returns (intensity : R) (noise : raster) :
  concat noise <> [] ->
  scale_to_intensity intensity noise
  = Ok (ew (fun v => v / amax noise * intensity) noise).
Proof.
  intros Hne. unfold scale_to_intensity. now rewrite np_max_amax by assumption.
Qed.

Lemma scale_to_intensity_inv (intensity : R) (noise a : raster) :
  scale_to_intensity intensity noise = Ok a ->
  concat noise <> [] /\ a = ew (fun v => v / amax noise * intensity) noise.
Proof.
  unfold scale_to_intensity. intros E.
  destruct (np_max noise) as [hi|e] eqn:Eh; [|discriminate].
  apply np_max_returns in Eh as [Hne ->]. cbn [LibExt.rbind] in E.
  injection E as <-. split; [exact Hne | reflexivity].
Qed.

(** The maximum of the scaled field is the intensity, the minimum is only
    rescaled. *)
Lemma scale_to_intensity_range (intensity : R) (noise : raster) :
  0 <= intensity -> 0 < amax noise ->
  Forall (Forall (fun v => 0 <= v)) noise ->
  exists a,
    scale_to_intensity intensity noise = Ok a
    /\ amax a = intensity
    /\ amin a = amin noise / amax noise * intensity
    /\ Forall (Forall (fun v => 0 <= v <= intensity)) a.
Proof.
  intros Hi Hmax Hpos.
  assert (Hne : concat noise <> []).
  { intros E. unfold amax in Hmax. rewrite E in Hmax. lra. }
  eexists. split; [now apply scale_to_intensity_returns|].
  set (hi := amax noise) in *.
  assert (Hmono : forall x y, x <= y -> x / hi * intensity <= y / hi * intensity).
  { intros x y Hxy. apply Rmult_le_compat_r; [exact Hi|]. now apply div_le_compat. }
  rewrite amin_ew, amax_ew by assumption. fold hi.
  split; [field; lra|]. split; [reflexivity|].
  apply Forall_ew. intros v Hv.
  pose proof (amax_ge _ _ Hv) as Hle. fold hi in Hle.
  assert (0 <= v).
  { apply in_concat in Hv as (row & Hrow & Hv).
    rewrite Forall_forall in Hpos. specialize (Hpos _ Hrow).
    rewrite Forall_forall in Hpos. now apply Hpos. }
  assert (0 <= v / hi <= 1).
  { split.
    - apply Rmult_le_pos; [assumption | left; now apply Rinv_0_lt_compat].
    - apply (Rmult_le_reg_r hi); [exact Hmax|].
      unfold Rdiv. rewrite Rmult_assoc, Rinv_l by lra. lra. }
  nra.
Qed.

(** Whatever the field, the maximum after the realistic normalisation is
    not 1. *)
Lemma normalize_max_not_1 (speckle a : raster) :
  normalize speckle = Ok a -> amax a <> 1.
Proof.
  intros E. pose proof (normalize_range speckle a E) as (_ & _ & Hlt & _). lra.
Qed.

End SpeckleFacts.


(** ** Uncompressed pixel data *)

Section UncompressedFacts.
Import Uncompressed.

Lemma length_concat_uniform {A : Type} (c : nat) (l : list (list A)) :
  Forall (fun row => length row = c) l -> length (concat l) = (length l * c)%nat.
Proof.
  induction 1 as [|row l Hrow _ IH]; [reflexivity|].
  cbn [concat length]. rewrite length_app, IH, Hrow. lia.
Qed.

(** In the concatenation of rows of length [c], entry [i * c + j] is entry [j]
    of row [i]. *)
Lemma nth_error_concat_uniform {A : Type} (c : nat) (l : list (list A)) :
  Forall (fun row => length row = c) l ->
  forall i j row, nth_error l i = Some row -> (j < c)%nat ->
  nth_error (concat l) (i * c + j) = nth_error row j.
Proof.
  induction 1 as [|r l Hr _ IH]; intros i j row Hi Hj.
  - destruct i; discriminate.
  - destruct i as [|i]; cbn in Hi.
    + injection Hi as ->. cbn [concat]. rewrite nth_error_app1 by lia. reflexivity.
    + cbn [concat]. rewrite nth_error_app2 by (rewrite Hr; lia).
      replace (S i * c + j - length r)%nat with (i * c + j)%nat by (rewrite Hr; lia).
      now apply IH.
Qed.

Lemma has_shape_tobytes2 rows cols a :
  has_shape rows cols a -> length (tobytes2 a) = (rows * cols)%nat.
Proof.
  intros [Hr Hc]. unfold tobytes2. rewrite (length_concat_uniform cols) by exact Hc.
  now rewrite Hr.
Qed.

Lemma np_stack_uniform rows cols (frames : list frame) :
  frames <> [] -> Forall (has_shape rows cols) frames ->
  np_stack frames = Ok frames.
Proof.
  intros Hne Hall. destruct frames as [|f fs]; [contradiction|].
  unfold np_stack.
  replace (forallb (fun g => shape2_eqb (shape2 g) (shape2 f)) fs) with true;
    [reflexivity|].
  symmetry. apply forallb_forall. intros g Hg.
  inversion Hall as [|? ? Hf Hfs]; subst.
  rewrite Forall_forall in Hfs. specialize (Hfs g Hg).
  destruct Hf as [Hf1 Hf2], Hfs as [Hg1 Hg2].
  unfold shape2_eqb, shape2. cbn [fst snd].
  apply andb_true_iff. split; apply Nat.eqb_eq; [congruence|].
  destruct f as [|rf f], g as [|rg g]; cbn in *; try congruence.
  inversion Hf2; inversion Hg2; congruence.
Qed.

Lemma shape3_uniform rows cols (frames : list frame) :
  frames <> [] -> Forall (has_shape rows cols) frames -> (0 < rows)%nat ->
  shape3 frames = (length frames, rows, cols).
Proof.
  intros Hne Hall Hrows. destruct frames as [|f fs]; [contradiction|].
  inversion Hall as [|? ? [Hf1 Hf2] _]; subst.
  unfold shape3. cbn [hd]. destruct f as [|r f]; [cbn in Hrows; lia|].
  cbn [hd]. inversion Hf2; subst. reflexivity.
Qed.

(** C2: for a non-empty list of 8-bit frames of one shape [rows x cols] (with
    [rows > 0]), the dataset is built, its pixel data are the bytes of the
    frames concatenated in frame order, each frame row by row, nothing in
    between: pixel [(i, j)] of frame [f] is byte number
    [f * (rows * cols) + i * cols + j]; and its length is
    [NumberOfFrames * Rows * Columns * SamplesPerPixel]. *)
Theorem uncompressed_pixel_data (rows cols : nat) (frames : list frame) :
  frames <> [] -> (0 < rows)%nat -> Forall (has_shape rows cols) frames ->
  exists ds,
    assemble frames = Ok ds
    /\ PixelData ds = concat (map (fun a => concat a) frames)
    /\ NumberOfFrames ds = Z.of_nat (length frames)
    /\ Rows ds = Z.of_nat rows /\ Columns ds = Z.of_nat cols
    /\ SamplesPerPixel ds = 1%Z
    /\ Z.of_nat (length (PixelData ds))
       = (NumberOfFrames ds * Rows ds * Columns ds * SamplesPerPixel ds)%Z
    /\ forall f i j, (f < length frames)%nat -> (i < rows)%nat -> (j < cols)%nat ->
         nth_error (PixelData ds) (f * (rows * cols) + i * cols + j)
         = pixel frames f i j
         /\ pixel frames f i j <> None.
Proof.
  intros Hne Hrows Hall.
  exists (create_dicom_dataset frames).
  unfold assemble. rewrite (np_stack_uniform rows cols) by assumption.
  unfold create_dicom_dataset.
  rewrite (shape3_uniform rows cols) by assumption.
  cbn [PixelData NumberOfFrames Rows Columns SamplesPerPixel].
  assert (Hlen : Forall (fun bs => length bs = (rows * cols)%nat)
                   (map tobytes2 frames)).
  { apply Forall_map. eapply Forall_impl; [|exact Hall].
    intros a Ha. now apply has_shape_tobytes2. }
  repeat split.
  - unfold tobytes. rewrite (length_concat_uniform _ _ Hlen), length_map. lia.
  - unfold tobytes, pixel.
    destruct (nth_error frames f) as [a|] eqn:Ef;
      [|apply nth_error_None in Ef; lia].
    assert (Ha : has_shape rows cols a).
    { rewrite Forall_forall in Hall. apply Hall. eapply nth_error_In; eauto. }
    destruct Ha as [Ha1 Ha2].
    destruct (nth_error a i) as [row|] eqn:Ei;
      [|apply nth_error_None in Ei; lia].
    rewrite <- Nat.add_assoc.
    rewrite (nth_error_concat_uniform (rows * cols) _ Hlen f (i * cols + j)
               (tobytes2 a)).
    + unfold tobytes2. now apply (nth_error_concat_uniform cols).
    + now rewrite nth_error_map, Ef.
    + nia.
  - unfold pixel.
    destruct (nth_error frames f) as [a|] eqn:Ef;
      [|apply nth_error_None in Ef; lia].
    assert (Ha : has_shape rows cols a).
    { rewrite Forall_forall in Hall. apply Hall. eapply nth_error_In; eauto. }
    destruct Ha as [Ha1 Ha2].
    destruct (nth_error a i) as [row|] eqn:Ei;
      [|apply nth_error_None in Ei; lia].
    intros E. apply nth_error_None in E.
    rewrite Forall_forall in Ha2.
    rewrite (Ha2 row) in E by (eapply nth_error_In; eauto). lia.
Qed.

Lemma uncompressed_pixel_data_witness :
  exists ds,
    assemble [[[x01; x02]; [x03; x04]]; [[x05; x06]; [x07; x08]]] = Ok ds
    /\ PixelData ds = [x01; x02; x03; x04; x05; x06; x07; x08].
Proof.
  assert (H1 : [[[x01; x02]; [x03; x04]]; [[x05; x06]; [x07; x08]]] <> [])
    by discriminate.
  assert (H2 : (0 < 2)%nat) by lia.
  assert (H3 : Forall (has_shape 2 2)
                 [[[x01; x02]; [x03; x04]]; [[x05; x06]; [x07; x08]]])
    by (repeat constructor).
  destruct (uncompressed_pixel_data 2 2 _ H1 H2 H3) as (ds & Hds & Hpix & _).
  exists ds. split; [exact Hds | exact Hpix].
Defined.

End UncompressedFacts.


(** ** Entries of elementwise results *)

Section ElementwiseFacts.
Import Np Lib.

Lemma Forall_zip_with {A B C : Type} (f : A -> B -> C) (P : C -> Prop) :
  (forall x y, P (f x y)) -> forall a b, Forall P (zip_with f a b).
Proof.
  intros H. induction a as [|x a IH]; intros [|y b]; cbn; constructor; auto.
Qed.

Lemma Forall_ew2 {A B C : Type} (f : A -> B -> C) (P : C -> Prop) a b :
  (forall x y, P (f x y)) -> Forall (Forall P) (ew2 f a b).
Proof.
  intros H. unfold ew2. apply Forall_zip_with. intros r s.
  now apply Forall_zip_with.
Qed.

Lemma Forall_ew_all {A B : Type} (f : A -> B) (P : B -> Prop) a :
  (forall x, P (f x)) -> Forall (Forall P) (ew f a).
Proof.
  intros H. unfold ew. apply Forall_map, Forall_forall. intros r _.
  apply Forall_map, Forall_forall. auto.
Qed.

Lemma Forall_ew_from {A B : Type} (f : A -> B) (Q : A -> Prop) (P : B -> Prop) a :
  (forall x, Q x -> P (f x)) -> Forall (Forall Q) a -> Forall (Forall P) (ew f a).
Proof.
  intros H Ha. unfold ew. apply Forall_map.
  eapply Forall_impl; [|exact Ha]. intros r Hr. apply Forall_map.
  eapply Forall_impl; [|exact Hr]. exact H.
Qed.

Lemma nth_error_arange (n i : Z) :
  (0 <= i < n)%Z -> nth_error (arange n) (Z.to_nat i) = Some i.
Proof.
  intros Hi. unfold arange. rewrite nth_error_map, nth_error_seq.
  assert (H : (Z.to_nat i <? Z.to_nat n)%nat = true) by (apply Nat.ltb_lt; lia).
  rewrite H. cbn. f_equal. lia.
Qed.

Lemma getitem_ogrid {A : Type} (height width : Z) (f : Z -> Z -> A) (y x : Z) :
  (0 <= y < height)%Z -> (0 <= x < width)%Z ->
  getitem (ogrid height width f) y x = Some (f y x).
Proof.
  intros Hy Hx. unfold getitem, ogrid.
  rewrite nth_error_map, nth_error_arange by exact Hy. cbn [option_map].
  rewrite nth_error_map, nth_error_arange by exact Hx. reflexivity.
Qed.

Lemma nth_error_zip_with {A B C : Type} (f : A -> B -> C) a b n u v :
  nth_error a n = Some u -> nth_error b n = Some v ->
  nth_error (zip_with f a b) n = Some (f u v).
Proof.
  revert b n. induction a as [|x a IH]; intros [|y b] [|n]; cbn; try discriminate.
  - now intros [= ->] [= ->].
  - apply IH.
Qed.

Lemma getitem_ew2 {A B C : Type} (f : A -> B -> C) a b (y x : Z) u v :
  getitem a y x = Some u -> getitem b y x = Some v ->
  getitem (ew2 f a b) y x = Some (f u v).
Proof.
  unfold getitem, ew2. intros Ha Hb.
  destruct (nth_error a (Z.to_nat y)) as [ra|] eqn:Ea; [|discriminate].
  destruct (nth_error b (Z.to_nat y)) as [rb|] eqn:Eb; [|discriminate].
  rewrite (nth_error_zip_with _ _ _ _ _ _ Ea Eb).
  now apply nth_error_zip_with.
Qed.

Lemma getitem_ew {A B : Type} (f : A -> B) a (y x : Z) u :
  getitem a y x = Some u -> getitem (ew f a) y x = Some (f u).
Proof.
  unfold getitem, ew. intros Ha. rewrite nth_error_map.
  destruct (nth_error a (Z.to_nat y)) as [ra|]; [|discriminate].
  cbn [option_map]. rewrite nth_error_map, Ha. reflexivity.
Qed.

End ElementwiseFacts.


(** ** Clipping and quantisation *)

Section QuantizeFacts.
Import Np Lib Realistic.
Local Open Scope R_scope.

Lemma clip_unit (x : R) : in_unit (clip x 0 1).
Proof.
  unfold in_unit, clip, Rmin, Rmax.
  destruct (Rle_dec x 0); destruct (Rle_dec _ 1); lra.
Qed.

Lemma clip_unit_id (x : R) : in_unit x -> clip x 0 1 = x.
Proof.
  unfold in_unit, clip, Rmin, Rmax. intros Hx.
  destruct (Rle_dec x 0); destruct (Rle_dec _ 1); lra.
Qed.

(** After the clip, the cast to [uint8] keeps the truncated value as it is. *)
Lemma quantize_unit (v : R) : in_unit v -> quantized (quantize v).
Proof.
  intros Hv. unfold in_unit in Hv.
  assert (Hb : (0 <= Py.int (v * 255) <= 255)%Z).
  { apply py_int_bounds; lra. }
  assert (Hq : quantize v = Py.int (v * 255)).
  { unfold quantize, astype_uint8. apply Z.mod_small. lia. }
  split; [rewrite Hq; exact Hb|]. exists v. split; [exact Hv | exact Hq].
Qed.

Lemma blend_unit (h i d : R) : in_unit (blend h i d).
Proof. unfold blend. apply clip_unit. Qed.

End QuantizeFacts.

(** ** The state monad and the loops *)

Section MonadFacts.
Import Np Lib LibExt.
Context {L : NumLib}.
Local Open Scope R_scope.

(** A computation that starts by running [m], where [m] forgets the state it
    is started in, forgets it as well. *)
Lemma bind_forgets {A B : Type} (m : M A) (k : A -> M B) (g1 g2 : rng) :
  m g1 = m g2 -> bind m k g1 = bind m k g2.
Proof. intros E. unfold bind. now rewrite E. Qed.

Lemma bind_lift {A B : Type} (r : result A) (k : A -> M B) (g : rng) :
  bind (lift r) k g
  = match r with Ok a => k a g | Raise e => (Raise e, g) end.
Proof. reflexivity. Qed.

Lemma length_arange (n : Z) : length (arange n) = Z.to_nat n.
Proof. unfold arange. now rewrite length_map, length_seq. Qed.

Lemma in_arange (n i : Z) : In i (arange n) -> (0 <= i < n)%Z.
Proof.
  unfold arange. intros H. apply in_map_iff in H as (k & <- & Hk).
  apply in_seq in Hk. lia.
Qed.

(** A loop whose body returns for every index returns one item per index. *)
Lemma for_each_returns {A : Type} (body : Z -> M A) (P : A -> Prop) (indices : list Z) :
  (forall i, In i indices -> forall g, exists a g', body i g = (Ok a, g') /\ P a) ->
  forall g, exists items g',
    for_each body indices g = (Ok items, g')
    /\ length items = length indices /\ Forall P items.
Proof.
  induction indices as [|i rest IH]; intros Hbody g.
  - exists [], g. repeat split. constructor.
  - destruct (Hbody i (or_introl eq_refl) g) as (a & g1 & Ea & Pa).
    destruct (IH (fun j Hj => Hbody j (or_intror Hj)) g1) as (items & g2 & Ei & Hl & HP).
    exists (a :: items), g2. cbn [for_each]. unfold bind at 1. rewrite Ea.
    unfold bind at 1. rewrite Ei. unfold ret.
    repeat split; [cbn; now rewrite Hl | now constructor].
Qed.

End MonadFacts.


(** ** Upsampling of the coarse speckle layers *)

Section Upsampling.
Import Np.

Lemma nth_error_repeat_each {A : Type} (k : nat) (l : list A) :
  (0 < k)%nat -> forall n, nth_error (repeat_each k l) n = nth_error l (n / k).
Proof.
  intros Hk. unfold repeat_each.
  induction l as [|x l IH]; intros n; cbn [flat_map].
  - now rewrite !nth_error_nil.
  - destruct (Nat.lt_ge_cases n k) as [Hlt|Hge].
    + rewrite nth_error_app1 by now rewrite repeat_length.
      rewrite Nat.div_small by exact Hlt. cbn [nth_error].
      now apply nth_error_repeat.
    + rewrite nth_error_app2 by now rewrite repeat_length.
      rewrite repeat_length, IH.
      replace (n / k)%nat with (S ((n - k) / k)); [reflexivity|].
      replace n with ((n - k) + 1 * k)%nat at 2 by lia.
      rewrite Nat.div_add by lia. lia.
Qed.

Lemma length_repeat_each {A : Type} (k : nat) (l : list A) :
  length (repeat_each k l) = (k * length l)%nat.
Proof.
  unfold repeat_each. induction l as [|x l IH]; cbn [flat_map length]; [lia|].
  rewrite length_app, repeat_length, IH. lia.
Qed.

Lemma to_nat_div (y : Z) (k : nat) :
  (0 < k)%nat -> (0 <= y)%Z -> (Z.to_nat y / k)%nat = Z.to_nat (y / Z.of_nat k).
Proof.
  intros Hk Hy. apply Nat2Z.inj. rewrite Nat2Z.inj_div, !Z2Nat.id; try lia.
  apply Z.div_pos; lia.
Qed.

(** X10: the upsampled, cropped layer
    [np.repeat(np.repeat(layer, k, axis=0), k, axis=1)[:height, :width]] is the
    nearest-neighbour replication of the layer: inside the crop, its pixel
    [(y, x)] is pixel [(y // k, x // k)] of the layer.  Built from a layer of
    [height // k] rows it has [height - height mod k] rows, that is, it covers
    the [height] rows of the frame only when [k] divides [height]. *)
Theorem upsample_nearest_neighbour (k : nat) (height width : Z) (layer : raster)
  (y x : Z) :
  (0 < k)%nat -> (0 <= y < height)%Z -> (0 <= x < width)%Z ->
  length layer = Z.to_nat (height / Z.of_nat k) ->
  getitem (crop height width (upsample k layer)) y x
  = getitem layer (y / Z.of_nat k) (x / Z.of_nat k)
  /\ Z.of_nat (length (crop height width (upsample k layer)))
     = (height - height mod Z.of_nat k)%Z.
Proof.
  intros Hk Hy Hx Hlen. split.
  - unfold getitem, crop, upsample.
    rewrite nth_error_map, nth_error_firstn.
    assert (Hy' : (Z.to_nat y <? Z.to_nat height)%nat = true)
      by (apply Nat.ltb_lt; lia).
    rewrite Hy'. rewrite nth_error_map, nth_error_repeat_each by exact Hk.
    rewrite to_nat_div by lia.
    destruct (nth_error layer (Z.to_nat (y / Z.of_nat k))) as [row|];
      [|reflexivity].
    cbn [option_map]. rewrite nth_error_firstn.
    assert (Hx' : (Z.to_nat x <? Z.to_nat width)%nat = true)
      by (apply Nat.ltb_lt; lia).
    rewrite Hx', nth_error_repeat_each by exact Hk.
    now rewrite to_nat_div by lia.
  - unfold crop, upsample.
    rewrite length_map, length_firstn, length_map, length_repeat_each, Hlen.
    assert (Hdiv : (0 <= height / Z.of_nat k)%Z) by (apply Z.div_pos; lia).
    pose proof (Z.div_mod height (Z.of_nat k) ltac:(lia)) as Hdm.
    pose proof (Z.mod_pos_bound height (Z.of_nat k) ltac:(lia)) as Hmod.
    rewrite Nat2Z.inj_min, Nat2Z.inj_mul, !Z2Nat.id by lia. lia.
Qed.

Lemma upsample_nearest_neighbour_witness :
  getitem (crop 5 4 (upsample 2 [[1%R; 2%R]; [3%R; 4%R]])) 3 2
  = getitem [[1%R; 2%R]; [3%R; 4%R]] (3 / Z.of_nat 2) (2 / Z.of_nat 2)
  /\ Z.of_nat (length (crop 5 4 (upsample 2 [[1%R; 2%R]; [3%R; 4%R]])))
     = (5 - 5 mod Z.of_nat 2)%Z.
Proof.
  apply (upsample_nearest_neighbour 2 5 4 [[1%R; 2%R]; [3%R; 4%R]] 3 2);
    [lia | lia | lia | reflexivity].
Defined.

End Upsampling.


Section V1Shapes.
Import Np Lib LibExt V1.
Context {L : NumLib} {I : ImagingLib}.
Local Open Scope Z_scope.

Lemma length_zip_with {A B C : Type} (f : A -> B -> C) (a : list A) (b : list B) :
  length a = length b -> length (zip_with f a b) = length a.
Proof.
  revert b. induction a as [|x a IH]; intros [|y b]; cbn; try discriminate;
    [reflexivity|].
  intros [= H]. now rewrite IH.
Qed.

Lemma Forall_zip_with_both {A B C : Type} (f : A -> B -> C)
  (P : A -> Prop) (Q : B -> Prop) (S : C -> Prop) (a : list A) (b : list B) :
  (forall x y, P x -> Q y -> S (f x y)) ->
  Forall P a -> Forall Q b -> Forall S (zip_with f a b).
Proof.
  intros H Ha. revert b. induction Ha as [|x a Hx Ha IH]; intros b Hb; [constructor|].
  destruct Hb as [|y b Hy Hb]; [constructor|]. cbn. constructor; auto.
Qed.

Lemma has_dims_ew2 {A B C : Type} (f : A -> B -> C) (rows cols : Z)
  (a : list (list A)) (b : list (list B)) :
  has_dims rows cols a -> has_dims rows cols b -> has_dims rows cols (ew2 f a b).
Proof.
  intros [Ha1 Ha2] [Hb1 Hb2]. unfold ew2. split.
  - rewrite length_zip_with; congruence.
  - eapply Forall_zip_with_both; [|exact Ha2|exact Hb2].
    cbv beta. intros x y Hx Hy. rewrite length_zip_with; congruence.
Qed.

Lemma has_dims_ew {A B : Type} (f : A -> B) (rows cols : Z) (a : list (list A)) :
  has_dims rows cols a -> has_dims rows cols (ew f a).
Proof.
  intros [Ha1 Ha2]. unfold ew. split; [now rewrite length_map|].
  apply Forall_map. eapply Forall_impl; [|exact Ha2].
  cbv beta. intros row Hrow. now rewrite length_map.
Qed.

Lemma has_dims_ogrid {A : Type} (height width : Z) (f : Z -> Z -> A) :
  has_dims height width (ogrid height width f).
Proof.
  unfold ogrid. split; [now rewrite length_map, length_arange|].
  apply Forall_map, Forall_forall. intros y _.
  now rewrite length_map, length_arange.
Qed.

(** The shape of an array of known dimensions. *)
Lemma has_dims_shape (rows cols : Z) (a : raster) :
  has_dims rows cols a ->
  shape a = (Z.to_nat rows, if (Z.to_nat rows =? 0)%nat then 0%nat else Z.to_nat cols).
Proof.
  intros [H1 H2]. unfold shape. rewrite H1. f_equal.
  destruct a as [|row a]; cbn [length hd] in *.
  - rewrite <- H1. reflexivity.
  - rewrite <- H1. cbn [Nat.eqb]. now apply Forall_inv in H2.
Qed.

(** The upsampled and cropped layer of scale [s] has dimensions
    [(height // s) * s] and [(width // s) * s]. *)
Lemma layer_dims (height width s : Z) (small_noise : raster) :
  0 < s -> 0 <= height -> 0 <= width ->
  has_dims (height / s) (width / s) small_noise ->
  has_dims (height / s * s) (width / s * s)
           (if 1 <? s then crop height width (upsample (Z.to_nat s) small_noise)
            else small_noise).
Proof.
  intros Hs Hh Hw [H1 H2].
  assert (Hhs : 0 <= height / s) by (apply Z.div_pos; lia).
  assert (Hws : 0 <= width / s) by (apply Z.div_pos; lia).
  assert (Hhm : height / s * s <= height) by (pose proof (Z.mul_div_le height s Hs); lia).
  assert (Hwm : width / s * s <= width) by (pose proof (Z.mul_div_le width s Hs); lia).
  destruct (Z.ltb_spec 1 s) as [Hs1|Hs1].
  - unfold crop, upsample. split.
    + rewrite length_map, length_firstn, length_map, length_repeat_each, H1. nia.
    + apply Forall_map. apply Forall_forall. intros row Hrow.
      apply (In_nth_error _ _) in Hrow as [n Hn].
      rewrite nth_error_firstn in Hn.
      destruct (Nat.ltb_spec n (Z.to_nat height)); [|discriminate].
      rewrite nth_error_map in Hn.
      destruct (nth_error (repeat_each (Z.to_nat s) small_noise) n) as [r|] eqn:Er;
        [|discriminate].
      injection Hn as <-.
      assert (Hr : In r small_noise).
      { apply nth_error_In in Er. unfold repeat_each in Er.
        apply in_flat_map in Er as (r0 & Hr0 & Hrep).
        apply repeat_spec in Hrep. now subst. }
      rewrite Forall_forall in H2. specialize (H2 r Hr).
      rewrite length_firstn, length_repeat_each, H2. nia.
  - assert (s = 1) by lia. subst s. rewrite !Z.div_1_r, !Z.mul_1_r in *.
    split; assumption.
Qed.

(** Two arrays of known dimensions have the same shape when their numbers of
    rows agree and, unless there is no row, their numbers of columns. *)
Lemma same_shape_dims (h w h' w' : Z) (a b : raster) :
  0 <= h -> 0 <= w -> 0 <= h' -> 0 <= w' ->
  has_dims h w a -> has_dims h' w' b ->
  same_shape a b = (h =? h') && ((h =? 0) || (w =? w')).
Proof.
  intros Hh Hw Hh' Hw' Ha Hb. unfold same_shape.
  rewrite (has_dims_shape h w a Ha), (has_dims_shape h' w' b Hb). cbn [fst snd].
  destruct (Z.eqb_spec h h') as [<-|Hne].
  - rewrite Nat.eqb_refl. cbn [andb].
    destruct (Z.eqb_spec h 0) as [->|Hh0]; [reflexivity|].
    replace (Z.to_nat h =? 0)%nat with false
      by (symmetry; apply Nat.eqb_neq; lia).
    cbn [orb]. destruct (Z.eqb_spec w w') as [->|Hwne].
    + apply Nat.eqb_refl.
    + apply Nat.eqb_neq. lia.
  - replace (Z.to_nat h =? Z.to_nat h')%nat with false
      by (symmetry; apply Nat.eqb_neq; lia).
    reflexivity.
Qed.

(** An array without rows or without columns has no entry. *)
Lemma concat_has_dims (h w : Z) (a : raster) :
  has_dims h w a -> (concat a = [] <-> Z.to_nat h = 0%nat \/ Z.to_nat w = 0%nat).
Proof.
  intros [H1 H2]. split.
  - intros Hc. destruct a as [|row a]; [left; now rewrite <- H1|].
    right. apply Forall_inv in H2. cbn [concat] in Hc.
    apply app_eq_nil in Hc as [-> _]. now rewrite <- H2.
  - intros [H|H].
    + destruct a; [reflexivity|]. cbn [length] in H1. lia.
    + clear H1. induction H2 as [|row a Hrow _ IH]; [reflexivity|].
      cbn [concat]. rewrite IH. destruct row; [reflexivity|].
      cbn [length] in Hrow. lia.
Qed.

(** One pass of the loop over the scales: it draws one layer and then either
    adds it or raises [ValueError], according to the divisibility of the
    dimensions by the scale. *)
Lemma speckle_pass_outcome (width height : Z) (scale : R) (s : Z) (noise : raster)
  (g : rng) :
  rayleigh_shaped -> 0 < s -> 0 <= height -> 0 <= width ->
  has_dims height width noise ->
  exists g',
    if (height mod s =? 0) && ((height =? 0) || (width mod s =? 0))
    then exists noise', speckle_pass width height scale s noise g = (Ok noise', g')
                        /\ has_dims height width noise'
    else speckle_pass width height scale s noise g = (Raise ValueError, g').
Proof.
  intros Hlib Hs Hh Hw Hn. unfold speckle_pass, bind, rayleigh.
  pose proof (Hlib scale (height / s) (width / s) g) as Hsmall.
  destruct (random_rayleigh scale (height / s) (width / s) g) as [small g'].
  cbn [fst] in Hsmall. exists g'.
  pose proof (layer_dims height width s small Hs Hh Hw Hsmall) as Hlayer.
  set (layer := if 1 <? s then crop height width (upsample (Z.to_nat s) small)
                else small) in *.
  assert (Hhs : 0 <= height / s) by (apply Z.div_pos; lia).
  assert (Hws : 0 <= width / s) by (apply Z.div_pos; lia).
  unfold lift, iadd_scaled.
  rewrite (same_shape_dims height width (height / s * s) (width / s * s) noise layer)
    by (assumption || nia).
  assert (Eh : (height =? height / s * s) = (height mod s =? 0)).
  { pose proof (Z.div_mod height s ltac:(lia)).
    destruct (Z.eqb_spec height (height / s * s)), (Z.eqb_spec (height mod s) 0);
      try reflexivity; exfalso; nia. }
  assert (Ew : (width =? width / s * s) = (width mod s =? 0)).
  { pose proof (Z.div_mod width s ltac:(lia)).
    destruct (Z.eqb_spec width (width / s * s)), (Z.eqb_spec (width mod s) 0);
      try reflexivity; exfalso; nia. }
  rewrite Eh, Ew.
  destruct ((height mod s =? 0) && ((height =? 0) || (width mod s =? 0))) eqn:E;
    [|reflexivity].
  eexists. split; [reflexivity|].
  apply andb_true_iff in E as [E1 E2]. apply Z.eqb_eq in E1.
  destruct (Z.eqb_spec height 0) as [->|Hh0].
  - destruct Hn as [Hn1 _]. destruct noise; [|cbn in Hn1; lia].
    split; [reflexivity|constructor].
  - cbn [orb] in E2. apply Z.eqb_eq in E2.
    apply has_dims_ew2; [exact Hn|].
    replace height with (height / s * s) at 1
      by (pose proof (Z.div_mod height s ltac:(lia)); nia).
    replace width with (width / s * s) at 1
      by (pose proof (Z.div_mod width s ltac:(lia)); nia).
    exact Hlayer.
Qed.

End V1Shapes.

(** ** The shapes the speckle generators accept *)

Section ShapeFacts.
Import Np Shape Lib LibExt.
Context {L : NumLib}.
Local Open Scope Z_scope.

Lemma has_dims_ew_col {A B C : Type} (f : A -> B -> C) (rows cols : Z)
  (a : list (list A)) (col : list B) :
  has_dims rows cols a -> length col = Z.to_nat rows ->
  has_dims rows cols (ew_col f a col).
Proof.
  intros [H1 H2] Hc. unfold ew_col. split.
  - rewrite length_zip_with; congruence.
  - eapply Forall_zip_with_both with (Q := fun _ => True);
      [|exact H2|apply Forall_forall; auto].
    cbv beta. intros row c Hrow _. now rewrite length_map.
Qed.

Lemma has_dims_full (height width : Z) (c : R) :
  has_dims height width (full height width c).
Proof. apply has_dims_ogrid. Qed.

Lemma length_linspace (start stop : R) (num : Z) :
  length (linspace start stop num) = Z.to_nat num.
Proof. unfold linspace. now rewrite length_map, length_arange. Qed.

(** An array with at least one row and one column has an entry. *)
Lemma concat_nonempty (h w : Z) (a : raster) :
  0 < h -> 0 < w -> has_dims h w a -> concat a <> [].
Proof.
  intros Hh Hw Ha Hc. apply (concat_has_dims h w a Ha) in Hc. lia.
Qed.

(** A layer of [height // s] rows and [width // s] columns, upsampled by [s]
    and cropped, has [(height // s) * s] rows and [(width // s) * s]
    columns. *)
Lemma crop_upsample_dims (height width : Z) (s : nat) (a : raster) :
  (0 < s)%nat -> 0 <= height -> 0 <= width ->
  has_dims (height / Z.of_nat s) (width / Z.of_nat s) a ->
  has_dims (height / Z.of_nat s * Z.of_nat s) (width / Z.of_nat s * Z.of_nat s)
           (crop height width (upsample s a)).
Proof.
  intros Hs Hh Hw [H1 H2].
  assert (Hs' : 0 < Z.of_nat s) by lia.
  assert (Hhs : 0 <= height / Z.of_nat s) by (apply Z.div_pos; lia).
  assert (Hws : 0 <= width / Z.of_nat s) by (apply Z.div_pos; lia).
  assert (Hhm : height / Z.of_nat s * Z.of_nat s <= height)
    by (pose proof (Z.mul_div_le height (Z.of_nat s) Hs'); lia).
  assert (Hwm : width / Z.of_nat s * Z.of_nat s <= width)
    by (pose proof (Z.mul_div_le width (Z.of_nat s) Hs'); lia).
  unfold crop, upsample. split.
  - rewrite length_map, length_firstn, length_map, length_repeat_each, H1. nia.
  - apply Forall_map. apply Forall_forall. intros row Hrow.
    apply (In_nth_error _ _) in Hrow as [n Hn].
    rewrite nth_error_firstn in Hn.
    destruct (Nat.ltb_spec n (Z.to_nat height)); [|discriminate].
    rewrite nth_error_map in Hn.
    destruct (nth_error (repeat_each s a) n) as [r|] eqn:Er; [|discriminate].
    injection Hn as <-.
    assert (Hr : In r a).
    { apply nth_error_In in Er. unfold repeat_each in Er.
      apply in_flat_map in Er as (r0 & Hr0 & Hrep).
      apply repeat_spec in Hrep. now subst. }
    rewrite Forall_forall in H2. specialize (H2 r Hr).
    rewrite length_firstn, length_repeat_each, H2. nia.
Qed.

(** A dimension is a multiple of the scale when the upsampled layer covers
    it. *)
Lemma covers_iff_mod (n s : Z) : 0 < s -> (n =? n / s * s) = (n mod s =? 0).
Proof.
  intros Hs. pose proof (Z.div_mod n s ltac:(lia)).
  destruct (Z.eqb_spec n (n / s * s)), (Z.eqb_spec (n mod s) 0);
    try reflexivity; exfalso; nia.
Qed.

(** The shapes of a field and of an upsampled layer agree when the scale
    divides the dimensions. *)
Lemma same_shape_layer (height width : Z) (s : nat) (noise layer : raster) :
  (0 < s)%nat -> 0 <= height -> 0 <= width ->
  has_dims height width noise ->
  has_dims (height / Z.of_nat s) (width / Z.of_nat s) layer ->
  same_shape noise (crop height width (upsample s layer))
  = (height mod Z.of_nat s =? 0) && ((height =? 0) || (width mod Z.of_nat s =? 0)).
Proof.
  intros Hs Hh Hw Hn Hl.
  assert (Hs' : 0 < Z.of_nat s) by lia.
  assert (Hhs : 0 <= height / Z.of_nat s) by (apply Z.div_pos; lia).
  assert (Hws : 0 <= width / Z.of_nat s) by (apply Z.div_pos; lia).
  rewrite (same_shape_dims height width (height / Z.of_nat s * Z.of_nat s)
             (width / Z.of_nat s * Z.of_nat s) noise _)
    by (assumption || nia || now apply crop_upsample_dims).
  now rewrite !covers_iff_mod.
Qed.

(** The body of the loop of the v2 generator draws one layer and then either
    adds it or raises [ValueError], according to the divisibility of the
    dimensions by the scale. *)
Lemma v2_pass_outcome (width height : Z) (scale : nat) (noise : raster) (g : rng) :
  rayleigh_shaped -> (0 < scale)%nat -> 0 <= height -> 0 <= width ->
  has_dims height width noise ->
  exists r g',
    V2.speckle_pass width height scale noise g = (r, g')
    /\ if (height mod Z.of_nat scale =? 0)
          && ((height =? 0) || (width mod Z.of_nat scale =? 0))
       then exists noise', r = Ok noise' /\ has_dims height width noise'
       else r = Raise ValueError.
Proof.
  intros Hlib Hs Hh Hw Hn. unfold V2.speckle_pass, bind, rayleigh.
  pose proof (Hlib 0.5%R (height / Z.of_nat scale) (width / Z.of_nat scale) g)
    as Hsmall.
  destruct (random_rayleigh 0.5 (height / Z.of_nat scale) (width / Z.of_nat scale) g)
    as [layer g'].
  cbn [fst] in Hsmall. unfold lift, Speckle.add_layer, iadd.
  rewrite (same_shape_layer height width scale noise layer) by assumption.
  eexists _, g'. split; [reflexivity|].
  destruct ((height mod Z.of_nat scale =? 0)
            && ((height =? 0) || (width mod Z.of_nat scale =? 0))) eqn:E;
    [|reflexivity].
  eexists. split; [reflexivity|].
  apply andb_true_iff in E as [E1 E2]. apply Z.eqb_eq in E1.
  destruct (Z.eqb_spec height 0) as [->|Hh0].
  - destruct Hn as [Hn1 _]. destruct noise; [|cbn in Hn1; lia].
    split; [reflexivity|constructor].
  - cbn [orb] in E2. apply Z.eqb_eq in E2.
    apply has_dims_ew2; [exact Hn|].
    assert (Hs' : 0 < Z.of_nat scale) by lia.
    replace height with (height / Z.of_nat scale * Z.of_nat scale) at 1
      by (pose proof (Z.div_mod height (Z.of_nat scale) ltac:(lia)); nia).
    replace width with (width / Z.of_nat scale * Z.of_nat scale) at 1
      by (pose proof (Z.div_mod width (Z.of_nat scale) ltac:(lia)); nia).
    now apply crop_upsample_dims.
Qed.

(** The loop over the scales returns a field of the same dimensions when
    every scale divides them, and raises [ValueError] at the first scale
    that does not. *)
Lemma v2_passes_outcome (width height : Z) (scales : list nat) :
  rayleigh_shaped -> Forall (fun s => (0 < s)%nat) scales ->
  0 <= height -> 0 <= width ->
  forall (noise : raster) (g : rng),
    has_dims height width noise ->
    exists r g',
      V2.speckle_passes width height scales noise g = (r, g')
      /\ if forallb (fun s => (height mod Z.of_nat s =? 0)
                              && ((height =? 0) || (width mod Z.of_nat s =? 0)))
                    scales
         then exists noise', r = Ok noise' /\ has_dims height width noise'
         else r = Raise ValueError.
Proof.
  intros Hlib Hpos Hh Hw.
  induction Hpos as [|s rest Hs Hrest IH]; intros noise g Hn.
  - exists (Ok noise), g. split; [reflexivity|]. cbn [forallb]. now exists noise.
  - cbn [V2.speckle_passes forallb].
    destruct (v2_pass_outcome width height s noise g Hlib Hs Hh Hw Hn)
      as (r & g1 & E & H).
    unfold bind at 1. rewrite E.
    destruct ((height mod Z.of_nat s =? 0)
              && ((height =? 0) || (width mod Z.of_nat s =? 0))).
    + destruct H as (noise1 & -> & Hn1). cbn [andb]. now apply IH.
    + subst r. cbn [andb]. now exists (Raise ValueError), g1.
Qed.

Ltac euclid8 h :=
  pose proof (Z.div_mod h 2 ltac:(lia));
  pose proof (Z.div_mod h 4 ltac:(lia));
  pose proof (Z.div_mod h 8 ltac:(lia));
  pose proof (Z.mod_pos_bound h 2 ltac:(lia));
  pose proof (Z.mod_pos_bound h 4 ltac:(lia));
  pose proof (Z.mod_pos_bound h 8 ltac:(lia)).

(** The four scales divide a dimension exactly when 8 does. *)
Lemma scales_divide (height width : Z) :
  0 < height -> 0 < width ->
  forallb (fun s => (height mod Z.of_nat s =? 0)
                    && ((height =? 0) || (width mod Z.of_nat s =? 0)))
          [1; 2; 4; 8]%nat
  = (height mod 8 =? 0) && (width mod 8 =? 0).
Proof.
  intros Hh Hw. cbn [forallb]. change (Z.of_nat 1) with 1. change (Z.of_nat 2) with 2.
  change (Z.of_nat 4) with 4. change (Z.of_nat 8) with 8.
  rewrite !Z.mod_1_r. destruct (Z.eqb_spec height 0); [lia|]. cbn [orb Z.eqb andb].
  euclid8 height. euclid8 width.
  destruct (Z.eqb_spec (height mod 8) 0), (Z.eqb_spec (width mod 8) 0),
    (Z.eqb_spec (height mod 2) 0), (Z.eqb_spec (width mod 2) 0),
    (Z.eqb_spec (height mod 4) 0), (Z.eqb_spec (width mod 4) 0);
    cbn [andb]; try reflexivity; exfalso; lia.
Qed.

(** The dimensions [generate_speckle_noise] of the v2 and JPEG generators
    accepts, among the positive ones: the multiples of 8. *)
Lemma v2_speckle_outcome (width height : Z) (intensity : R) (g : rng) :
  rayleigh_shaped -> 0 < height -> 0 < width ->
  exists r g',
    V2.generate_speckle_noise width height intensity g = (r, g')
    /\ if (height mod 8 =? 0) && (width mod 8 =? 0)
       then exists x a,
              r = Ok a /\ Speckle.scale_to_intensity intensity x = Ok a
              /\ has_dims height width a
       else r = Raise ValueError.
Proof.
  intros Hlib Hh Hw. unfold V2.generate_speckle_noise. rewrite bind_lift.
  unfold np_zeros.
  destruct (Z.ltb_spec height 0); [lia|]. destruct (Z.ltb_spec width 0); [lia|].
  cbn [orb].
  destruct (v2_passes_outcome width height [1; 2; 4; 8]%nat Hlib
              ltac:(repeat constructor) ltac:(lia) ltac:(lia)
              (full height width 0) g (has_dims_full height width 0))
    as (r & g1 & E & Hr).
  rewrite scales_divide in Hr by assumption.
  unfold bind at 1. rewrite E.
  destruct ((height mod 8 =? 0) && (width mod 8 =? 0)).
  - destruct Hr as (noise & -> & Hn).
    assert (Hne : concat noise <> []) by now apply (concat_nonempty height width).
    unfold lift. rewrite scale_to_intensity_returns by assumption.
    eexists _, g1. split; [reflexivity|].
    exists noise. eexists. split; [reflexivity|].
    split; [now apply scale_to_intensity_returns|]. now apply has_dims_ew.
  - subst r. now exists (Raise ValueError), g1.
Qed.

(** The dimensions [generate_realistic_speckle] accepts, among those of at
    least 4: the multiples of 4. *)
Lemma realistic_speckle_outcome (width height : Z) (s : option Z) (g : rng) :
  rayleigh_shaped -> filter_shaped -> 4 <= height -> 4 <= width ->
  exists r g',
    Realistic.generate_realistic_speckle width height s g = (r, g')
    /\ if (height mod 4 =? 0) && (width mod 4 =? 0)
       then exists x a,
              r = Ok a /\ Speckle.normalize x = Ok a /\ has_dims height width a
       else r = Raise ValueError.
Proof.
  intros Hlib Hfil Hh Hw. unfold Realistic.generate_realistic_speckle.
  unfold bind at 1.
  destruct (match s with Some s0 => seed s0 | None => ret tt end g) as [u g0] eqn:Es.
  assert (Eu : u = Ok tt) by (destruct s; cbn in Es; now injection Es as <- _).
  subst u. rewrite bind_lift. unfold np_zeros.
  destruct (Z.ltb_spec height 0); [lia|]. destruct (Z.ltb_spec width 0); [lia|].
  cbn [orb]. unfold bind, rayleigh.
  pose proof (Hlib 0.6%R height width g0) as D1.
  destruct (random_rayleigh 0.6 height width g0) as [fine g1]. cbn [fst] in D1.
  pose proof (Hlib 0.5%R (height / 2) (width / 2) g1) as D2.
  destruct (random_rayleigh 0.5 (height / 2) (width / 2) g1) as [medium g2].
  cbn [fst] in D2.
  pose proof (Hlib 0.4%R (height / 4) (width / 4) g2) as D3.
  destruct (random_rayleigh 0.4 (height / 4) (width / 4) g2) as [coarse g3].
  cbn [fst] in D3.
  apply (Hfil _ (0.8, 0.8)%R) in D1. apply (Hfil _ (1.2, 1.2)%R) in D2.
  apply (Hfil _ (1.5, 1.5)%R) in D3.
  set (fine' := gaussian_filter fine (0.8, 0.8)%R) in *.
  set (medium' := gaussian_filter medium (1.2, 1.2)%R) in *.
  set (coarse' := gaussian_filter coarse (1.5, 1.5)%R) in *.
  eexists _, g3. split; [reflexivity|].
  unfold lift, Speckle.combine_layers, add_arrays.
  assert (S2 : same_shape (ew (fun v => (v * 0.5)%R) fine')
                 (ew (fun v => (v * 0.35)%R) (crop height width (upsample 2 medium')))
               = (height mod 2 =? 0) && (width mod 2 =? 0)).
  { rewrite (same_shape_dims height width (height / 2 * 2) (width / 2 * 2)).
    - rewrite !covers_iff_mod by lia. destruct (Z.eqb_spec height 0); [lia|reflexivity].
    - lia.
    - lia.
    - pose proof (Z.div_pos height 2). lia.
    - pose proof (Z.div_pos width 2). lia.
    - now apply has_dims_ew.
    - apply has_dims_ew.
      apply (crop_upsample_dims height width 2 medium'); [lia|lia|lia|exact D2]. }
  rewrite S2. clear S2.
  euclid8 height. euclid8 width.
  destruct ((height mod 2 =? 0) && (width mod 2 =? 0)) eqn:E2.
  2:{ cbn [rbind].
      replace ((height mod 4 =? 0) && (width mod 4 =? 0)) with false; [reflexivity|].
      symmetry. apply andb_false_iff in E2 as [C|C]; apply Z.eqb_neq in C.
      - destruct (Z.eqb_spec (height mod 4) 0); [lia|reflexivity].
      - destruct (Z.eqb_spec (width mod 4) 0); [lia|]. apply andb_false_r. }
  cbn [rbind].
  assert (Hsum : has_dims height width
                   (ew2 Rplus (ew (fun v => (v * 0.5)%R) fine')
                      (ew (fun v => (v * 0.35)%R)
                          (crop height width (upsample 2 medium'))))).
  { apply andb_true_iff in E2 as [Ca Cb]. apply Z.eqb_eq in Ca, Cb.
    apply has_dims_ew2; [now apply has_dims_ew|]. apply has_dims_ew.
    replace height with (height / 2 * 2) at 1 by lia.
    replace width with (width / 2 * 2) at 1 by lia.
    apply (crop_upsample_dims height width 2 medium'); [lia|lia|lia|exact D2]. }
  match goal with
  | |- context [same_shape ?a ?b] =>
      assert (S4 : same_shape a b = (height mod 4 =? 0) && (width mod 4 =? 0))
  end.
  { rewrite (same_shape_dims height width (height / 4 * 4) (width / 4 * 4)).
    - rewrite !covers_iff_mod by lia. destruct (Z.eqb_spec height 0); [lia|reflexivity].
    - lia.
    - lia.
    - pose proof (Z.div_pos height 4). lia.
    - pose proof (Z.div_pos width 4). lia.
    - exact Hsum.
    - apply has_dims_ew.
      apply (crop_upsample_dims height width 4 coarse'); [lia|lia|lia|exact D3]. }
  rewrite S4. clear S4.
  destruct ((height mod 4 =? 0) && (width mod 4 =? 0)) eqn:E4; [|reflexivity].
  cbn [rbind].
  match goal with
  | |- context [Speckle.normalize ?x] =>
      assert (Hx : has_dims height width x)
  end.
  { apply has_dims_ew_col; [|now rewrite length_linspace].
    apply has_dims_ew2; [exact Hsum|]. apply has_dims_ew.
    apply andb_true_iff in E4 as [Ca Cb]. apply Z.eqb_eq in Ca, Cb.
    replace height with (height / 4 * 4) at 1 by lia.
    replace width with (width / 4 * 4) at 1 by lia.
    apply (crop_upsample_dims height width 4 coarse'); [lia|lia|lia|exact D3]. }
  match goal with
  | |- context [Speckle.normalize ?x] => set (field := x) in *
  end.
  assert (Hne : concat field <> [])
    by (apply (concat_nonempty height width); [lia|lia|exact Hx]).
  exists field. eexists. rewrite normalize_returns by assumption.
  split; [reflexivity|]. split; [reflexivity|]. now apply has_dims_ew.
Qed.

End ShapeFacts.

(** ** The bounding boxes of the chambers *)

Section DrawingFacts.
Import Np Shape Lib LibExt Anatomy.
Context {L : NumLib}.
Local Open Scope R_scope.

(** Truncation of a value that is not negative: the integer just below. *)
Lemma py_int_floor (x : R) : 0 <= x -> IZR (Py.int x) <= x < IZR (Py.int x) + 1.
Proof.
  intros Hx. unfold Py.int. destruct (Rle_dec 0 x); [|lra].
  pose proof (Zfloor_bound x). lra.
Qed.

(** [a + k <= b + c] for truncations, from the values truncated. *)
Lemma py_int_sum_le (x y z : R) (k : Z) :
  0 <= x -> 0 <= y -> 0 <= z -> x + IZR k + 2 <= y + z ->
  (Py.int x + k <= Py.int y + Py.int z)%Z.
Proof.
  intros Hx Hy Hz H.
  pose proof (py_int_floor x Hx). pose proof (py_int_floor y Hy).
  pose proof (py_int_floor z Hz).
  assert (Hlt : IZR (Py.int x + k) < IZR (Py.int y + Py.int z + 1)).
  { rewrite !plus_IZR. lra. }
  apply lt_IZR in Hlt. lia.
Qed.

Lemma ellipse_ordered (img : canvas) (x0 y0 x1 y1 fill : Z) :
  (x0 <= x1)%Z -> (y0 <= y1)%Z ->
  ellipse img (x0, y0, x1, y1) fill = Ok (draw_ellipse img (x0, y0, x1, y1) fill).
Proof.
  intros Hx Hy. unfold ellipse, box_ordered.
  destruct (Z.leb_spec x0 x1); [|lia]. destruct (Z.leb_spec y0 y1); [|lia].
  reflexivity.
Qed.

(** For a frame of at least 120 rows and a systole factor in [[0,1]], every
    bounding box of [draw_heart_structure] is ordered, and the drawing
    returns. *)
Lemma draw_heart_returns (image : raster) (w h : Z) (s : R) :
  (0 <= w)%Z -> (120 <= h)%Z -> 0 <= s <= 1 ->
  exists heart, Realistic.draw_heart_structure image (init w h) s = Ok heart.
Proof.
  intros Hw Hh Hs.
  assert (HW : 0 <= IZR w) by now apply IZR_le.
  assert (HH : 120 <= IZR h) by now apply IZR_le.
  assert (Hhs : 0 <= IZR h * s <= IZR h) by nra.
  assert (Hws : 0 <= IZR w * s <= IZR w) by nra.
  unfold Realistic.draw_heart_structure.
  cbn [init get_lv_contour get_rv_contour get_la_contour get_ra_contour
       v_center outer inner v_apex_y a_center radius a_wall_thickness
       Anatomy.width Anatomy.height cx apex_y mid_y base_y].
  assert (N1 : (0 <= Py.int (IZR w * 0.14 * (1 - 0.22 * s * 0.15)))%Z)
    by (apply py_int_nonneg; nra).
  assert (N2 : (0 <= Py.int (IZR w * 0.10 * (1 - 0.22 * s * 0.4)))%Z)
    by (apply py_int_nonneg; nra).
  assert (N3 : (0 <= Py.int (IZR w * 0.11 * (1 - 0.15 * s * 0.15)))%Z)
    by (apply py_int_nonneg; nra).
  assert (N4 : (0 <= Py.int (IZR w * 0.08 * (1 - 0.15 * s * 0.35)))%Z)
    by (apply py_int_nonneg; nra).
  assert (N5 : (0 <= Py.int (IZR w * 0.12 * (1 + 0.12 * s)))%Z)
    by (apply py_int_nonneg; nra).
  assert (N6 : (0 <= Py.int (IZR h * 0.12 * (1 + 0.12 * s)))%Z)
    by (apply py_int_nonneg; nra).
  assert (N7 : (0 <= Py.int (IZR w * 0.015))%Z) by (apply py_int_nonneg; nra).
  assert (N8 : (0 <= Py.int (IZR w * 0.10 * (1 + 0.10 * s)))%Z)
    by (apply py_int_nonneg; nra).
  assert (N9 : (0 <= Py.int (IZR h * 0.11 * (1 + 0.10 * s)))%Z)
    by (apply py_int_nonneg; nra).
  assert (N10 : (0 <= Py.int (IZR w * 0.012))%Z) by (apply py_int_nonneg; nra).
  assert (Y1 : (Py.int (IZR h * 0.08) + 15
                <= Py.int (IZR h * 0.30)
                   + Py.int (IZR h * 0.32 * (1 - 0.22 * s * 0.1)))%Z)
    by (apply py_int_sum_le; nra).
  assert (Y2 : (Py.int (IZR h * 0.08) + 35
                <= Py.int (IZR h * 0.30)
                   + Py.int (IZR h * 0.26 * (1 - 0.22 * s * 0.35)))%Z)
    by (apply py_int_sum_le; nra).
  assert (Y3 : (Py.int (IZR h * 0.08) + 25
                <= Py.int (IZR h * 0.28)
                   + Py.int (IZR h * 0.28 * (1 - 0.15 * s * 0.1)))%Z)
    by (apply py_int_sum_le; nra).
  assert (Y4 : (Py.int (IZR h * 0.08) + 40
                <= Py.int (IZR h * 0.28)
                   + Py.int (IZR h * 0.23 * (1 - 0.15 * s * 0.3)))%Z)
    by (apply py_int_sum_le; nra).
  repeat (rewrite ellipse_ordered by lia; cbn [rbind]).
  eexists. reflexivity.
Qed.

(** For a height that is not negative and a systole factor in [[0,1]], every
    bounding box of [generate_4chamber_frame] is ordered, and the drawing
    returns. *)
Lemma draw_4chamber_returns (img : canvas) (w h : Z) (s : R) :
  (0 <= h)%Z -> 0 <= s <= 1 ->
  exists heart, V2.draw_4chamber img w h s = Ok heart.
Proof.
  intros Hh Hs.
  assert (HH : 0 <= IZR h) by now apply IZR_le.
  unfold V2.draw_4chamber.
  unfold Chambers.lv_outer_rx, Chambers.lv_outer_ry, Chambers.lv_inner_rx,
    Chambers.lv_inner_ry, Chambers.rv_outer_rx, Chambers.rv_outer_ry,
    Chambers.rv_inner_rx, Chambers.rv_inner_ry, Chambers.la_rx, Chambers.la_ry,
    Chambers.ra_rx, Chambers.ra_ry, Chambers.lv_contraction,
    Chambers.rv_contraction, Chambers.la_expansion, Chambers.ra_expansion.
  assert (A1 : (Py.int (IZR h * 0.12) <= Py.int (IZR h * 0.35))%Z)
    by (apply py_int_le; lra).
  assert (A2 : (Py.int (IZR h * 0.12) <= Py.int (IZR h * 0.32))%Z)
    by (apply py_int_le; lra).
  assert (B1 : (70 <= Py.int (75 * (1 - 0.18 * s * 0.3)) <= 75)%Z)
    by (apply py_int_bounds; lra).
  assert (B2 : (134 <= Py.int (140 * (1 - 0.18 * s * 0.2)) <= 140)%Z)
    by (apply py_int_bounds; lra).
  assert (B3 : (45 <= Py.int (55 * (1 - 0.18 * s)) <= 55)%Z)
    by (apply py_int_bounds; lra).
  assert (B4 : (98 <= Py.int (115 * (1 - 0.18 * s * 0.8)) <= 115)%Z)
    by (apply py_int_bounds; lra).
  assert (B5 : (62 <= Py.int (65 * (1 - 0.12 * s * 0.3)) <= 65)%Z)
    by (apply py_int_bounds; lra).
  assert (B6 : (117 <= Py.int (120 * (1 - 0.12 * s * 0.2)) <= 120)%Z)
    by (apply py_int_bounds; lra).
  assert (B7 : (44 <= Py.int (50 * (1 - 0.12 * s)) <= 50)%Z)
    by (apply py_int_bounds; lra).
  assert (B8 : (91 <= Py.int (100 * (1 - 0.12 * s * 0.7)) <= 100)%Z)
    by (apply py_int_bounds; lra).
  assert (B9 : (70 <= Py.int (70 * (1 + 0.08 * s)) <= 76)%Z)
    by (apply py_int_bounds; lra).
  assert (B10 : (55 <= Py.int (55 * (1 + 0.08 * s)) <= 60)%Z)
    by (apply py_int_bounds; lra).
  assert (B11 : (60 <= Py.int (60 * (1 + 0.06 * s)) <= 64)%Z)
    by (apply py_int_bounds; lra).
  assert (B12 : (50 <= Py.int (50 * (1 + 0.06 * s)) <= 53)%Z)
    by (apply py_int_bounds; lra).
  cbv zeta.
  repeat (rewrite ellipse_ordered by lia; cbn [rbind]).
  eexists. reflexivity.
Qed.

End DrawingFacts.


(** ** Pixels of elementwise results *)

Section PixelFacts.
Import Np Lib.
Local Open Scope R_scope.

Lemma nth_error_zip_with_inv {A B C : Type} (f : A -> B -> C) a b n v :
  nth_error (zip_with f a b) n = Some v ->
  exists u w, nth_error a n = Some u /\ nth_error b n = Some w /\ v = f u w.
Proof.
  revert b n. induction a as [|x a IH]; intros [|y b] [|n]; cbn; try discriminate.
  - intros [= <-]. eauto.
  - apply IH.
Qed.

Lemma getitem_ew_inv {A B : Type} (f : A -> B) a (y x : Z) v :
  getitem (ew f a) y x = Some v -> exists u, getitem a y x = Some u /\ v = f u.
Proof.
  unfold getitem, ew. rewrite nth_error_map.
  destruct (nth_error a (Z.to_nat y)) as [row|]; [|discriminate].
  cbn [option_map]. rewrite nth_error_map.
  destruct (nth_error row (Z.to_nat x)) as [u|]; [|discriminate].
  cbn. intros [= <-]. eauto.
Qed.

Lemma getitem_ew2_inv {A B C : Type} (f : A -> B -> C) a b (y x : Z) v :
  getitem (ew2 f a b) y x = Some v ->
  exists u w, getitem a y x = Some u /\ getitem b y x = Some w /\ v = f u w.
Proof.
  unfold getitem, ew2.
  destruct (nth_error (zip_with (zip_with f) a b) (Z.to_nat y)) as [row|] eqn:E;
    [|discriminate].
  apply nth_error_zip_with_inv in E as (ra & rb & -> & -> & ->).
  intros H. apply nth_error_zip_with_inv in H as (u & w & Hu & Hw & ->). eauto.
Qed.

Lemma getitem_ew_col_inv {A B C : Type} (f : A -> B -> C) a col (y x : Z) v :
  getitem (ew_col f a col) y x = Some v ->
  exists u c, getitem a y x = Some u /\ nth_error col (Z.to_nat y) = Some c
              /\ v = f u c.
Proof.
  unfold getitem, ew_col.
  destruct (nth_error (zip_with (fun row c => map (fun v => f v c) row) a col)
              (Z.to_nat y)) as [row|] eqn:E; [|discriminate].
  apply nth_error_zip_with_inv in E as (ra & c & -> & Hc & ->).
  rewrite nth_error_map.
  destruct (nth_error ra (Z.to_nat x)) as [u|]; [|discriminate].
  cbn. intros [= <-]. eauto.
Qed.

Lemma clip_0 : clip 0 0 1 = 0.
Proof. apply clip_unit_id. unfold in_unit. lra. Qed.

Lemma quantize_0 : Realistic.quantize 0 = 0%Z.
Proof.
  unfold Realistic.quantize, astype_uint8.
  rewrite (py_int_eq 0) by (try lia; lra). reflexivity.
Qed.

End PixelFacts.


Create HintDb unit_range.
#[export] Hint Resolve clip_unit blend_unit quantize_unit : unit_range.

(** ** Frame composition *)

(** Name the samples and the state each pending draw returns. *)
Ltac draw_samples :=
  repeat match goal with
  | |- context [Lib.random_rayleigh ?s ?h ?w ?g] =>
      destruct (Lib.random_rayleigh s h w g) as [? ?]
  | |- context [Lib.random_normal ?m ?s ?h ?w ?g] =>
      destruct (Lib.random_normal m s h w g) as [? ?]
  end.

Section FrameFacts.
Import Np Shape Lib LibExt Realistic.
Context {L : NumLib}.
Local Open Scope R_scope.

Lemma speckle_seeded width height (s : Z) (g1 g2 : rng) :
  generate_realistic_speckle width height (Some s) g1
  = generate_realistic_speckle width height (Some s) g2.
Proof. reflexivity. Qed.

Lemma realistic_frame_zero_total width height frame dop seed_ (g : rng) :
  generate_realistic_frame width height frame 0 dop seed_ g
  = (Raise ZeroDivisionError, g).
Proof. reflexivity. Qed.

Lemma doppler_returns width height anatomy sf ph (g : rng) :
  exists noise g',
    generate_color_doppler_flow width height anatomy sf ph g
    = (Ok (color_doppler_flow_with noise width height anatomy sf ph), g').
Proof.
  unfold generate_color_doppler_flow, bind, normal, ret.
  draw_samples. eauto.
Qed.

(** A computation that returns has run its first part. *)
Lemma bind_returns {A B : Type} (m : M A) (k : A -> M B) (g g' : rng) (b : B) :
  bind m k g = (Ok b, g') ->
  exists a g1, m g = (Ok a, g1) /\ k a g1 = (Ok b, g').
Proof.
  unfold bind. destruct (m g) as [[a|e] g1]; [|discriminate].
  intros H. now exists a, g1.
Qed.

Lemma lift_returns {A : Type} (r : result A) (g g' : rng) (a : A) :
  lift r g = (Ok a, g') -> r = Ok a /\ g' = g.
Proof. unfold lift. intros [= -> ->]. now split. Qed.

Lemma ret_returns {A : Type} (a b : A) (g g' : rng) :
  ret a g = (Ok b, g') -> b = a.
Proof. unfold ret. now intros [= -> _]. Qed.

(** The array a returned frame of the realistic compositor is the
    quantisation of. *)
Lemma realistic_frame_inv width height frame total_frames dop seed_ (g g' : rng) img :
  generate_realistic_frame width height frame total_frames dop seed_ g
  = (Ok img, g') ->
  total_frames <> 0%Z
  /\ exists heart image,
       Forall (Forall in_unit) image
       /\ (forall y x v, getitem image y x = Some v ->
             getitem (mask (create_sector_geometry width height 72)) y x = Some 0 ->
             v = 0)
       /\ if dop then
            exists doppler,
              img = ew (rgb_map quantize)
                       (ew2 (fun (hi : R * R) d => rgb_map (blend (fst hi) (snd hi)) d)
                            (ew2 pair heart image) doppler)
          else img = ew (fun v => grey (quantize v)) image.
Proof.
  intros E. unfold generate_realistic_frame in E.
  apply bind_returns in E as (cycle & g0 & Ec & E).
  apply lift_returns in Ec as [Ec ->].
  split.
  { intros ->. discriminate Ec. }
  apply bind_returns in E as (z & g0 & Ez & E).
  apply lift_returns in Ez as [_ ->].
  apply bind_returns in E as (speckle & g1 & _ & E).
  apply bind_returns in E as (heart & g2 & Eh & E).
  apply lift_returns in Eh as [_ ->].
  apply bind_returns in E as (heart_speckle & g3 & _ & E).
  match type of E with
  | context [ew (fun v => clip v 0 1) ?x] => set (raw := x) in *
  end.
  exists heart, (ew (fun v => clip v 0 1) raw).
  split.
  { apply Forall_ew_all. intros v. apply clip_unit. }
  split.
  { intros y x v Hv Hm. subst raw.
    apply getitem_ew_inv in Hv as (v2 & Hv2 & ->).
    apply getitem_ew2_inv in Hv2 as (u & m & _ & Hm' & ->).
    rewrite Hm in Hm'. injection Hm' as <-.
    replace (u * 0) with 0 by ring. apply clip_0. }
  destruct dop.
  - apply bind_returns in E as (doppler & g4 & _ & E).
    apply ret_returns in E. now exists doppler.
  - now apply ret_returns in E.
Qed.

Lemma quantized_byte (z : Z) : quantized z -> (0 <= z <= 255)%Z.
Proof. now intros [H _]. Qed.

(** Every channel value of a returned frame is the exact quantisation of a
    clipped value. *)
Lemma realistic_frame_quantized width height frame total_frames dop seed_
  (g g' : rng) img :
  generate_realistic_frame width height frame total_frames dop seed_ g
  = (Ok img, g') ->
  Forall (Forall (rgb_all quantized)) img.
Proof.
  intros E. apply realistic_frame_inv in E as (_ & heart & image & Hu & _ & Himg).
  destruct dop.
  - destruct Himg as (doppler & ->).
    eapply Forall_ew_from; [|apply Forall_ew2 with (P := rgb_all in_unit)].
    + intros [[r gr] b] (Hr & Hg & Hb). cbn. auto with unit_range.
    + intros [h i] [[r gr] b]. cbn. auto with unit_range.
  - subst img. eapply Forall_ew_from; [|exact Hu].
    intros v Hv. cbn. auto with unit_range.
Qed.

(** The realistic compositor returns for a width that is a positive multiple
    of 4, a height of at least 120 that is a multiple of 4, and a frame count
    other than 0. *)
Lemma realistic_frame_returns width height frame total_frames dop seed_ (g : rng) :
  rayleigh_shaped -> filter_shaped ->
  (0 < width)%Z -> (width mod 4 = 0)%Z -> (120 <= height)%Z -> (height mod 4 = 0)%Z ->
  total_frames <> 0%Z ->
  exists img g',
    generate_realistic_frame width height frame total_frames dop seed_ g
    = (Ok img, g').
Proof.
  intros Hlib Hfil Hw Hw4 Hh Hh4 Ht.
  assert (Hw' : (4 <= width)%Z) by (pose proof (Z.div_mod width 4 ltac:(lia)); lia).
  unfold generate_realistic_frame.
  rewrite bind_lift, truediv_nonzero by exact Ht.
  set (cycle := IZR frame / IZR total_frames).
  rewrite bind_lift. unfold np_zeros.
  destruct (Z.ltb_spec height 0); [lia|]. destruct (Z.ltb_spec width 0); [lia|].
  cbn [orb].
  destruct (realistic_speckle_outcome width height (frame_seed seed_ frame) g
              Hlib Hfil ltac:(lia) Hw')
    as (r1 & g1 & E1 & H1).
  rewrite Hh4, Hw4 in H1. cbn [Z.eqb andb] in H1. destruct H1 as (x1 & sp & -> & _).
  unfold bind at 1. rewrite E1. rewrite bind_lift.
  destruct (draw_heart_returns (ew (fun v => v * 0.15) sp) width height
              (Cycle.systole_of_cycle cycle) ltac:(lia) Hh
              (systole_of_cycle_bounded cycle)) as (heart & ->).
  destruct (realistic_speckle_outcome width height
              (heart_seed (frame_seed seed_ frame)) g1
              Hlib Hfil ltac:(lia) Hw')
    as (r2 & g2 & E2 & H2).
  rewrite Hh4, Hw4 in H2. cbn [Z.eqb andb] in H2. destruct H2 as (x2 & hs & -> & _).
  unfold bind at 1. rewrite E2.
  destruct dop.
  - unfold bind at 1.
    match goal with
    | |- context [generate_color_doppler_flow ?w ?h ?a ?s ?p g2] =>
        destruct (doppler_returns w h a s p g2) as (noise & g3 & ->)
    end.
    unfold ret. eexists; eexists. reflexivity.
  - unfold ret. eexists; eexists. reflexivity.
Qed.

(** With sizes of at least 4 of which one is no multiple of 4, the realistic
    compositor raises [ValueError]: the layers of the first speckle field do
    not have one shape. *)
Lemma realistic_frame_bad_sizes width height frame total_frames dop seed_ (g : rng) :
  rayleigh_shaped -> filter_shaped ->
  (4 <= width)%Z -> (4 <= height)%Z ->
  (width mod 4 <> 0)%Z \/ (height mod 4 <> 0)%Z ->
  total_frames <> 0%Z ->
  fst (generate_realistic_frame width height frame total_frames dop seed_ g)
  = Raise ValueError.
Proof.
  intros Hlib Hfil Hw Hh Hbad Ht. unfold generate_realistic_frame.
  rewrite bind_lift, truediv_nonzero by exact Ht.
  rewrite bind_lift. unfold np_zeros.
  destruct (Z.ltb_spec height 0); [lia|]. destruct (Z.ltb_spec width 0); [lia|].
  cbn [orb].
  destruct (realistic_speckle_outcome width height (frame_seed seed_ frame) g
              Hlib Hfil Hh Hw) as (r1 & g1 & E1 & H1).
  replace ((height mod 4 =? 0) && (width mod 4 =? 0))%Z with false in H1.
  - subst r1. unfold bind at 1. rewrite E1. reflexivity.
  - symmetry. apply andb_false_iff.
    destruct Hbad as [Hb|Hb]; [right|left]; now apply Z.eqb_neq.
Qed.

(** The array a returned frame of the v2 compositor is the quantisation
    of. *)
Lemma v2_frame_inv width height frame total_frames (g g' : rng) img :
  V2.generate_echo_frame_v2 width height frame total_frames g = (Ok img, g') ->
  total_frames <> 0%Z
  /\ exists image,
       img = ew quantize (ew (fun v => clip v 0 1) image)
       /\ forall y x v,
            getitem image y x = Some v ->
            getitem (V2.create_sector_mask width height 75) y x = Some 0 ->
            v = 0.
Proof.
  intros E. unfold V2.generate_echo_frame_v2 in E.
  apply bind_returns in E as (background & g0 & _ & E).
  apply bind_returns in E as (speckle & g1 & _ & E).
  apply bind_returns in E as (heart & g2 & Eh & E).
  apply lift_returns in Eh as [Eh ->].
  split.
  { intros ->. unfold V2.generate_4chamber_frame in Eh.
    destruct (image_new width height); [|discriminate]. discriminate Eh. }
  apply ret_returns in E.
  eexists. split; [exact E|].
  intros y x v Hv Hm. unfold Tgc.apply_ultrasound_artifacts in Hv.
  apply getitem_ew_inv in Hv as (v3 & Hv3 & ->).
  apply getitem_ew2_inv in Hv3 as (u & m & _ & Hm' & ->).
  rewrite Hm in Hm'. injection Hm' as <-.
  replace (u * 0 * 1.2) with 0 by ring. apply clip_0.
Qed.

Lemma v2_frame_quantized width height frame total_frames (g g' : rng) img :
  V2.generate_echo_frame_v2 width height frame total_frames g = (Ok img, g') ->
  Forall (Forall quantized) img.
Proof.
  intros E. apply v2_frame_inv in E as (_ & image & -> & _).
  eapply Forall_ew_from; [|apply Forall_ew_all with (P := in_unit)].
  - auto with unit_range.
  - auto with unit_range.
Qed.

(** For sizes that are positive multiples of 8, the v2 compositor returns
    when the frame count is not 0 and raises [ZeroDivisionError] when it
    is. *)
Lemma v2_frame_outcome width height frame total_frames (g : rng) :
  rayleigh_shaped ->
  (0 < width)%Z -> (width mod 8 = 0)%Z -> (0 < height)%Z -> (height mod 8 = 0)%Z ->
  exists r g',
    V2.generate_echo_frame_v2 width height frame total_frames g = (r, g')
    /\ if (total_frames =? 0)%Z then r = Raise ZeroDivisionError
       else exists img, r = Ok img.
Proof.
  intros Hlib Hw Hw8 Hh Hh8. unfold V2.generate_echo_frame_v2.
  rewrite bind_lift. unfold np_full.
  destruct (Z.ltb_spec height 0); [lia|]. destruct (Z.ltb_spec width 0); [lia|].
  cbn [orb].
  destruct (v2_speckle_outcome width height 0.25 g Hlib Hh Hw)
    as (r1 & g1 & E1 & H1).
  rewrite Hh8, Hw8 in H1. cbn [Z.eqb andb] in H1. destruct H1 as (x1 & sp & -> & _).
  unfold bind at 1. rewrite E1. rewrite bind_lift.
  unfold V2.generate_4chamber_frame, image_new.
  destruct (Z.ltb_spec width 0); [lia|]. destruct (Z.ltb_spec height 0); [lia|].
  cbn [orb rbind]. unfold Cycle.systole_factor, Py.truediv.
  destruct (Z.eqb_spec total_frames 0) as [->|Ht].
  - cbn [rbind]. eexists _, g1. split; reflexivity.
  - cbn [rbind].
    match goal with
    | |- context [V2.draw_4chamber ?i width height ?s] =>
        destruct (draw_4chamber_returns i width height s ltac:(lia)
                    (systole_of_cycle_bounded _)) as (heart & ->)
    end.
    unfold ret. eexists _, g1. split; [reflexivity|]. eexists. reflexivity.
Qed.

(** With positive sizes of which one is no multiple of 8, the v2 compositor
    raises [ValueError]: a speckle layer does not have the shape of the
    field it is added to. *)
Lemma v2_frame_bad_sizes width height frame total_frames (g : rng) :
  rayleigh_shaped ->
  (0 < width)%Z -> (0 < height)%Z ->
  (width mod 8 <> 0)%Z \/ (height mod 8 <> 0)%Z ->
  fst (V2.generate_echo_frame_v2 width height frame total_frames g)
  = Raise ValueError.
Proof.
  intros Hlib Hw Hh Hbad. unfold V2.generate_echo_frame_v2.
  rewrite bind_lift. unfold np_full.
  destruct (Z.ltb_spec height 0); [lia|]. destruct (Z.ltb_spec width 0); [lia|].
  cbn [orb].
  destruct (v2_speckle_outcome width height 0.25 g Hlib Hh Hw)
    as (r1 & g1 & E1 & H1).
  replace ((height mod 8 =? 0) && (width mod 8 =? 0))%Z with false in H1.
  - subst r1. unfold bind at 1. rewrite E1. reflexivity.
  - symmetry. apply andb_false_iff.
    destruct Hbad as [Hb|Hb]; [right|left]; now apply Z.eqb_neq.
Qed.

End FrameFacts.

(** ** The example library *)

Section LibraryExamples.
Import Np Shape Lib.

Lemma example_rayleigh_shaped : rayleigh_shaped (L := Example.lib).
Proof. intros scale rows cols g. apply has_dims_ogrid. Qed.

Lemma example_filter_shaped : filter_shaped (L := Example.lib).
Proof. intros a sigma rows cols H. exact H. Qed.

End LibraryExamples.

(** ** The speckle generators *)

Section SpeckleGenerators.
Import Np Shape Lib LibExt Speckle.
Local Open Scope R_scope.

(** A field returned by [generate_realistic_speckle] is a normalised
    field. *)
Lemma realistic_speckle_inv {L : NumLib} width height s (g g' : rng) a :
  Realistic.generate_realistic_speckle width height s g = (Ok a, g') ->
  exists x, normalize x = Ok a.
Proof.
  intros E. unfold Realistic.generate_realistic_speckle in E.
  apply bind_returns in E as (u & g0 & _ & E).
  apply bind_returns in E as (z & g1 & _ & E).
  apply bind_returns in E as (fine & g2 & _ & E).
  apply bind_returns in E as (medium & g3 & _ & E).
  apply bind_returns in E as (coarse & g4 & _ & E).
  apply lift_returns in E as [E _]. unfold combine_layers in E.
  destruct (add_arrays _ _) as [sum1|e]; [|discriminate]. cbn [rbind] in E.
  destruct (add_arrays _ _) as [sum2|e]; [|discriminate]. cbn [rbind] in E.
  eexists. exact E.
Qed.

(** A field returned by [generate_speckle_noise] is a field scaled to the
    intensity. *)
Lemma v2_speckle_inv {L : NumLib} width height intensity (g g' : rng) a :
  V2.generate_speckle_noise width height intensity g = (Ok a, g') ->
  exists x, scale_to_intensity intensity x = Ok a.
Proof.
  intros E. unfold V2.generate_speckle_noise in E.
  apply bind_returns in E as (z & g0 & _ & E).
  apply bind_returns in E as (noise & g1 & _ & E).
  apply lift_returns in E as [E _]. now exists noise.
Qed.

Lemma concat_1_3 : concat [[1; 3]] <> [].
Proof. discriminate. Qed.

Lemma amax_1_3 : amax [[1; 3]] = 3.
Proof. unfold amax. cbn. unfold Rmax. destruct (Rle_dec 1 3); lra. Qed.

Lemma amin_1_3 : amin [[1; 3]] = 1.
Proof. unfold amin. cbn. unfold Rmin. destruct (Rle_dec 1 3); lra. Qed.




End SpeckleGenerators.

(** ** Frame composition: what is returned, and when *)

Section FrameComposition.
Import Np Shape Lib LibExt Realistic.
Context {L : NumLib}.
Local Open Scope R_scope.


End FrameComposition.

Section FrameExamples.
Import Np Shape Lib LibExt Realistic.
Local Open Scope R_scope.



End FrameExamples.


(** ** Reproducibility of a seeded frame *)

Section SeedFacts.
Import Np Lib Realistic.
Context {L : NumLib}.
Local Open Scope R_scope.

(** A frame generated with a seed does not depend on the random state it is
    started in, whatever the seed. *)
Lemma seeded_frame_forgets width height frame total_frames dop (s : Z)
  (g1 g2 : rng) :
  fst (generate_realistic_frame width height frame total_frames dop (Some s) g1)
  = fst (generate_realistic_frame width height frame total_frames dop (Some s) g2).
Proof.
  unfold generate_realistic_frame. rewrite !bind_lift.
  destruct (Py.truediv frame total_frames) as [cycle|e]; [|reflexivity].
  rewrite !bind_lift.
  destruct (Shape.np_zeros height width) as [image|e]; [|reflexivity].
  apply (f_equal fst). apply bind_forgets. apply speckle_seeded.
Qed.

Lemma heart_seed_nonzero (s : Z) : s <> 0%Z -> heart_seed (Some s) = Some (s + 1000)%Z.
Proof.
  intros Hs. unfold heart_seed. destruct (Z.eqb_spec s 0); [contradiction|reflexivity].
Qed.

(** C10: for all arguments with a speckle seed [s] such that [s + frame <> 0],
    two calls of [generate_realistic_frame] return the same pixel array
    whatever the random state they start in: the background speckle is seeded
    with [s + frame] and the heart speckle with [s + frame + 1000]; when
    [s + frame = 0] the heart speckle is called without a seed. *)
Theorem seeded_frame_reproducible
  (width height frame total_frames : Z) (dop : bool) (s : Z) (g1 g2 : rng) :
  ((s + frame)%Z <> 0%Z ->
     fst (generate_realistic_frame width height frame total_frames dop (Some s) g1)
     = fst (generate_realistic_frame width height frame total_frames dop (Some s) g2)
     /\ frame_seed (Some s) frame = Some (s + frame)%Z
     /\ heart_seed (frame_seed (Some s) frame) = Some (s + frame + 1000)%Z
     /\ (forall seed_, generate_realistic_speckle width height (Some seed_) g1
                       = generate_realistic_speckle width height (Some seed_) g2))
  /\
  ((s + frame)%Z = 0%Z -> heart_seed (frame_seed (Some s) frame) = None).
Proof.
  split.
  - intros Hs. split; [apply seeded_frame_forgets|].
    split; [reflexivity|].
    split; [cbn [frame_seed]; now apply heart_seed_nonzero|].
    intros seed_. apply speckle_seeded.
  - intros Hs. cbn [frame_seed]. rewrite Hs. reflexivity.
Qed.

End SeedFacts.


Section SeedExamples.
Import Np Lib Realistic.

Lemma seeded_frame_reproducible_witness :
  fst (generate_realistic_frame (L := Example.lib) 64 64 3 30 true (Some 42%Z) 0%Z)
  = fst (generate_realistic_frame (L := Example.lib) 64 64 3 30 true (Some 42%Z) 7%Z)
  /\ heart_seed (frame_seed (Some 0%Z) 0) = None.
Proof.
  split.
  - assert (H : (42 + 3)%Z <> 0%Z) by discriminate.
    exact (proj1 (proj1 (seeded_frame_reproducible (L := Example.lib)
                           64 64 3 30 true 42 0%Z 7%Z) H)).
  - exact (proj2 (seeded_frame_reproducible (L := Example.lib)
                    64 64 0 30 true 0 0%Z 7%Z) eq_refl).
Defined.

End SeedExamples.


(** ** The Doppler flow overlay *)

Section DopplerFacts.
Import Np Lib Anatomy Realistic.
Local Open Scope R_scope.

(** Before the noise, the overlay is zero outside the two valve regions. *)
Lemma flow_layer_outside anatomy sf ph (y x : Z) :
  in_valve_region anatomy sf y x = false -> flow_layer anatomy sf ph y x = (0, 0, 0).
Proof.
  unfold in_valve_region, flow_layer.
  destruct (position (get_mitral_valve anatomy sf)) as [mv_x mv_y].
  destruct (position (get_tricuspid_valve anatomy sf)) as [tv_x tv_y].
  intros H. apply orb_false_iff in H as [Hmv Htv].
  destruct (Rltb 0.3 (1 - sf)); [|reflexivity].
  unfold assign, fast_flow. rewrite Hmv, Htv. reflexivity.
Qed.

(** Before the noise, the overlay is zero everywhere while the diastole factor
    does not exceed 0.3. *)
Lemma flow_layer_inactive anatomy sf ph (y x : Z) :
  1 - sf <= 0.3 -> flow_layer anatomy sf ph y x = (0, 0, 0).
Proof.
  intros Hd. unfold flow_layer.
  destruct (position (get_mitral_valve anatomy sf)) as [mv_x mv_y].
  destruct (position (get_tricuspid_valve anatomy sf)) as [tv_x tv_y].
  unfold Rltb. destruct (Rlt_dec 0.3 (1 - sf)); [lra | reflexivity].
Qed.

Lemma ogrid_ext {A : Type} (height width : Z) (f f' : Z -> Z -> A) :
  (forall y x, f y x = f' y x) -> ogrid height width f = ogrid height width f'.
Proof.
  intros H. unfold ogrid. apply map_ext. intros y. apply map_ext. intros x. apply H.
Qed.

Lemma add_noise_and_clip_unit flow noise :
  Forall (Forall (rgb_all in_unit)) (add_noise_and_clip flow noise).
Proof.
  unfold add_noise_and_clip. apply Forall_ew_all.
  intros [[r g] b]. cbn. auto with unit_range.
Qed.

(** The returned overlay at a pixel: the flow plus the noise sample, clipped. *)
Lemma color_doppler_flow_pixel noise width height anatomy sf ph (y x : Z) n :
  (0 <= y < height)%Z -> (0 <= x < width)%Z -> getitem noise y x = Some n ->
  getitem (color_doppler_flow_with noise width height anatomy sf ph) y x
  = Some (rgb_map (fun v => clip v 0 1)
            (rgb_map2 Rplus (flow_layer anatomy sf ph y x) n)).
Proof.
  intros Hy Hx Hn. unfold color_doppler_flow_with, add_noise_and_clip.
  apply getitem_ew. apply getitem_ew2; [|exact Hn]. now apply getitem_ogrid.
Qed.

Lemma clipped_noise_sample :
  rgb_map (fun v => clip v 0 1) (rgb_map2 Rplus (0, 0, 0) (0.04, 0.04, 0.04))
  = (0.04, 0.04, 0.04).
Proof.
  cbn [rgb_map rgb_map2]. replace (0 + 0.04) with 0.04 by lra.
  rewrite clip_unit_id by (unfold in_unit; lra). reflexivity.
Qed.

(** In a 640 x 480 frame the atrioventricular boundary is row 230. *)
Lemma mid_y_480 : mid_y (Anatomy.init 640 480) = 230%Z.
Proof. cbn [mid_y Anatomy.init]. apply py_int_eq; [lia | lra]. Qed.

(** The top-left pixel of a 640 x 480 frame is outside both valve regions. *)
Lemma corner_outside_valves (sf : R) :
  in_valve_region (Anatomy.init 640 480) sf 0 0 = false.
Proof.
  unfold in_valve_region, get_mitral_valve, get_tricuspid_valve.
  cbn [position]. rewrite mid_y_480. unfold mv_mask, tv_mask.
  change (230 - 30 <? 0)%Z with false. change (230 - 5 - 25 <? 0)%Z with false.
  now rewrite !andb_false_r.
Qed.

(** C5, as stated, fails.  In a 640 x 480 frame with systole factor 0 (flow
    active) and the noise sample 0.04 everywhere, the top-left pixel is outside
    both valve regions and the overlay returned there is 0.04 on every channel;
    and with systole factor 1 the diastole factor is 0, below the threshold,
    yet the overlay of a 1 x 1 frame is 0.04 on every channel, not zero. *)
Lemma doppler_overlay_not_zero :
  in_valve_region (Anatomy.init 640 480) 0 0 0 = false
  /\ getitem (color_doppler_flow_with
                (ogrid 480 640 (fun _ _ => (0.04, 0.04, 0.04)))
                640 480 (Anatomy.init 640 480) 0 0) 0 0
     = Some (0.04, 0.04, 0.04)
  /\ 1 - 1 <= 0.3
  /\ color_doppler_flow_with [[(0.04, 0.04, 0.04)]] 1 1 (Anatomy.init 1 1) 1 0
     = [[(0.04, 0.04, 0.04)]]
  /\ 0.04 <> 0.
Proof.
  split; [apply corner_outside_valves|].
  split.
  { assert (Hn : getitem (ogrid 480 640 (fun _ _ : Z => (0.04, 0.04, 0.04))) 0 0
                  = Some (0.04, 0.04, 0.04))
      by (apply (getitem_ogrid 480 640 (fun _ _ => (0.04, 0.04, 0.04))); lia).
    rewrite (color_doppler_flow_pixel _ 640 480 _ _ _ 0 0 _
               ltac:(lia) ltac:(lia) Hn).
    rewrite flow_layer_outside by apply corner_outside_valves.
    now rewrite clipped_noise_sample. }
  split; [lra|]. split; [|lra].
  unfold color_doppler_flow_with.
  change (ogrid 1 1 (flow_layer (Anatomy.init 1 1) 1 0))
    with [[flow_layer (Anatomy.init 1 1) 1 0 0%Z 0%Z]].
  rewrite flow_layer_inactive by lra.
  unfold add_noise_and_clip, ew, ew2.
  cbn [map zip_with]. now rewrite clipped_noise_sample.
Qed.

(** C5, amended: before the sensor noise is added, the flow overlay is
    non-zero only at pixels inside the valve-adjacent regions and is entirely
    zero whenever the diastole factor [1 - systole_factor] does not exceed 0.3;
    the synthesizer then adds a noise sample to every pixel and channel and
    clips, so every returned channel value lies in [[0,1]], and at a pixel where
    the flow is zero the returned value is the clipped noise sample. *)
Theorem doppler_overlay {L : NumLib} (width height : Z) (anatomy : CardiacAnatomy)
  (sf ph : R) (g : rng) :
  (forall y x, in_valve_region anatomy sf y x = false ->
               flow_layer anatomy sf ph y x = (0, 0, 0))
  /\ (1 - sf <= 0.3 -> forall y x, flow_layer anatomy sf ph y x = (0, 0, 0))
  /\ exists noise g',
       generate_color_doppler_flow width height anatomy sf ph g
       = (Ok (color_doppler_flow_with noise width height anatomy sf ph), g')
       /\ Forall (Forall (rgb_all in_unit))
            (color_doppler_flow_with noise width height anatomy sf ph)
       /\ (forall y x n,
             (0 <= y < height)%Z -> (0 <= x < width)%Z ->
             getitem noise y x = Some n ->
             getitem (color_doppler_flow_with noise width height anatomy sf ph) y x
             = Some (rgb_map (fun v => clip v 0 1)
                       (rgb_map2 Rplus (flow_layer anatomy sf ph y x) n))
             /\ (in_valve_region anatomy sf y x = false \/ 1 - sf <= 0.3 ->
                 getitem (color_doppler_flow_with noise width height anatomy sf ph)
                         y x
                 = Some (rgb_map (fun v => clip v 0 1)
                           (rgb_map2 Rplus (0, 0, 0) n)))).
Proof.
  split; [intros y x; apply flow_layer_outside|].
  split; [intros Hd y x; now apply flow_layer_inactive|].
  destruct (doppler_returns width height anatomy sf ph g) as (noise & g' & E).
  exists noise, g'. split; [exact E|].
  split; [apply add_noise_and_clip_unit|].
  intros y x n Hy Hx Hn.
  pose proof (color_doppler_flow_pixel noise width height anatomy sf ph y x n
                Hy Hx Hn) as Hp.
  split; [exact Hp|].
  intros [Hout|Hd]; rewrite Hp.
  - now rewrite flow_layer_outside.
  - now rewrite flow_layer_inactive.
Qed.

Lemma doppler_overlay_witness :
  flow_layer (Anatomy.init 640 480) 1 0 0%Z 0%Z = (0, 0, 0).
Proof.
  assert (H : 1 - 1 <= 0.3) by lra.
  exact (proj1 (proj2 (doppler_overlay (L := Example.lib) 640 480
                         (Anatomy.init 640 480) 1 0 0%Z)) H 0%Z 0%Z).
Defined.

End DopplerFacts.


(* ===================================================================== *)
(** * Further properties of the generators *)
(* ===================================================================== *)

(** ** The cycle phase: extremes *)

Section CycleShape.
Local Open Scope R_scope.

(** X2: with [4 k] frames per cycle, the systole factor is 1/2 at frame 0,
    reaches its maximum 1 at the quarter cycle (frame [k]) and its minimum 0 at
    three quarters (frame [3 k]). *)
Theorem systole_factor_extremes (k : Z) :
  k <> 0%Z ->
  Cycle.systole_factor 0 (4 * k) = Ok (1 / 2)
  /\ Cycle.systole_factor k (4 * k) = Ok 1
  /\ Cycle.systole_factor (3 * k) (4 * k) = Ok 0.
Proof.
  intros Hk. assert (H4k : (4 * k)%Z <> 0%Z) by lia.
  assert (HR : IZR k <> 0) by now apply not_0_IZR.
  unfold Cycle.systole_factor. rewrite !truediv_nonzero by assumption.
  unfold Cycle.systole_of_cycle, Cycle.phase. rewrite !mult_IZR.
  repeat split; f_equal.
  - replace (2 * PI * (0 / (4 * IZR k))) with 0 by (field; exact HR).
    rewrite sin_0. field.
  - replace (2 * PI * (IZR k / (4 * IZR k))) with (PI / 2) by (field; exact HR).
    rewrite sin_PI2. field.
  - replace (2 * PI * (3 * IZR k / (4 * IZR k))) with (3 * (PI / 2))
      by (field; exact HR).
    rewrite sin_3PI2. field.
Qed.

Lemma systole_factor_extremes_witness :
  Cycle.systole_factor 0 (4 * 15) = Ok (1 / 2)
  /\ Cycle.systole_factor 15 (4 * 15) = Ok 1
  /\ Cycle.systole_factor (3 * 15) (4 * 15) = Ok 0.
Proof. apply (systole_factor_extremes 15). discriminate. Defined.

End CycleShape.


(** ** Contours: cavities inside walls, sizes and valve openings in range *)

Section ContourInvariants.
Import Anatomy.
Local Open Scope R_scope.

(** Truncation of a value between [lo >= 0] and just below [hi + 1]. *)
Lemma py_int_range (lo hi : Z) (x : R) :
  (0 <= lo)%Z -> IZR lo <= x -> x < IZR hi + 1 -> (lo <= Py.int x <= hi)%Z.
Proof.
  intros Hlo Hx Hhi. assert (0 <= IZR lo) by now apply IZR_le.
  unfold Py.int. destruct (Rle_dec 0 x); [|lra].
  split; [now apply Zfloor_lub|].
  pose proof (Zfloor_bound x) as [Hf _].
  assert (Hlt : IZR (Zfloor x) < IZR (hi + 1)) by (rewrite plus_IZR; lra).
  apply lt_IZR in Hlt. lia.
Qed.

(** X3: in the anatomy of the realistic generator, for image dimensions that
    are not negative and a systole factor in [[0,1]], each ventricular cavity
    lies within its wall: the inner radii are between 0 and the outer radii,
    the wall thickness is not negative, and the atrial radii and wall
    thicknesses are not negative. *)
Theorem cavity_within_wall (w h : Z) (s : R) :
  (0 <= w)%Z -> (0 <= h)%Z -> 0 <= s -> s <= 1 ->
  let a := init w h in
  radii_le (0%Z, 0%Z) (inner (get_lv_contour a s))
  /\ radii_le (inner (get_lv_contour a s)) (outer (get_lv_contour a s))
  /\ (0 <= v_wall_thickness (get_lv_contour a s))%Z
  /\ radii_le (0%Z, 0%Z) (inner (get_rv_contour a s))
  /\ radii_le (inner (get_rv_contour a s)) (outer (get_rv_contour a s))
  /\ (0 <= v_wall_thickness (get_rv_contour a s))%Z
  /\ radii_le (0%Z, 0%Z) (radius (get_la_contour a s))
  /\ (0 <= a_wall_thickness (get_la_contour a s))%Z
  /\ radii_le (0%Z, 0%Z) (radius (get_ra_contour a s))
  /\ (0 <= a_wall_thickness (get_ra_contour a s))%Z.
Proof.
  intros Hw Hh Hs0 Hs1 a.
  assert (HW : 0 <= IZR w) by now apply IZR_le.
  assert (HH : 0 <= IZR h) by now apply IZR_le.
  subst a. unfold radii_le.
  cbn [init get_lv_contour get_rv_contour get_la_contour get_ra_contour
       outer inner radius v_wall_thickness a_wall_thickness width height fst snd].
  assert (Hlvx : (Py.int (IZR w * 0.10 * (1 - 0.22 * s * 0.4))
                  <= Py.int (IZR w * 0.14 * (1 - 0.22 * s * 0.15)))%Z)
    by (apply py_int_le; nra).
  assert (Hrvx : (Py.int (IZR w * 0.08 * (1 - 0.15 * s * 0.35))
                  <= Py.int (IZR w * 0.11 * (1 - 0.15 * s * 0.15)))%Z)
    by (apply py_int_le; nra).
  repeat split;
    try (apply py_int_nonneg; nra);
    try (apply py_int_le; nra);
    lia.
Qed.

Lemma cavity_within_wall_witness :
  radii_le (inner (get_lv_contour (init 640 480) (1 / 2)))
           (outer (get_lv_contour (init 640 480) (1 / 2)))
  /\ (0 <= v_wall_thickness (get_rv_contour (init 640 480) (1 / 2)))%Z.
Proof.
  assert (H0 : (0 <= 640)%Z) by lia.
  assert (H1 : (0 <= 480)%Z) by lia.
  assert (H2 : 0 <= 1 / 2) by lra.
  assert (H3 : 1 / 2 <= 1) by lra.
  pose proof (cavity_within_wall 640 480 (1 / 2) H0 H1 H2 H3) as H.
  cbv zeta in H. tauto.
Defined.

(** X4: in [generate_4chamber_frame], for a systole factor in [[0,1]], every
    radius stays in a fixed pixel range and each ventricular cavity is strictly
    inside its wall. *)
Theorem chamber_radii_ranges (s : R) :
  0 <= s -> s <= 1 ->
  (70 <= Chambers.lv_outer_rx s <= 75)%Z /\ (134 <= Chambers.lv_outer_ry s <= 140)%Z
  /\ (45 <= Chambers.lv_inner_rx s <= 55)%Z /\ (98 <= Chambers.lv_inner_ry s <= 115)%Z
  /\ (62 <= Chambers.rv_outer_rx s <= 65)%Z /\ (117 <= Chambers.rv_outer_ry s <= 120)%Z
  /\ (44 <= Chambers.rv_inner_rx s <= 50)%Z /\ (91 <= Chambers.rv_inner_ry s <= 100)%Z
  /\ (70 <= Chambers.la_rx s <= 75)%Z /\ (55 <= Chambers.la_ry s <= 59)%Z
  /\ (60 <= Chambers.ra_rx s <= 63)%Z /\ (50 <= Chambers.ra_ry s <= 53)%Z
  /\ (Chambers.lv_inner_rx s < Chambers.lv_outer_rx s)%Z
  /\ (Chambers.lv_inner_ry s < Chambers.lv_outer_ry s)%Z
  /\ (Chambers.rv_inner_rx s < Chambers.rv_outer_rx s)%Z
  /\ (Chambers.rv_inner_ry s < Chambers.rv_outer_ry s)%Z.
Proof.
  intros Hs0 Hs1.
  unfold Chambers.lv_outer_rx, Chambers.lv_outer_ry, Chambers.lv_inner_rx,
    Chambers.lv_inner_ry, Chambers.rv_outer_rx, Chambers.rv_outer_ry,
    Chambers.rv_inner_rx, Chambers.rv_inner_ry, Chambers.la_rx, Chambers.la_ry,
    Chambers.ra_rx, Chambers.ra_ry, Chambers.lv_contraction,
    Chambers.rv_contraction, Chambers.la_expansion, Chambers.ra_expansion.
  assert (B1 : (70 <= Py.int (75 * (1 - 0.18 * s * 0.3)) <= 75)%Z)
    by (apply py_int_range; [lia | lra | lra]).
  assert (B2 : (134 <= Py.int (140 * (1 - 0.18 * s * 0.2)) <= 140)%Z)
    by (apply py_int_range; [lia | lra | lra]).
  assert (B3 : (45 <= Py.int (55 * (1 - 0.18 * s)) <= 55)%Z)
    by (apply py_int_range; [lia | lra | lra]).
  assert (B4 : (98 <= Py.int (115 * (1 - 0.18 * s * 0.8)) <= 115)%Z)
    by (apply py_int_range; [lia | lra | lra]).
  assert (B5 : (62 <= Py.int (65 * (1 - 0.12 * s * 0.3)) <= 65)%Z)
    by (apply py_int_range; [lia | lra | lra]).
  assert (B6 : (117 <= Py.int (120 * (1 - 0.12 * s * 0.2)) <= 120)%Z)
    by (apply py_int_range; [lia | lra | lra]).
  assert (B7 : (44 <= Py.int (50 * (1 - 0.12 * s)) <= 50)%Z)
    by (apply py_int_range; [lia | lra | lra]).
  assert (B8 : (91 <= Py.int (100 * (1 - 0.12 * s * 0.7)) <= 100)%Z)
    by (apply py_int_range; [lia | lra | lra]).
  assert (B9 : (70 <= Py.int (70 * (1 + 0.08 * s)) <= 75)%Z)
    by (apply py_int_range; [lia | lra | lra]).
  assert (B10 : (55 <= Py.int (55 * (1 + 0.08 * s)) <= 59)%Z)
    by (apply py_int_range; [lia | lra | lra]).
  assert (B11 : (60 <= Py.int (60 * (1 + 0.06 * s)) <= 63)%Z)
    by (apply py_int_range; [lia | lra | lra]).
  assert (B12 : (50 <= Py.int (50 * (1 + 0.06 * s)) <= 53)%Z)
    by (apply py_int_range; [lia | lra | lra]).
  repeat split; lia.
Qed.

Lemma chamber_radii_ranges_witness :
  (Chambers.lv_inner_rx 1 < Chambers.lv_outer_rx 1)%Z
  /\ (70 <= Chambers.la_rx 0 <= 75)%Z.
Proof.
  assert (H0 : 0 <= 0) by lra.
  assert (H1 : 0 <= 1) by lra.
  assert (H2 : 1 <= 1) by lra.
  pose proof (chamber_radii_ranges 1 H1 H2) as Ha.
  pose proof (chamber_radii_ranges 0 H0 H1) as Hb.
  tauto.
Defined.

(** X5: valve openings.  For a systole factor in [[0,1]] the mitral opening is
    between 0 and 30 pixels and the tricuspid opening between 0 and 25 in the
    realistic generator (25 and 20 in [generate_4chamber_frame]); the valves are
    fully open at systole factor 0 and closed (opening 0) at systole factor 1. *)
Theorem valve_opening_range (a : CardiacAnatomy) (s : R) :
  0 <= s -> s <= 1 ->
  (0 <= opening (get_mitral_valve a s) <= 30)%Z
  /\ (0 <= opening (get_tricuspid_valve a s) <= 25)%Z
  /\ (0 <= Chambers.mv_opening s <= 25)%Z
  /\ (0 <= Chambers.tv_opening s <= 20)%Z
  /\ opening (get_mitral_valve a 0) = 30%Z /\ opening (get_mitral_valve a 1) = 0%Z
  /\ opening (get_tricuspid_valve a 0) = 25%Z
  /\ opening (get_tricuspid_valve a 1) = 0%Z
  /\ Chambers.mv_opening 0 = 25%Z /\ Chambers.mv_opening 1 = 0%Z
  /\ Chambers.tv_opening 0 = 20%Z /\ Chambers.tv_opening 1 = 0%Z.
Proof.
  intros Hs0 Hs1.
  unfold Chambers.mv_opening, Chambers.tv_opening.
  cbn [get_mitral_valve get_tricuspid_valve opening].
  assert (B1 : (0 <= Py.int (30 * (1 - s)) <= 30)%Z) by (apply py_int_bounds; lra).
  assert (B2 : (0 <= Py.int (25 * (1 - s)) <= 25)%Z) by (apply py_int_bounds; lra).
  assert (B3 : (0 <= Py.int (20 * (1 - s)) <= 20)%Z) by (apply py_int_bounds; lra).
  assert (E1 : Py.int (30 * (1 - 0)) = 30%Z) by (apply py_int_eq; [lia | lra]).
  assert (E2 : Py.int (25 * (1 - 0)) = 25%Z) by (apply py_int_eq; [lia | lra]).
  assert (E3 : Py.int (20 * (1 - 0)) = 20%Z) by (apply py_int_eq; [lia | lra]).
  assert (Z1 : Py.int (30 * (1 - 1)) = 0%Z) by (apply py_int_eq; [lia | lra]).
  assert (Z2 : Py.int (25 * (1 - 1)) = 0%Z) by (apply py_int_eq; [lia | lra]).
  assert (Z3 : Py.int (20 * (1 - 1)) = 0%Z) by (apply py_int_eq; [lia | lra]).
  repeat split; (assumption || lia).
Qed.

Lemma valve_opening_range_witness :
  (0 <= opening (get_mitral_valve (init 640 480) (1 / 2)) <= 30)%Z.
Proof.
  assert (H0 : 0 <= 1 / 2) by lra.
  assert (H1 : 1 / 2 <= 1) by lra.
  exact (proj1 (valve_opening_range (init 640 480) (1 / 2) H0 H1)).
Defined.

End ContourInvariants.

(** ** Frames are black outside the sector mask *)

Section MaskedFrames.
Import Np Shape Lib LibExt Realistic.
Context {L : NumLib}.
Local Open Scope R_scope.

(** X6: when the Rayleigh draws have the shape asked for, a frame of the v2
    (and JPEG) generator whose width and height are positive multiples of 8
    is returned for [total_frames <> 0], and it is 0 at every pixel where
    the sector mask is 0. *)
Theorem v2_frame_black_outside_mask (width height frame total_frames : Z) (g : rng) :
  rayleigh_shaped ->
  (0 < width)%Z -> (width mod 8 = 0)%Z -> (0 < height)%Z -> (height mod 8 = 0)%Z ->
  total_frames <> 0%Z ->
  exists img g',
    V2.generate_echo_frame_v2 width height frame total_frames g = (Ok img, g')
    /\ forall y x v,
         getitem img y x = Some v ->
         getitem (V2.create_sector_mask width height 75) y x = Some 0 ->
         v = 0%Z.
Proof.
  intros Hlib Hw Hw8 Hh Hh8 Ht.
  destruct (v2_frame_outcome width height frame total_frames g Hlib Hw Hw8 Hh Hh8)
    as (r & g' & E & H).
  destruct (Z.eqb_spec total_frames 0); [contradiction|].
  destruct H as (img & ->). exists img, g'. split; [exact E|].
  apply v2_frame_inv in E as (_ & image & -> & Himage).
  intros y x v Hv Hm.
  apply getitem_ew_inv in Hv as (v1 & Hv1 & ->).
  apply getitem_ew_inv in Hv1 as (v2 & Hv2 & ->).
  rewrite (Himage y x v2 Hv2 Hm). now rewrite clip_0, quantize_0.
Qed.

(** X7: when the library draws and filters keep the shapes, a frame of the
    realistic generator without the Doppler overlay, of a width that is a
    positive multiple of 4 and a height of at least 120 that is a multiple
    of 4, with seeds numpy accepts, is returned for [total_frames <> 0], and
    it is black at every pixel where the sector mask is 0. *)
Theorem realistic_frame_black_outside_mask
  (width height frame total_frames : Z) (seed_ : option Z) (g : rng) :
  rayleigh_shaped -> filter_shaped ->
  (0 < width)%Z -> (width mod 4 = 0)%Z -> (120 <= height)%Z -> (height mod 4 = 0)%Z ->
  total_frames <> 0%Z ->
  (forall s, seed_ = Some s -> (0 <= s + frame)%Z /\ (s + frame + 1000 < 2 ^ 32)%Z) ->
  exists img g',
    generate_realistic_frame width height frame total_frames false seed_ g
    = (Ok img, g')
    /\ forall y x p,
         getitem img y x = Some p ->
         getitem (mask (create_sector_geometry width height 72)) y x = Some 0 ->
         p = (0%Z, 0%Z, 0%Z).
Proof.
  intros Hlib Hfil Hw Hw4 Hh Hh4 Ht _.
  destruct (realistic_frame_returns width height frame total_frames false seed_ g
              Hlib Hfil Hw Hw4 Hh Hh4 Ht) as (img & g' & E).
  exists img, g'. split; [exact E|].
  apply realistic_frame_inv in E as (_ & heart & image & _ & Himage & ->).
  intros y x p Hp Hm.
  apply getitem_ew_inv in Hp as (v1 & Hv1 & ->).
  rewrite (Himage y x v1 Hv1 Hm). rewrite quantize_0. reflexivity.
Qed.

End MaskedFrames.


(** ** Lateral blur, pixel by pixel *)

Section LateralBlur.
Import Np Lib Realistic BlurPixel.
Context {L : NumLib}.
Local Open Scope R_scope.

Lemma fold_plus_ge (l : list R) :
  Forall (fun v => 0 <= v) l ->
  forall acc, acc <= fold_left Rplus l acc
              /\ forall v, In v l -> acc + v <= fold_left Rplus l acc.
Proof.
  induction 1 as [|x l Hx Hl IH]; intros acc; cbn.
  - split; [lra | contradiction].
  - destruct (IH (acc + x)) as [H1 H2]. split; [lra|].
    intros v [<-|Hin]; [exact H1|]. specialize (H2 v Hin). lra.
Qed.

Lemma getitem_In {A : Type} (a : list (list A)) (y x : Z) v :
  getitem a y x = Some v -> In v (concat a).
Proof.
  unfold getitem. destruct (nth_error a (Z.to_nat y)) as [row|] eqn:E; [|discriminate].
  intros Hx. apply in_concat. exists row. split; eapply nth_error_In; eauto.
Qed.

Lemma asum_ge_entry (a : raster) (y x : Z) v :
  Forall (fun v => 0 <= v) (concat a) -> getitem a y x = Some v -> v <= asum a.
Proof.
  intros Hpos Hv. unfold asum.
  destruct (fold_plus_ge _ Hpos 0) as [_ H]. specialize (H v (getitem_In _ _ _ _ Hv)).
  lra.
Qed.

Lemma float_of_bool_nonneg (a : raster) (f : R -> bool) :
  Forall (fun v => 0 <= v) (concat (ew (fun d => float_of_bool (f d)) a)).
Proof.
  rewrite concat_ew. apply Forall_map, Forall_forall. intros d _.
  unfold float_of_bool. destruct (f d); lra.
Qed.

(** One band at one pixel: inside the band the pixel is replaced by the
    blurred image, outside it is kept. *)
Lemma blur_band_pixel (image dm result : raster) (ds : R) (y x : Z) r d b :
  getitem result y x = Some r -> getitem dm y x = Some d ->
  getitem (gaussian_filter image (0, 0.5 + ds * 1.5)) y x = Some b ->
  getitem (blur_band image dm result ds) y x
  = Some (if in_band ds d then b else r).
Proof.
  intros Hr Hd Hb. unfold blur_band.
  set (maskf := fun d0 => float_of_bool (Rleb ds d0 && Rltb d0 (ds + 0.15))).
  assert (Hm : getitem (ew maskf dm) y x = Some (maskf d)) by now apply getitem_ew.
  unfold Rltb at 1. destruct (Rlt_dec 0 (asum (ew maskf dm))) as [Hs|Hs].
  - rewrite (getitem_ew2 Rplus _ _ y x (r * (1 - maskf d)) (b * maskf d)).
    + unfold maskf, in_band, float_of_bool.
      destruct (Rleb ds d && Rltb d (ds + 0.15)); f_equal; ring.
    + now apply (getitem_ew2 (fun r0 m => r0 * (1 - m)) result _ y x r (maskf d)).
    + now apply (getitem_ew2 Rmult _ _ y x b (maskf d)).
  - rewrite Hr. unfold in_band.
    destruct (Rleb ds d && Rltb d (ds + 0.15)) eqn:E; [|reflexivity].
    exfalso. apply Hs.
    assert (H1 : maskf d <= asum (ew maskf dm)).
    { eapply asum_ge_entry; [|exact Hm].
      apply (float_of_bool_nonneg dm (fun d0 => Rleb ds d0 && Rltb d0 (ds + 0.15))). }
    unfold maskf in H1 at 1. rewrite E in H1. cbn in H1. lra.
Qed.

Lemma fold_blur_band_pixel (image dm : raster) (y x : Z) d (bands : list R) :
  getitem dm y x = Some d ->
  (forall ds, In ds bands ->
     getitem (gaussian_filter image (0, 0.5 + ds * 1.5)) y x <> None) ->
  forall result r, getitem result y x = Some r ->
  getitem (fold_left (blur_band image dm) bands result) y x
  = Some (blur_pixel image y x d bands r).
Proof.
  intros Hd. induction bands as [|ds bands IH]; intros Hg result r Hr.
  - exact Hr.
  - change (blur_pixel image y x d (ds :: bands) r)
      with (blur_pixel image y x d bands
              (if in_band ds d then
                 match getitem (gaussian_filter image (0, 0.5 + ds * 1.5)) y x with
                 | Some b => b
                 | None => r
                 end
               else r)).
    cbn [fold_left]. apply IH.
    + intros ds' Hin. apply Hg. now right.
    + destruct (getitem (gaussian_filter image (0, 0.5 + ds * 1.5)) y x)
        as [b|] eqn:Eb; [|exfalso; apply (Hg ds); [now left | exact Eb]].
      now apply blur_band_pixel.
Qed.

Lemma depth_starts_values :
  depth_starts
  = [0.3 + 0 * 0.1; 0.3 + 1 * 0.1; 0.3 + 2 * 0.1; 0.3 + 3 * 0.1;
     0.3 + 4 * 0.1; 0.3 + 5 * 0.1; 0.3 + 6 * 0.1].
Proof. reflexivity. Qed.

Lemma in_band_true ds d : ds <= d -> d < ds + 0.15 -> in_band ds d = true.
Proof.
  intros H1 H2. unfold in_band, Rleb, Rltb.
  destruct (Rle_dec ds d); [|lra]. destruct (Rlt_dec d (ds + 0.15)); [|lra].
  reflexivity.
Qed.

Lemma in_band_false ds d : d < ds \/ ds + 0.15 <= d -> in_band ds d = false.
Proof.
  intros H. unfold in_band, Rleb, Rltb.
  destruct (Rle_dec ds d); destruct (Rlt_dec d (ds + 0.15)); try reflexivity.
  lra.
Qed.

(** X8: [apply_lateral_blur] leaves the near field alone: a pixel whose
    normalised depth is below 0.3 (or at least 1.05) keeps its value. *)
Theorem lateral_blur_near_field (image dm : raster) (y x : Z) (u d : R) :
  getitem image y x = Some u -> getitem dm y x = Some d ->
  blurred_everywhere image y x ->
  d < 0.3 \/ 1.05 <= d ->
  getitem (apply_lateral_blur image dm) y x = Some u.
Proof.
  intros Hu Hd Hg Hnear. unfold apply_lateral_blur.
  rewrite (fold_blur_band_pixel image dm y x d depth_starts Hd Hg image u Hu).
  f_equal. rewrite depth_starts_values. unfold blur_pixel. cbn [fold_left].
  rewrite !in_band_false by lra. reflexivity.
Qed.

(** X9: where two depth bands overlap, the deeper band overwrites: a pixel
    whose depth lies in band [k + 1] and still in band [k] (for [k] from 0 to
    5, the bands starting at [0.3 + 0.1 k]) ends with the value of the image
    blurred with the sigma of band [k + 1]. *)
Theorem lateral_blur_overlap (image dm : raster) (y x : Z) (u d : R) (k : Z) :
  getitem image y x = Some u -> getitem dm y x = Some d ->
  blurred_everywhere image y x ->
  (0 <= k <= 5)%Z ->
  0.3 + IZR (k + 1) * 0.1 <= d -> d < 0.3 + IZR k * 0.1 + 0.15 ->
  getitem (apply_lateral_blur image dm) y x
  = getitem (gaussian_filter image (0, 0.5 + (0.3 + IZR (k + 1) * 0.1) * 1.5)) y x.
Proof.
  intros Hu Hd Hg Hk Hlo Hhi. unfold apply_lateral_blur.
  rewrite (fold_blur_band_pixel image dm y x d depth_starts Hd Hg image u Hu).
  assert (Hcases : (k = 0 \/ k = 1 \/ k = 2 \/ k = 3 \/ k = 4 \/ k = 5)%Z) by lia.
  rewrite depth_starts_values. unfold blur_pixel. cbn [fold_left].
  destruct Hcases as [-> | [-> | [-> | [-> | [-> | ->]]]]];
    cbn [Z.add Pos.add Pos.succ] in *.
  - pose proof (Hg (0.3 + 1 * 0.1)) as Hb. rewrite depth_starts_values in Hb.
    rewrite (in_band_true (0.3 + 0 * 0.1)), (in_band_true (0.3 + 1 * 0.1)) by lra.
    rewrite !in_band_false by lra.
    destruct (getitem (gaussian_filter image (0, 0.5 + (0.3 + 1 * 0.1) * 1.5)) y x);
      [reflexivity | exfalso; apply Hb; cbn; tauto].
  - pose proof (Hg (0.3 + 2 * 0.1)) as Hb. rewrite depth_starts_values in Hb.
    rewrite (in_band_true (0.3 + 1 * 0.1)), (in_band_true (0.3 + 2 * 0.1)) by lra.
    rewrite !in_band_false by lra.
    destruct (getitem (gaussian_filter image (0, 0.5 + (0.3 + 2 * 0.1) * 1.5)) y x);
      [reflexivity | exfalso; apply Hb; cbn; tauto].
  - pose proof (Hg (0.3 + 3 * 0.1)) as Hb. rewrite depth_starts_values in Hb.
    rewrite (in_band_true (0.3 + 2 * 0.1)), (in_band_true (0.3 + 3 * 0.1)) by lra.
    rewrite !in_band_false by lra.
    destruct (getitem (gaussian_filter image (0, 0.5 + (0.3 + 3 * 0.1) * 1.5)) y x);
      [reflexivity | exfalso; apply Hb; cbn; tauto].
  - pose proof (Hg (0.3 + 4 * 0.1)) as Hb. rewrite depth_starts_values in Hb.
    rewrite (in_band_true (0.3 + 3 * 0.1)), (in_band_true (0.3 + 4 * 0.1)) by lra.
    rewrite !in_band_false by lra.
    destruct (getitem (gaussian_filter image (0, 0.5 + (0.3 + 4 * 0.1) * 1.5)) y x);
      [reflexivity | exfalso; apply Hb; cbn; tauto].
  - pose proof (Hg (0.3 + 5 * 0.1)) as Hb. rewrite depth_starts_values in Hb.
    rewrite (in_band_true (0.3 + 4 * 0.1)), (in_band_true (0.3 + 5 * 0.1)) by lra.
    rewrite !in_band_false by lra.
    destruct (getitem (gaussian_filter image (0, 0.5 + (0.3 + 5 * 0.1) * 1.5)) y x);
      [reflexivity | exfalso; apply Hb; cbn; tauto].
  - pose proof (Hg (0.3 + 6 * 0.1)) as Hb. rewrite depth_starts_values in Hb.
    rewrite (in_band_true (0.3 + 5 * 0.1)), (in_band_true (0.3 + 6 * 0.1)) by lra.
    rewrite !in_band_false by lra.
    destruct (getitem (gaussian_filter image (0, 0.5 + (0.3 + 6 * 0.1) * 1.5)) y x);
      [reflexivity | exfalso; apply Hb; cbn; tauto].
Qed.

End LateralBlur.


Section PixelExamples.
Import Np Lib Realistic BlurPixel.
Local Open Scope R_scope.

Lemma v2_frame_black_outside_mask_witness :
  exists img g',
    V2.generate_echo_frame_v2 (L := Example.lib) 640 480 3 30 0%Z = (Ok img, g').
Proof.
  destruct (v2_frame_black_outside_mask (L := Example.lib) 640 480 3 30 0%Z
              example_rayleigh_shaped ltac:(lia) ltac:(reflexivity)
              ltac:(lia) ltac:(reflexivity) ltac:(discriminate))
    as (img & g' & E & _).
  exists img, g'. exact E.
Defined.

Lemma realistic_frame_black_outside_mask_witness :
  exists img g',
    generate_realistic_frame (L := Example.lib) 640 480 3 30 false (Some 42%Z) 0%Z
    = (Ok img, g').
Proof.
  assert (Hs : forall s, Some 42%Z = Some s ->
                 (0 <= s + 3)%Z /\ (s + 3 + 1000 < 2 ^ 32)%Z).
  { intros s [= <-]. lia. }
  destruct (realistic_frame_black_outside_mask (L := Example.lib) 640 480 3 30
              (Some 42%Z) 0%Z example_rayleigh_shaped example_filter_shaped
              ltac:(lia) ltac:(reflexivity) ltac:(lia) ltac:(reflexivity)
              ltac:(discriminate) Hs) as (img & g' & E & _).
  exists img, g'. exact E.
Defined.

Lemma example_blurred_everywhere :
  blurred_everywhere (L := Example.lib) [[0.5]] 0 0.
Proof. intros ds _. discriminate. Qed.

Lemma lateral_blur_near_field_witness :
  getitem (apply_lateral_blur (L := Example.lib) [[0.5]] [[0.2]]) 0 0 = Some 0.5.
Proof.
  assert (Hd : 0.2 < 0.3 \/ 1.05 <= 0.2) by (left; lra).
  exact (lateral_blur_near_field (L := Example.lib) [[0.5]] [[0.2]] 0 0 0.5 0.2
           eq_refl eq_refl example_blurred_everywhere Hd).
Defined.

Lemma lateral_blur_overlap_witness :
  getitem (apply_lateral_blur (L := Example.lib) [[0.5]] [[0.42]]) 0 0
  = getitem (gaussian_filter (NumLib := Example.lib) [[0.5]]
               (0, 0.5 + (0.3 + IZR (0 + 1) * 0.1) * 1.5)) 0 0.
Proof.
  assert (Hk : (0 <= 0 <= 5)%Z) by lia.
  assert (Hlo : 0.3 + IZR (0 + 1) * 0.1 <= 0.42) by (cbn; lra).
  assert (Hhi : 0.42 < 0.3 + IZR 0 * 0.1 + 0.15) by lra.
  exact (lateral_blur_overlap (L := Example.lib) [[0.5]] [[0.42]] 0 0 0.5 0.42 0
           eq_refl eq_refl example_blurred_everywhere Hk Hlo Hhi).
Defined.

End PixelExamples.


(** ** Cine and cardiac attributes *)

Section CineFacts.
Import LibExt Cine.
Local Open Scope R_scope.

(** [int(a / b)] on non-negative ints is the integer quotient. *)
Lemma py_int_div (a b : Z) :
  (0 <= a)%Z -> (0 < b)%Z -> Py.int (IZR a / IZR b) = (a / b)%Z.
Proof.
  intros Ha Hb.
  pose proof (Z.div_mod a b ltac:(lia)) as Hdm.
  pose proof (Z.mod_pos_bound a b Hb) as Hmod.
  assert (Hq : (0 <= a / b)%Z) by (apply Z.div_pos; lia).
  assert (HB : 0 < IZR b) by now apply IZR_lt.
  assert (HR : IZR a = IZR b * IZR (a / b) + IZR (a mod b))
    by (rewrite <- mult_IZR, <- plus_IZR; now f_equal).
  assert (Hr0 : 0 <= IZR (a mod b)) by (apply IZR_le; lia).
  assert (Hr1 : IZR (a mod b) < IZR b) by (apply IZR_lt; lia).
  apply py_int_eq; [exact Hq|].
  assert (E : IZR a / IZR b = IZR (a / b) + IZR (a mod b) / IZR b)
    by (rewrite HR; field; lra).
  rewrite E.
  assert (0 <= IZR (a mod b) / IZR b < 1) by (apply div_pos_bounds; lra).
  lra.
Qed.

Lemma truediv_raises (a b : Z) : (exists e, Py.truediv a b = Raise e) <-> b = 0%Z.
Proof.
  unfold Py.truediv. destruct (Z.eqb_spec b 0) as [->|Hb]; split; intros H.
  - reflexivity.
  - eauto.
  - destruct H as [e He]. discriminate.
  - contradiction.
Qed.

(** X11: [create_dicom_dataset] of the v2 generator fails with
    [ZeroDivisionError] exactly when the frame rate is 0 or the heart rate is
    0, 10 or -10; no other exception is raised by the timing attributes. *)
Theorem timing_raises (num_frames heart_rate frame_rate : Z) :
  (timing num_frames heart_rate frame_rate = Raise ZeroDivisionError
   <-> (frame_rate = 0 \/ heart_rate = 0 \/ heart_rate = -10 \/ heart_rate = 10)%Z)
  /\ (forall e, timing num_frames heart_rate frame_rate = Raise e ->
                e = ZeroDivisionError).
Proof.
  unfold timing, cine_module, cardiac_module, rbind, truediv_float, Py.truediv.
  destruct (Z.eqb_spec frame_rate 0) as [Hf|Hf].
  { split; [split; [intros _; now left | reflexivity]|]. now intros e [= <-]. }
  destruct (Z.eqb_spec heart_rate 0) as [Hh|Hh].
  { split; [split; [intros _; right; now left | reflexivity]|]. now intros e [= <-]. }
  destruct (Z.eqb_spec (heart_rate + 10) 0) as [Hl|Hl].
  { split; [split; [intros _; right; right; left; lia | reflexivity]|].
    now intros e [= <-]. }
  destruct (Z.eqb_spec (heart_rate - 10) 0) as [Hg|Hg].
  { split; [split; [intros _; right; right; right; lia | reflexivity]|].
    now intros e [= <-]. }
  split; [split; [discriminate | lia]|]. discriminate.
Qed.

(** X12: for a positive frame rate, a heart rate above 10 and a frame count
    that is not negative, the timing attributes are set: the R-R interval
    bounds bracket the nominal interval, the integer attributes are integer
    quotients, the frame time vector has one entry, the frame time, per frame,
    and frame time and duration multiply back to 1000 ms and to the frame
    count. *)
Theorem timing_values (num_frames heart_rate frame_rate : Z) :
  (0 <= num_frames)%Z -> (10 < heart_rate)%Z -> (0 < frame_rate)%Z ->
  exists c k,
    timing num_frames heart_rate frame_rate = Ok (c, k)
    /\ (LowRRValue k <= NominalInterval k <= HighRRValue k)%Z
    /\ NominalInterval k = (60000 / heart_rate)%Z
    /\ LowRRValue k = (60000 / (heart_rate + 10))%Z
    /\ HighRRValue k = (60000 / (heart_rate - 10))%Z
    /\ ActualFrameDuration c = (1000000 / frame_rate)%Z
    /\ FrameTime c * IZR frame_rate = 1000
    /\ EffectiveDuration c * IZR frame_rate = IZR num_frames
    /\ Z.of_nat (length (FrameTimeVector c)) = num_frames
    /\ Forall (fun t => t = FrameTime c) (FrameTimeVector c)
    /\ StopTrim c = num_frames /\ CardiacNumberOfImages k = num_frames.
Proof.
  intros Hn Hh Hf.
  assert (HF : IZR frame_rate <> 0) by (apply not_0_IZR; lia).
  unfold timing, cine_module, cardiac_module, rbind, truediv_float.
  rewrite !truediv_nonzero by lia.
  destruct (Z.eqb_spec frame_rate 0) as [E|_]; [lia|].
  eexists; eexists. split; [reflexivity|].
  cbn [LowRRValue NominalInterval HighRRValue ActualFrameDuration FrameTime
       EffectiveDuration FrameTimeVector StopTrim CardiacNumberOfImages].
  rewrite !py_int_div by lia.
  split.
  { split.
    - apply Z.div_le_compat_l; lia.
    - apply Z.div_le_compat_l; lia. }
  repeat split; try reflexivity.
  - field. exact HF.
  - field. exact HF.
  - rewrite repeat_length. lia.
  - apply Forall_forall. intros t Ht. now apply repeat_spec in Ht.
Qed.

Lemma timing_raises_witness :
  timing 68 72 0 = Raise ZeroDivisionError
  /\ timing 68 10 30 = Raise ZeroDivisionError.
Proof.
  split.
  - apply (proj2 (proj1 (timing_raises 68 72 0))). now left.
  - apply (proj2 (proj1 (timing_raises 68 10 30))). now right; right; right.
Defined.

Lemma timing_values_witness :
  exists c k,
    timing 68 72 30 = Ok (c, k)
    /\ (LowRRValue k <= NominalInterval k <= HighRRValue k)%Z
    /\ NominalInterval k = (60000 / 72)%Z.
Proof.
  destruct (timing_values 68 72 30 ltac:(lia) ltac:(lia) ltac:(lia))
    as (c & k & E & H1 & H2 & _).
  exists c, k. auto.
Defined.

End CineFacts.


(** ** The frame plan and the frame loop of the v2 generator *)

Section V2RunFacts.
Import Np Lib LibExt V2Run.
Local Open Scope R_scope.

(** [frame_rate * 60 // 72] is zero exactly for the frame rates 0 and 1. *)
Lemma cycle_length_zero (frame_rate : Z) :
  (frame_rate * 60 / 72 = 0 <-> frame_rate = 0 \/ frame_rate = 1)%Z.
Proof.
  split.
  - intros H.
    pose proof (Z.div_mod (frame_rate * 60) 72 ltac:(lia)) as Hdm.
    pose proof (Z.mod_pos_bound (frame_rate * 60) 72 ltac:(lia)) as Hmod.
    lia.
  - intros [->| ->]; reflexivity.
Qed.

(** The plan succeeds for a non-empty frame and a frame rate of at least 2. *)
Lemma plan_returns (target_size_mb : R) (width height frame_rate : Z) :
  (0 < width * height)%Z -> (2 <= frame_rate)%Z ->
  exists n c,
    plan target_size_mb width height frame_rate = Ok (n, c)
    /\ (frame_rate <= n)%Z
    /\ n = Z.max (Py.int (target_size_mb * 1024 * 1024 / IZR (width * height)))
                 frame_rate.
Proof.
  intros Hwh Hf.
  unfold plan, rbind, truediv_float, floordiv, Py.max.
  destruct (Z.eqb_spec (width * height) 0) as [E|_]; [lia|].
  destruct (Z.eqb_spec (frame_rate * 60 / 72) 0) as [E|_];
    [apply cycle_length_zero in E; lia|].
  eexists; eexists. split; [reflexivity|]. split; [lia | reflexivity].
Qed.

(** The plan fails for an empty frame and for the frame rates 0 and 1. *)
Lemma plan_fails (target_size_mb : R) (width height frame_rate : Z) :
  ((width * height = 0)%Z \/ frame_rate = 0%Z \/ frame_rate = 1%Z) ->
  plan target_size_mb width height frame_rate = Raise ZeroDivisionError.
Proof.
  intros H. unfold plan, rbind, truediv_float, floordiv.
  destruct (Z.eqb_spec (width * height) 0) as [Hwh|Hwh]; [reflexivity|].
  destruct (Z.eqb_spec (frame_rate * 60 / 72) 0) as [Hc|Hc]; [reflexivity|].
  exfalso. destruct H as [H|H]; [contradiction|].
  apply Hc. now apply cycle_length_zero.
Qed.

(** X13: the frame plan of [generate_echo_dicom_v2] fails with
    [ZeroDivisionError] exactly when [width * height = 0] or the frame rate is
    0 or 1; otherwise the number of frames is the larger of the frame rate and
    [int(target_bytes / (width * height))], and the cycle count is the larger
    of 1 and the quotient of that integer by [frame_rate * 60 // 72]. *)
Theorem plan_frames (target_size_mb : R) (width height frame_rate : Z) :
  (plan target_size_mb width height frame_rate = Raise ZeroDivisionError
   <-> ((width * height = 0)%Z \/ frame_rate = 0%Z \/ frame_rate = 1%Z))
  /\ ((width * height)%Z <> 0%Z -> frame_rate <> 0%Z -> frame_rate <> 1%Z ->
      plan target_size_mb width height frame_rate
      = Ok (Z.max (Py.int (target_size_mb * 1024 * 1024 / IZR (width * height)))
                  frame_rate,
            Z.max 1 (Py.int (target_size_mb * 1024 * 1024 / IZR (width * height))
                     / (frame_rate * 60 / 72)))%Z).
Proof.
  unfold plan, rbind, truediv_float, floordiv, Py.max.
  destruct (Z.eqb_spec (width * height) 0) as [Hwh|Hwh].
  { split; [split; [intros _; now left | reflexivity]|]. contradiction. }
  destruct (Z.eqb_spec (frame_rate * 60 / 72) 0) as [Hc|Hc].
  { split.
    - split; [|reflexivity]. intros _. right. now apply cycle_length_zero.
    - intros _ H0 H1. apply cycle_length_zero in Hc. lia. }
  split.
  - split; [discriminate|].
    intros [H|H]; [contradiction|]. exfalso. apply Hc. now apply cycle_length_zero.
  - reflexivity.
Qed.

Lemma plan_frames_witness :
  plan 20 640 480 30
  = Ok (Z.max (Py.int (20 * 1024 * 1024 / IZR (640 * 480))) 30,
        Z.max 1 (Py.int (20 * 1024 * 1024 / IZR (640 * 480)) / (30 * 60 / 72)))%Z.
Proof.
  apply (proj2 (plan_frames 20 640 480 30)); discriminate.
Defined.

(** X14: with a non-empty frame, a frame rate of at least 2 and a target size
    that is not negative, [generate_echo_dicom_v2] plans at least one second of
    frames, and the pixel payload [num_frames * width * height] stays within
    the target size unless that one-second minimum applies. *)
Theorem plan_within_target (target_size_mb : R) (width height frame_rate : Z) :
  (0 < width * height)%Z -> (2 <= frame_rate)%Z -> 0 <= target_size_mb ->
  exists n c,
    plan target_size_mb width height frame_rate = Ok (n, c)
    /\ (frame_rate <= n)%Z
    /\ ((frame_rate < n)%Z ->
        IZR (n * (width * height)) <= target_size_mb * 1024 * 1024).
Proof.
  intros Hwh Hf Ht.
  destruct (plan_returns target_size_mb width height frame_rate Hwh Hf)
    as (n & c & E & Hn & Hmax).
  exists n, c. split; [exact E|]. split; [exact Hn|].
  intros Hlt. subst n.
  set (q := target_size_mb * 1024 * 1024 / IZR (width * height)) in *.
  assert (HB : 0 < IZR (width * height)) by now apply IZR_lt.
  assert (Hq : 0 <= q).
  { unfold q. apply Rmult_le_pos; [lra | left; now apply Rinv_0_lt_compat]. }
  assert (Hmax' : Z.max (Py.int q) frame_rate = Py.int q) by lia.
  rewrite Hmax'.
  assert (Hfl : IZR (Py.int q) <= q).
  { unfold Py.int. destruct (Rle_dec 0 q); [|lra]. apply Zfloor_bound. }
  rewrite mult_IZR.
  replace (target_size_mb * 1024 * 1024) with (q * IZR (width * height))
    by (unfold q; field; lra).
  apply Rmult_le_compat_r; lra.
Qed.

Lemma plan_within_target_witness :
  exists n c, plan 20 640 480 30 = Ok (n, c) /\ (30 <= n)%Z.
Proof.
  destruct (plan_within_target 20 640 480 30 ltac:(lia) ltac:(lia) ltac:(lra))
    as (n & c & E & Hn & _).
  exists n, c. auto.
Defined.

End V2RunFacts.


(** ** Frame loops *)

Section LoopFacts.
Import Np Shape Lib LibExt.
Context {L : NumLib}.
Local Open Scope R_scope.

(** For sizes that are positive multiples of 8 and a frame count other than
    0, the v2 compositor returns a frame of quantised values. *)
Lemma v2_frame_returns width height frame total_frames (g : rng) :
  rayleigh_shaped ->
  (0 < width)%Z -> (width mod 8 = 0)%Z -> (0 < height)%Z -> (height mod 8 = 0)%Z ->
  total_frames <> 0%Z ->
  exists img g',
    V2.generate_echo_frame_v2 width height frame total_frames g = (Ok img, g')
    /\ Forall (Forall quantized) img.
Proof.
  intros Hlib Hw Hw8 Hh Hh8 Ht.
  destruct (v2_frame_outcome width height frame total_frames g Hlib Hw Hw8 Hh Hh8)
    as (r & g' & E & H).
  destruct (Z.eqb_spec total_frames 0); [contradiction|].
  destruct H as (img & ->). exists img, g'. split; [exact E|].
  now apply v2_frame_quantized in E.
Qed.


(** When the plan fails, no frame is generated and no random sample drawn. *)
Lemma v2_frame_loop_plan_fails (target_size_mb : R) (width height frame_rate : Z)
  (g : rng) :
  ((width * height = 0)%Z \/ frame_rate = 0%Z \/ frame_rate = 1%Z) ->
  V2Run.generate_frames target_size_mb width height frame_rate g
  = (Raise ZeroDivisionError, g).
Proof.
  intros H. unfold V2Run.generate_frames. rewrite bind_lift.
  now rewrite (plan_fails target_size_mb width height frame_rate H).
Qed.

End LoopFacts.


Section LoopExamples.
Import Np Lib LibExt.
Local Open Scope R_scope.


End LoopExamples.


(* --------------------------------------------------------------------- *)
(** *** The sector border and the overlay *)
(* --------------------------------------------------------------------- *)

Section OverlayFacts.
Import Np Lib LibExt Overlay.
Local Open Scope R_scope.

(** Truncation toward zero is odd. *)
Lemma py_int_opp (x : R) : Py.int (- x) = (- Py.int x)%Z.
Proof.
  unfold Py.int.
  destruct (Rle_dec 0 (- x)) as [Hn|Hn], (Rle_dec 0 x) as [Hp|Hp].
  - replace x with 0 by lra. rewrite Ropp_0.
    change 0 with (IZR 0). rewrite ZfloorZ. reflexivity.
  - lia.
  - rewrite Ropp_involutive. reflexivity.
  - lra.
Qed.

Lemma py_int_below (x : R) : 0 <= x -> IZR (Py.int x) <= x.
Proof.
  intros Hx. unfold Py.int. destruct (Rle_dec 0 x); [|lra].
  apply Zfloor_bound.
Qed.

(** X16: for an image of positive height and a sector angle between 0 and
    180 degrees, the two border lines of [add_sector_frame] start at the same
    point and end at points that mirror each other about the centre column;
    both end points lie in the lower half of the arc's bounding box and
    above the bottom edge of the image. *)
Theorem sector_border_mirrored (width height : Z) (angle_deg : R) :
  (0 < height)%Z -> 0 <= angle_deg <= 180 ->
  exists dx dy radius : Z,
    let cx := (width / 2)%Z in
    let cy := Py.int (IZR height * 0.02) in
    sector_frame_cmds width height angle_deg
    = [Line [(cx, cy + 5)%Z; (cx - dx, cy + dy)%Z] white 2;
       Line [(cx, cy + 5)%Z; (cx + dx, cy + dy)%Z] white 2;
       Arc (cx - radius, cy - radius, cx + radius, cy + radius)%Z
           (90 - angle_deg / 2) (90 + angle_deg / 2) white 2]
    /\ (0 <= dx <= radius)%Z /\ (0 <= dy <= radius)%Z
    /\ (0 <= cy)%Z /\ (cy + dy < height)%Z.
Proof.
  intros Hh Ha.
  set (radius := Py.int (IZR height * 0.92)).
  set (a := deg2rad (angle_deg / 2)).
  exists (Py.int (IZR radius * sin a)), (Py.int (IZR radius * cos a)), radius.
  assert (Hh' : 0 < IZR height) by now apply (IZR_lt 0).
  assert (Hr : (0 <= radius)%Z) by (apply py_int_nonneg; lra).
  assert (Hr' : 0 <= IZR radius) by now apply (IZR_le 0).
  assert (Hcy : (0 <= Py.int (IZR height * 0.02))%Z) by (apply py_int_nonneg; lra).
  assert (Hrange : 0 <= a <= PI / 2).
  { unfold a, deg2rad. pose proof PI_RGT_0. split; [nra|].
    replace (PI / 2) with (180 / 2 * (PI / 180)) by field. nra. }
  assert (Hsin : 0 <= sin a <= 1).
  { split; [apply sin_ge_0; pose proof PI_RGT_0; lra | apply SIN_bound]. }
  assert (Hcos : 0 <= cos a <= 1).
  { split; [apply cos_ge_0; pose proof PI_RGT_0; lra | apply COS_bound]. }
  assert (Hdx : (0 <= Py.int (IZR radius * sin a) <= radius)%Z)
    by (apply py_int_bounds; nra).
  assert (Hdy : (0 <= Py.int (IZR radius * cos a) <= radius)%Z)
    by (apply py_int_bounds; nra).
  cbv zeta. split; [|split; [exact Hdx|split; [exact Hdy|split; [exact Hcy|]]]].
  - unfold sector_frame_cmds, border_end. fold radius. fold a.
    rewrite sin_neg, cos_neg.
    replace (IZR radius * - sin a) with (- (IZR radius * sin a)) by ring.
    rewrite py_int_opp. reflexivity.
  - assert (H1 : IZR (Py.int (IZR height * 0.02)) <= IZR height * 0.02)
      by (apply py_int_below; lra).
    assert (H2 : IZR radius <= IZR height * 0.92)
      by (apply py_int_below; lra).
    assert (H3 : IZR (Py.int (IZR height * 0.02) + radius) < IZR height)
      by (rewrite plus_IZR; lra).
    apply lt_IZR in H3. lia.
Qed.

(** X17: the rows [i <= j] of the velocity bar of [add_ui_overlay] have no
    green; rows above the middle (60) are red only, with a red of at least
    4, the others blue only with a blue of at most 250; red does not grow
    and blue does not shrink down the bar. *)
Theorem velocity_bar_colors (i j : Z) :
  (0 <= i <= j)%Z -> (j < 120)%Z ->
  exists r b r' b' : Z,
    bar_color i = (r, 0%Z, b) /\ bar_color j = (r', 0%Z, b')
    /\ ((i < 60)%Z -> (4 <= r <= 255)%Z /\ b = 0%Z)
    /\ ((60 <= i)%Z -> r = 0%Z /\ (0 <= b <= 250)%Z)
    /\ (r' <= r)%Z /\ (b <= b')%Z /\ (0 <= r')%Z /\ (b' <= 250)%Z.
Proof.
  intros Hij Hj.
  assert (Hi' : 0 <= IZR i <= IZR j) by (split; apply IZR_le; lia).
  assert (Hj' : IZR j <= 119) by (apply IZR_le; lia).
  assert (Hbranch : forall k : Z,
            Rltb (IZR k / IZR 120) 0.5 = (k <? 60)%Z).
  { intros k. unfold Rltb. destruct (Rlt_dec (IZR k / 120) 0.5) as [H|H];
      destruct (Z.ltb_spec k 60) as [Hk|Hk]; try reflexivity.
    - apply (IZR_le 60 k) in Hk. lra.
    - apply (IZR_lt k 60) in Hk. lra. }
  unfold bar_color. rewrite !Hbranch.
  destruct (Z.ltb_spec i 60) as [Hi|Hi], (Z.ltb_spec j 60) as [Hj6|Hj6].
  - assert (IZR j <= 59) by (apply IZR_le; lia).
    assert (Hr : (4 <= Py.int (255 * (1 - IZR i / 120 * 2)) <= 255)%Z)
      by (apply py_int_bounds; lra).
    assert (Hr' : (4 <= Py.int (255 * (1 - IZR j / 120 * 2)) <= 255)%Z)
      by (apply py_int_bounds; lra).
    assert (Hm : (Py.int (255 * (1 - IZR j / 120 * 2))
                  <= Py.int (255 * (1 - IZR i / 120 * 2)))%Z)
      by (apply py_int_le; lra).
    do 4 eexists. split; [reflexivity|]. split; [reflexivity|].
    repeat split; lia.
  - assert (IZR i <= 59) by (apply IZR_le; lia).
    assert (60 <= IZR j) by (apply (IZR_le 60); lia).
    assert (Hr : (4 <= Py.int (255 * (1 - IZR i / 120 * 2)) <= 255)%Z)
      by (apply py_int_bounds; lra).
    assert (Hb : (0 <= Py.int (255 * (IZR j / 120 - 0.5) * 2) <= 250)%Z)
      by (apply py_int_range; [lia | lra | lra]).
    do 4 eexists. split; [reflexivity|]. split; [reflexivity|].
    repeat split; lia.
  - lia.
  - assert (60 <= IZR i) by (apply (IZR_le 60); lia).
    assert (Hb : (0 <= Py.int (255 * (IZR i / 120 - 0.5) * 2) <= 250)%Z)
      by (apply py_int_range; [lia | lra | lra]).
    assert (Hb' : (0 <= Py.int (255 * (IZR j / 120 - 0.5) * 2) <= 250)%Z)
      by (apply py_int_range; [lia | lra | lra]).
    assert (Hm : (Py.int (255 * (IZR i / 120 - 0.5) * 2)
                  <= Py.int (255 * (IZR j / 120 - 0.5) * 2))%Z)
      by (apply py_int_le; lra).
    do 4 eexists. split; [reflexivity|]. split; [reflexivity|].
    repeat split; lia.
Qed.

End OverlayFacts.


Section OverlayAnchors.
Import Np Lib LibExt Overlay.
Context {L : NumLib} {I : ImagingLib}.
Local Open Scope Z_scope.

Lemma inside_iff (width height x y : Z) :
  inside width height (x, y) <-> (0 <= x < width /\ 0 <= y < height).
Proof. reflexivity. Qed.

(** X18: every point at which [add_ui_overlay] anchors a text or a line lies
    inside the image exactly when the image is at least 101 pixels wide and
    235 pixels high. *)
Theorem ui_overlay_anchors_inside (width height : Z) (depth_cm : R) :
  Forall (fun c => Forall (inside width height) (anchors c))
         (ui_overlay_cmds width height depth_cm)
  <-> (101 <= width /\ 235 <= height).
Proof.
  unfold ui_overlay_cmds. rewrite !Forall_app. split.
  - intros (Hparams & _ & Hrest).
    assert (H14 : Forall (inside width height) [(10, 10 + 14 * 16)]).
    { cbv [arange Z.to_nat Pos.to_nat Pos.iter_op Init.Nat.add seq map zip_with]
        in Hparams.
      do 14 (apply Forall_inv_tail in Hparams).
      apply Forall_inv in Hparams. exact Hparams. }
    apply Forall_inv in H14. unfold inside in H14. cbn [fst snd] in H14.
    do 6 (apply Forall_inv_tail in Hrest).
    pose proof (Forall_inv Hrest) as Hscale. cbn [anchors] in Hscale.
    pose proof (Forall_inv Hscale) as Hs1.
    pose proof (Forall_inv (Forall_inv_tail Hscale)) as Hs2.
    unfold inside in Hs1, Hs2. cbn [fst snd] in Hs1, Hs2.
    split; [|lia].
    destruct (Z_le_gt_dec 101 width) as [Hw|Hw]; [exact Hw|exfalso].
    assert (width / 2 * 2 <= width) by (pose proof (Z.mul_div_le width 2); lia).
    lia.
  - intros (Hw & Hh).
    assert (Hhalf : 50 <= width / 2 /\ width / 2 + 50 < width).
    { pose proof (Z.mul_div_le width 2 ltac:(lia)).
      pose proof (Z.mul_succ_div_gt width 2 ltac:(lia)). lia. }
    split; [|split].
    + cbv [arange Z.to_nat Pos.to_nat Pos.iter_op Init.Nat.add seq map zip_with].
      repeat (apply Forall_cons; [apply Forall_cons;
                                  [apply inside_iff; cbn; lia | apply Forall_nil]|]).
      apply Forall_nil.
    + apply Forall_map. apply Forall_forall. intros i Hi.
      unfold arange in Hi. apply in_map_iff in Hi as (k & <- & Hk).
      apply in_seq in Hk. cbn [anchors].
      repeat (apply Forall_cons; [apply inside_iff; lia|]). apply Forall_nil.
    + repeat (apply Forall_cons;
              [cbn [anchors];
               repeat (apply Forall_cons; [apply inside_iff; cbn; lia|]);
               apply Forall_nil|]).
      apply Forall_nil.
Qed.

End OverlayAnchors.


Section OverlayExamples.
Import Np Lib LibExt Overlay.
Local Open Scope R_scope.

Lemma sector_border_mirrored_witness :
  exists dx dy radius : Z,
    sector_frame_cmds 640 480 72
    = [Line [(320, Py.int (480 * 0.02) + 5)%Z;
             (320 - dx, Py.int (480 * 0.02) + dy)%Z] white 2;
       Line [(320, Py.int (480 * 0.02) + 5)%Z;
             (320 + dx, Py.int (480 * 0.02) + dy)%Z] white 2;
       Arc (320 - radius, Py.int (480 * 0.02) - radius,
            320 + radius, Py.int (480 * 0.02) + radius)%Z
           (90 - 72 / 2) (90 + 72 / 2) white 2]
    /\ (0 <= dx <= radius)%Z /\ (Py.int (480 * 0.02) + dy < 480)%Z.
Proof.
  destruct (sector_border_mirrored 640 480 72 ltac:(lia) ltac:(lra))
    as (dx & dy & radius & E & Hdx & _ & _ & Hy).
  exists dx, dy, radius. split; [exact E|]. split; assumption.
Defined.

Lemma velocity_bar_colors_witness :
  exists b' : Z, bar_color 0 = (255, 0, 0)%Z /\ bar_color 119 = (0, 0, b')%Z
                 /\ (0 <= b' <= 250)%Z.
Proof.
  destruct (velocity_bar_colors 0 119 ltac:(lia) ltac:(lia))
    as (r & b & r' & b' & E0 & E1 & H0 & _ & Hr & Hb & Hr' & Hb').
  destruct (H0 ltac:(lia)) as [H0r H0b].
  exists b'.
  assert (Er : r = 255%Z).
  { assert (E : bar_color 0 = (255, 0, 0)%Z).
    { unfold bar_color, Rltb. destruct (Rlt_dec (0 / 120) 0.5) as [_|H]; [|lra].
      f_equal. f_equal. apply py_int_eq; [lia|lra]. }
    rewrite E in E0. congruence. }
  assert (Er' : r' = 0%Z).
  { assert (E : fst (fst (bar_color 119)) = 0%Z).
    { unfold bar_color, Rltb. destruct (Rlt_dec (119 / 120) 0.5) as [H|_]; [lra|].
      reflexivity. }
    rewrite E1 in E. exact E. }
  subst. split; [exact E0|]. split; [exact E1|]. lia.
Defined.

End OverlayExamples.


(* --------------------------------------------------------------------- *)
(** *** The runs of the JPEG and of the realistic generator *)
(* --------------------------------------------------------------------- *)

Section RunFacts.
Import Np Shape Lib LibExt JpegRun.
Context {L : NumLib} {I : ImagingLib}.
Local Open Scope R_scope.

Lemma arange_nonpos (n : Z) : (n <= 0)%Z -> arange n = [].
Proof.
  intros Hn. unfold arange. replace (Z.to_nat n) with 0%nat by lia. reflexivity.
Qed.

Lemma fold_size_ge (frames : list (list byte)) (acc : Z) :
  (acc <= fold_left (fun total jpeg_data => (total + Z.of_nat (length jpeg_data))%Z)
                    frames acc)%Z.
Proof.
  revert acc. induction frames as [|f rest IH]; intros acc; cbn [fold_left]; [lia|].
  specialize (IH (acc + Z.of_nat (length f))%Z). lia.
Qed.

(** The payloads of at least one frame, none of them empty, have a positive
    total size. *)
Lemma total_size_pos (frames : list (list byte)) :
  frames <> [] -> Forall (fun f => f <> []) frames -> (0 < total_size frames)%Z.
Proof.
  intros Hne Hall. destruct frames as [|f rest]; [contradiction|].
  unfold total_size. cbn [fold_left].
  pose proof (fold_size_ge rest (0 + Z.of_nat (length f))%Z) as Hge.
  apply Forall_inv in Hall. destruct f as [|b f]; [contradiction|].
  cbn [length] in Hge |- *. lia.
Qed.

Lemma truediv_float_nonzero (a : R) (b : Z) :
  b <> 0%Z -> truediv_float a b = Ok (a / IZR b).
Proof.
  intros Hb. unfold truediv_float. destruct (Z.eqb_spec b 0); [contradiction|reflexivity].
Qed.

(** The loop of the JPEG generator returns one payload per frame when at
    least one frame is asked for and the sizes are positive multiples of 8. *)
Lemma encode_frames_returns (num_frames quality width height : Z) (g : rng) :
  rayleigh_shaped ->
  (0 < width)%Z -> (width mod 8 = 0)%Z -> (0 < height)%Z -> (height mod 8 = 0)%Z ->
  (0 < num_frames)%Z ->
  exists jpeg_frames g',
    encode_frames num_frames quality width height g = (Ok jpeg_frames, g')
    /\ length jpeg_frames = Z.to_nat num_frames
    /\ Forall (fun f => exists frame, f = jpeg_encode_grey frame quality) jpeg_frames.
Proof.
  intros Hlib Hw Hw8 Hh Hh8 Hn. unfold encode_frames.
  destruct (for_each_returns
              (fun i => bind (V2.generate_echo_frame_v2 width height i num_frames)
                             (fun frame => ret (jpeg_encode_grey frame quality)))
              (fun f => exists frame, f = jpeg_encode_grey frame quality)
              (arange num_frames)) with (g := g)
    as (frames & g' & El & Hlen & HP).
  { intros i _ g0.
    destruct (v2_frame_returns width height i num_frames g0 Hlib Hw Hw8 Hh Hh8
                ltac:(lia)) as (img & g1 & E & _).
    exists (jpeg_encode_grey img quality), g1. unfold bind. rewrite E.
    split; [reflexivity|]. now exists img. }
  exists frames, g'. split; [exact El|]. split; [|exact HP].
  now rewrite Hlen, length_arange.
Qed.

(** When no frame is asked for, the compression ratio divides by the total
    payload size 0, before any random sample is drawn. *)
Lemma jpeg_run_no_frames (num_frames quality width height frame_rate : Z) (g : rng) :
  (num_frames <= 0)%Z ->
  generate_jpeg_dicom num_frames quality width height frame_rate g
  = (Raise ZeroDivisionError, g).
Proof.
  intros Hn. unfold generate_jpeg_dicom, encode_frames.
  rewrite (arange_nonpos num_frames Hn). reflexivity.
Qed.

(** X19: [generate_jpeg_dicom] raises [ZeroDivisionError] when no frame is
    asked for ([num_frames <= 0], whatever the other arguments: the
    compression ratio divides by the total payload size 0, before any random
    sample is drawn), and, for a width and a height that are positive
    multiples of 8 up to 65500 and a quality in 1-100, when the frame rate
    is 0 (after the frames were generated). *)
Theorem jpeg_run_raises (num_frames quality width height frame_rate : Z) (g : rng) :
  ((num_frames <= 0)%Z ->
   generate_jpeg_dicom num_frames quality width height frame_rate g
   = (Raise ZeroDivisionError, g))
  /\
  (rayleigh_shaped ->
   (0 < width <= 65500)%Z -> (width mod 8 = 0)%Z ->
   (0 < height <= 65500)%Z -> (height mod 8 = 0)%Z ->
   (1 <= quality <= 100)%Z -> (0 < num_frames)%Z -> frame_rate = 0%Z ->
   exists g',
     generate_jpeg_dicom num_frames quality width height frame_rate g
     = (Raise ZeroDivisionError, g')).
Proof.
  split; [apply jpeg_run_no_frames|].
  intros Hlib Hw Hw8 Hh Hh8 _ Hn Hf. unfold generate_jpeg_dicom.
  destruct (encode_frames_returns num_frames quality width height g Hlib
              ltac:(lia) Hw8 ltac:(lia) Hh8 Hn) as (frames & g' & E & _).
  exists g'. unfold bind at 1. rewrite E. rewrite bind_lift.
  unfold Py.truediv. destruct (total_size frames =? 0)%Z; [reflexivity|].
  unfold lift, create_jpeg_dicom_dataset, truediv_float.
  rewrite Hf. reflexivity.
Qed.

(** The dataset of a run of the JPEG generator. *)
Lemma jpeg_run_dataset (num_frames quality width height frame_rate : Z) (g : rng) :
  rayleigh_shaped ->
  (forall frame q, jpeg_encode_grey frame q <> []) ->
  (0 < width <= 65500)%Z -> (width mod 8 = 0)%Z ->
  (0 < height <= 65500)%Z -> (height mod 8 = 0)%Z ->
  (1 <= quality <= 100)%Z ->
  (0 < num_frames < 2 ^ 31)%Z -> (0 < frame_rate < 2 ^ 31)%Z ->
  exists ds g',
    generate_jpeg_dicom num_frames quality width height frame_rate g = (Ok ds, g')
    /\ NumberOfFrames ds = num_frames
    /\ CardiacNumberOfImages ds = num_frames
    /\ Rows ds = height /\ Columns ds = width
    /\ FrameTime ds = 1000 / IZR frame_rate
    /\ FrameTimeVector ds = repeat (1000 / IZR frame_rate) (Z.to_nat num_frames)
    /\ RecommendedDisplayFrameRate ds = frame_rate
    /\ HeartRate ds = 72%Z.
Proof.
  intros Hlib Henc Hw Hw8 Hh Hh8 _ Hn Hf. unfold generate_jpeg_dicom.
  destruct (encode_frames_returns num_frames quality width height g Hlib
              ltac:(lia) Hw8 ltac:(lia) Hh8 ltac:(lia))
    as (frames & g' & E & Hlen & Hall).
  assert (Hsize : (0 < total_size frames)%Z).
  { apply total_size_pos.
    - intros ->. cbn in Hlen. lia.
    - eapply Forall_impl; [|exact Hall]. intros f (frame & ->). apply Henc. }
  unfold bind at 1. rewrite E. rewrite bind_lift.
  rewrite truediv_nonzero by lia.
  unfold lift, create_jpeg_dicom_dataset.
  rewrite (truediv_float_nonzero 1000 frame_rate ltac:(lia)). cbn [rbind].
  eexists _, g'. split; [reflexivity|]. cbn.
  rewrite Hlen, Nat2Z.id, Z2Nat.id by lia.
  repeat split; reflexivity.
Qed.

(** X20: when the Rayleigh draws have the shape asked for and the encoder
    never returns an empty payload, with a width and a height that are
    positive multiples of 8 up to 65500, a quality in 1-100, at least one
    frame and a positive frame rate, [generate_jpeg_dicom] builds a dataset
    with [num_frames] frames of [height] rows and [width] columns, a frame
    time of [1000 / frame_rate] repeated once per frame, and the heart
    rate 72. *)
Theorem jpeg_run_returns (num_frames quality width height frame_rate : Z) (g : rng) :
  rayleigh_shaped ->
  (forall frame q, jpeg_encode_grey frame q <> []) ->
  (0 < width <= 65500)%Z -> (width mod 8 = 0)%Z ->
  (0 < height <= 65500)%Z -> (height mod 8 = 0)%Z ->
  (1 <= quality <= 100)%Z ->
  (0 < num_frames < 2 ^ 31)%Z -> (0 < frame_rate < 2 ^ 31)%Z ->
  exists ds g',
    generate_jpeg_dicom num_frames quality width height frame_rate g = (Ok ds, g')
    /\ NumberOfFrames ds = num_frames
    /\ CardiacNumberOfImages ds = num_frames
    /\ Rows ds = height /\ Columns ds = width
    /\ FrameTime ds = 1000 / IZR frame_rate
    /\ FrameTimeVector ds = repeat (1000 / IZR frame_rate) (Z.to_nat num_frames)
    /\ RecommendedDisplayFrameRate ds = frame_rate
    /\ HeartRate ds = 72%Z.
Proof. apply jpeg_run_dataset. Qed.

(** A frame generated with a seed leaves the same random state behind
    whatever the state it is started in. *)
Lemma seeded_frame_forgets_state width height frame total_frames dop (s : Z)
  (g1 g2 : rng) :
  total_frames <> 0%Z -> (0 <= height)%Z -> (0 <= width)%Z ->
  Realistic.generate_realistic_frame width height frame total_frames dop (Some s) g1
  = Realistic.generate_realistic_frame width height frame total_frames dop (Some s) g2.
Proof.
  intros Ht Hh Hw. unfold Realistic.generate_realistic_frame.
  rewrite !bind_lift, truediv_nonzero by exact Ht.
  rewrite !bind_lift. unfold Shape.np_zeros.
  destruct (Z.ltb_spec height 0); [lia|]. destruct (Z.ltb_spec width 0); [lia|].
  cbn [orb]. apply bind_forgets. apply speckle_seeded.
Qed.

(** A frame of a negative size is refused before any sample is drawn. *)
Lemma realistic_frame_negative width height frame total_frames dop seed_ (g : rng) :
  total_frames <> 0%Z -> (height < 0)%Z \/ (width < 0)%Z ->
  Realistic.generate_realistic_frame width height frame total_frames dop seed_ g
  = (Raise ValueError, g).
Proof.
  intros Ht Hneg. unfold Realistic.generate_realistic_frame.
  rewrite !bind_lift, truediv_nonzero by exact Ht.
  rewrite !bind_lift. unfold Shape.np_zeros.
  destruct (Z.ltb_spec height 0); [reflexivity|].
  destruct (Z.ltb_spec width 0); [reflexivity|]. lia.
Qed.

Lemma realistic_loop_forgets (base_seed num_frames quality width height : Z)
  (dop ui : bool) (g1 g2 : rng) :
  fst (encode_realistic_frames base_seed num_frames quality width height dop ui g1)
  = fst (encode_realistic_frames base_seed num_frames quality width height dop ui g2).
Proof.
  unfold encode_realistic_frames.
  destruct (Z_le_gt_dec num_frames 0) as [Hn|Hn].
  { rewrite (arange_nonpos num_frames Hn). reflexivity. }
  destruct (arange num_frames) as [|i rest]; [reflexivity|].
  cbn [for_each].
  destruct (Z_lt_dec height 0) as [Hh|Hh]; [|destruct (Z_lt_dec width 0) as [Hw|Hw]].
  - unfold bind.
    rewrite !(realistic_frame_negative width height i num_frames dop
                (Some base_seed)) by (try lia; now left).
    reflexivity.
  - unfold bind.
    rewrite !(realistic_frame_negative width height i num_frames dop
                (Some base_seed)) by (try lia; now right).
    reflexivity.
  - apply (f_equal fst). apply bind_forgets. apply bind_forgets.
    apply seeded_frame_forgets_state; lia.
Qed.

(** The loop of the realistic generator returns one payload per frame. *)
Lemma realistic_loop_returns (base_seed num_frames quality width height : Z)
  (dop ui : bool) (g : rng) :
  rayleigh_shaped -> filter_shaped ->
  (0 < width)%Z -> (width mod 4 = 0)%Z -> (120 <= height)%Z -> (height mod 4 = 0)%Z ->
  exists jpeg_frames g',
    encode_realistic_frames base_seed num_frames quality width height dop ui g
    = (Ok jpeg_frames, g')
    /\ length jpeg_frames = Z.to_nat num_frames.
Proof.
  intros Hlib Hfil Hw Hw4 Hh Hh4. unfold encode_realistic_frames.
  destruct (for_each_returns
              (fun i => bind (Realistic.generate_realistic_frame width height i
                                num_frames dop (Some base_seed))
                             (fun frame => ret (finish_frame ui quality i num_frames frame)))
              (fun _ => True) (arange num_frames)) with (g := g)
    as (frames & g' & El & Hlen & _).
  { intros i Hi g0. apply in_arange in Hi.
    destruct (realistic_frame_returns width height i num_frames dop
                (Some base_seed) g0 Hlib Hfil Hw Hw4 Hh Hh4 ltac:(lia))
      as (img & g1 & E).
    eexists _, g1. unfold bind. rewrite E. split; [reflexivity|exact Logic.I]. }
  exists frames, g'. split; [exact El|]. now rewrite Hlen, length_arange.
Qed.

(** The dataset of a run of the realistic generator. *)
Lemma realistic_run_dataset (num_frames quality width height frame_rate : Z)
  (dop ui : bool) (g : rng) :
  rayleigh_shaped -> filter_shaped ->
  (forall g0, (0 <= fst (random_randint 0 10000 g0) < 10000)%Z) ->
  (0 < width <= 65500)%Z -> (width mod 4 = 0)%Z ->
  (120 <= height <= 65500)%Z -> (height mod 4 = 0)%Z ->
  (1 <= quality <= 100)%Z -> (num_frames < 2 ^ 31)%Z ->
  exists ds g',
    generate_realistic_dicom num_frames quality width height frame_rate dop ui g
    = (Ok ds, g')
    /\ NumberOfFrames ds = Z.max num_frames 0
    /\ Rows ds = height /\ Columns ds = width
    /\ SamplesPerPixel ds = (if dop then 3 else 1)%Z
    /\ RecommendedDisplayFrameRate ds = 30%Z
    /\ FrameTime ds = 1000 / 30
    /\ FrameTimeVector ds = repeat (1000 / 30) (Z.to_nat num_frames)
    /\ HeartRate ds = 72%Z.
Proof.
  intros Hlib Hfil _ Hw Hw4 Hh Hh4 _ _.
  unfold generate_realistic_dicom. unfold bind at 1.
  destruct (random_randint 0 10000 g) as [base_seed g0].
  destruct (realistic_loop_returns base_seed num_frames quality width height dop ui g0
              Hlib Hfil ltac:(lia) Hw4 ltac:(lia) Hh4)
    as (frames & g' & E & Hlen).
  unfold bind at 1. rewrite E.
  unfold lift, create_realistic_dicom_dataset, truediv_float. cbn [Z.eqb rbind].
  eexists _, g'. split; [reflexivity|]. cbn.
  rewrite Hlen, Nat2Z.id.
  repeat split; try reflexivity. lia.
Qed.

(** X21: when the library draws and filters keep the shapes and the base
    seed drawn lies in [[0, 10000)], with a width that is a positive multiple
    of 4 and a height of at least 120 that is a multiple of 4 (both up to
    65500), a quality in 1-100 and fewer than [2 ** 31] frames,
    [generate_realistic_dicom] raises no [ZeroDivisionError]: it builds a
    dataset with [max(num_frames, 0)] frames whose frame rate is 30 and whose
    frame time is [1000 / 30] whatever the [frame_rate] argument, which never
    reaches the dataset. *)
Theorem realistic_run_returns (num_frames quality width height frame_rate : Z)
  (dop ui : bool) (g : rng) :
  rayleigh_shaped -> filter_shaped ->
  (forall g0, (0 <= fst (random_randint 0 10000 g0) < 10000)%Z) ->
  (0 < width <= 65500)%Z -> (width mod 4 = 0)%Z ->
  (120 <= height <= 65500)%Z -> (height mod 4 = 0)%Z ->
  (1 <= quality <= 100)%Z -> (num_frames < 2 ^ 31)%Z ->
  exists ds g',
    generate_realistic_dicom num_frames quality width height frame_rate dop ui g
    = (Ok ds, g')
    /\ NumberOfFrames ds = Z.max num_frames 0
    /\ Rows ds = height /\ Columns ds = width
    /\ SamplesPerPixel ds = (if dop then 3 else 1)%Z
    /\ RecommendedDisplayFrameRate ds = 30%Z
    /\ FrameTime ds = 1000 / 30
    /\ FrameTimeVector ds = repeat (1000 / 30) (Z.to_nat num_frames)
    /\ HeartRate ds = 72%Z.
Proof. apply realistic_run_dataset. Qed.

(** X22: the payloads that the loop of [generate_realistic_dicom] returns, or
    the exception it raises, depend on the base seed only, not on the random
    state the loop is entered in. *)
Theorem realistic_run_reproducible (base_seed num_frames quality width height : Z)
  (dop ui : bool) (g1 g2 : rng) :
  fst (encode_realistic_frames base_seed num_frames quality width height dop ui g1)
  = fst (encode_realistic_frames base_seed num_frames quality width height dop ui g2).
Proof. apply realistic_loop_forgets. Qed.

End RunFacts.

Section RunExamples.
Import Np Shape Lib LibExt JpegRun.
Local Open Scope R_scope.

Lemma jpeg_run_raises_witness :
  generate_jpeg_dicom (L := Example.lib) (I := ExampleExt.imaging) 0 85 640 480 30 0%Z
  = (Raise ZeroDivisionError, 0%Z)
  /\ exists g',
       generate_jpeg_dicom (L := Example.lib) (I := ExampleExt.imaging)
         2 85 640 480 0 0%Z
       = (Raise ZeroDivisionError, g').
Proof.
  split.
  - apply (proj1 (jpeg_run_raises (L := Example.lib) (I := ExampleExt.imaging)
                    0 85 640 480 30 0%Z)).
    lia.
  - apply (proj2 (jpeg_run_raises (L := Example.lib) (I := ExampleExt.imaging)
                    2 85 640 480 0 0%Z)).
    + exact example_rayleigh_shaped.
    + lia.
    + reflexivity.
    + lia.
    + reflexivity.
    + lia.
    + lia.
    + reflexivity.
Defined.

Lemma jpeg_run_returns_witness :
  exists ds g',
    generate_jpeg_dicom (L := Example.lib) (I := ExampleExt.imaging) 2 85 640 480 30 0%Z
    = (Ok ds, g')
    /\ NumberOfFrames ds = 2%Z /\ FrameTime ds = 1000 / 30.
Proof.
  destruct (jpeg_run_returns (L := Example.lib) (I := ExampleExt.imaging)
              2 85 640 480 30 0%Z example_rayleigh_shaped
              ltac:(intros frame q; discriminate)
              ltac:(lia) ltac:(reflexivity) ltac:(lia) ltac:(reflexivity)
              ltac:(lia) ltac:(lia) ltac:(lia))
    as (ds & g' & E & Hn & _ & _ & _ & Ht & _).
  exists ds, g'. split; [exact E|]. split; assumption.
Defined.

Lemma realistic_run_returns_witness :
  exists ds g',
    generate_realistic_dicom (L := Example.lib) (I := ExampleExt.imaging)
      3 90 640 480 30 true true 0%Z
    = (Ok ds, g')
    /\ NumberOfFrames ds = 3%Z /\ RecommendedDisplayFrameRate ds = 30%Z.
Proof.
  destruct (realistic_run_returns (L := Example.lib) (I := ExampleExt.imaging)
              3 90 640 480 30 true true 0%Z
              example_rayleigh_shaped example_filter_shaped
              ltac:(intros g0; cbn; lia)
              ltac:(lia) ltac:(reflexivity) ltac:(lia) ltac:(reflexivity)
              ltac:(lia) ltac:(lia))
    as (ds & g' & E & Hn & _ & _ & _ & Hr & _).
  exists ds, g'. split; [exact E|]. split; assumption.
Defined.

End RunExamples.

(** ** Parameter handling of the entry points *)

Section CliFacts.
Import Np Shape Lib LibExt JpegRun Cli.
Import String.StringSyntax.
Context {L : NumLib} {I : ImagingLib}.
Local Open Scope Z_scope.
Local Open Scope string_scope.

Lemma clamp_quality_range (q : Z) : 1 <= Py.max 1 (Py.min 100 q) <= 100.
Proof. unfold Py.max, Py.min. lia. Qed.

Lemma clamp_quality_valid (q : Z) : 1 <= q <= 100 -> Py.max 1 (Py.min 100 q) = q.
Proof. unfold Py.max, Py.min. lia. Qed.

(** [main] calls the generator with the frame count and the clamped quality
    when both arguments are integers (or absent). *)
Lemma main_jpeg_parsed (argv : list String.string) (n q : Z) (g : rng) :
  int_arg argv 2 60 = Ok n -> int_arg argv 3 85 = Ok q ->
  main_jpeg argv g
  = generate_jpeg_dicom n (Py.max 1 (Py.min 100 q)) 640 480 30 g.
Proof. intros En Eq. unfold main_jpeg. now rewrite bind_lift, En, bind_lift, Eq. Qed.

Lemma main_realistic_parsed (argv : list String.string) (n q : Z) (g : rng) :
  int_arg argv 2 90 = Ok n -> int_arg argv 3 90 = Ok q ->
  main_realistic argv g
  = generate_realistic_dicom n (Py.max 1 (Py.min 100 q)) 640 480 30 true true g.
Proof.
  intros En Eq. unfold main_realistic. now rewrite bind_lift, En, bind_lift, Eq.
Qed.

(** An argument that is present either is an integer or raises
    [ValueError], whatever the default. *)
Lemma int_arg_raises (argv : list String.string) (k : nat) (d : Z) (e : exn) :
  int_arg argv k d = Raise e ->
  e = ValueError /\ forall d', int_arg argv k d' = Raise e.
Proof.
  unfold int_arg. destruct (nth_error argv k) as [s|]; [|discriminate].
  intros E. split; [|intros _; exact E].
  unfold int_of_str in E.
  destruct (match strip (String.list_ascii_of_string s) with
            | [] => (false, strip (String.list_ascii_of_string s))
            | c :: rest =>
                if code c =? 45 then (true, rest)
                else if code c =? 43 then (false, rest)
                else (false, strip (String.list_ascii_of_string s))
            end) as [negative body].
  destruct (digits 0 0 false body) as [[n count]|]; [|now injection E].
  destruct (count <=? max_str_digits); [discriminate|now injection E].
Qed.

Lemma int_arg_returns (argv : list String.string) (k : nat) (d d' n : Z) :
  int_arg argv k d = Ok n -> exists n', int_arg argv k d' = Ok n'.
Proof.
  unfold int_arg. destruct (nth_error argv k) as [s|]; intros E; eauto.
Qed.

(** C4, amended: of the parameters named, only the compression quality
    reaches the program, as the third command-line argument.  A quality
    outside 1-100 is not rejected: [main] clamps it into 1-100
    ([max(1, min(100, quality))], a value already in range is kept) and calls
    the generator with the clamped value, with the frame count given and with
    width 640 and height 480, so generation never starts with a quality
    outside 1-100 or a width or height that is not positive.  The program
    stops before any frame generation, with [ValueError], exactly when the
    frame count or the quality given is not an integer for [int]. *)
Theorem parameters_clamped_not_rejected (argv : list String.string) (g : rng) :
  Forall is_ascii argv ->
  (forall n q,
     int_arg argv 2 60 = Ok n -> int_arg argv 3 85 = Ok q ->
     main_jpeg argv g
     = generate_jpeg_dicom n (Py.max 1 (Py.min 100 q)) 640 480 30 g)
  /\
  (forall n q,
     int_arg argv 2 90 = Ok n -> int_arg argv 3 90 = Ok q ->
     main_realistic argv g
     = generate_realistic_dicom n (Py.max 1 (Py.min 100 q)) 640 480 30 true true g)
  /\
  (forall q,
     1 <= Py.max 1 (Py.min 100 q) <= 100
     /\ (1 <= q <= 100 -> Py.max 1 (Py.min 100 q) = q))
  /\
  (forall e,
     int_arg argv 2 60 = Raise e
     \/ (exists n, int_arg argv 2 60 = Ok n) /\ int_arg argv 3 85 = Raise e ->
     e = ValueError
     /\ main_jpeg argv g = (Raise ValueError, g)
     /\ main_realistic argv g = (Raise ValueError, g)).
Proof.
  intros _. split; [|split; [|split]].
  - intros n q. apply main_jpeg_parsed.
  - intros n q. apply main_realistic_parsed.
  - intros q. split; [apply clamp_quality_range|apply clamp_quality_valid].
  - intros e [E|[[n En] Eq]].
    + apply int_arg_raises in E as [-> E]. split; [reflexivity|].
      unfold main_jpeg, main_realistic. rewrite !bind_lift, !E. now split.
    + apply int_arg_raises in Eq as [-> Eq]. split; [reflexivity|].
      destruct (int_arg_returns argv 2 60 90 n En) as [n' En'].
      unfold main_jpeg, main_realistic.
      rewrite !bind_lift, En, En', !bind_lift, !Eq. now split.
Qed.

End CliFacts.

Section CliExamples.
Import Np Shape Lib LibExt JpegRun Cli.
Import String.StringSyntax.
Local Open Scope Z_scope.
Local Open Scope string_scope.

(** C4, as stated, fails: the quality 150 is outside 1-100, and both entry
    points go on to generation (with quality 100) and build the dataset
    instead of stopping with an error. *)
Lemma invalid_quality_not_rejected :
  invalid_quality 150
  /\ int_of_str "150" = Ok 150
  /\ main_jpeg (L := Example.lib) (I := ExampleExt.imaging)
       ["generate_echo_dicom_jpeg.py"; "./output"; "60"; "150"] 0
     = generate_jpeg_dicom (L := Example.lib) (I := ExampleExt.imaging)
         60 100 640 480 30 0
  /\ (exists ds g',
        main_jpeg (L := Example.lib) (I := ExampleExt.imaging)
          ["generate_echo_dicom_jpeg.py"; "./output"; "60"; "150"] 0
        = (Ok ds, g')
        /\ NumberOfFrames ds = 60)
  /\ (exists ds g',
        main_realistic (L := Example.lib) (I := ExampleExt.imaging)
          ["generate_echo_dicom_realistic.py"; "./output"; "90"; "150"] 0
        = (Ok ds, g')
        /\ NumberOfFrames ds = 90).
Proof.
  split; [right; lia|]. split; [reflexivity|].
  split.
  { exact (main_jpeg_parsed (L := Example.lib) (I := ExampleExt.imaging)
             ["generate_echo_dicom_jpeg.py"; "./output"; "60"; "150"]
             60 150 0 eq_refl eq_refl). }
  split.
  - rewrite (main_jpeg_parsed (L := Example.lib) (I := ExampleExt.imaging)
               ["generate_echo_dicom_jpeg.py"; "./output"; "60"; "150"]
               60 150 0 eq_refl eq_refl).
    destruct (jpeg_run_dataset (L := Example.lib) (I := ExampleExt.imaging)
                60 (Py.max 1 (Py.min 100 150)) 640 480 30 0
                example_rayleigh_shaped ltac:(intros frame q; discriminate)
                ltac:(lia) ltac:(reflexivity) ltac:(lia) ltac:(reflexivity)
                ltac:(unfold Py.max, Py.min; lia) ltac:(lia) ltac:(lia))
      as (ds & g' & E & Hn & _).
    exists ds, g'. split; assumption.
  - rewrite (main_realistic_parsed (L := Example.lib) (I := ExampleExt.imaging)
               ["generate_echo_dicom_realistic.py"; "./output"; "90"; "150"]
               90 150 0 eq_refl eq_refl).
    destruct (realistic_run_dataset (L := Example.lib) (I := ExampleExt.imaging)
                90 (Py.max 1 (Py.min 100 150)) 640 480 30 true true 0
                example_rayleigh_shaped example_filter_shaped
                ltac:(intros g0; cbn; lia)
                ltac:(lia) ltac:(reflexivity) ltac:(lia) ltac:(reflexivity)
                ltac:(unfold Py.max, Py.min; lia) ltac:(lia))
      as (ds & g' & E & Hn & _).
    exists ds, g'. split; [exact E|]. rewrite Hn. reflexivity.
Qed.

Lemma ascii_arguments :
  Forall is_ascii ["generate_echo_dicom_jpeg.py"; "./output"; "60"; "85"].
Proof.
  repeat constructor; unfold is_ascii; cbn [String.list_ascii_of_string];
    repeat constructor.
Qed.

Lemma parameters_clamped_not_rejected_witness :
  main_jpeg (L := Example.lib) (I := ExampleExt.imaging)
    ["generate_echo_dicom_jpeg.py"; "./output"; "60"; "85"] 0
  = generate_jpeg_dicom (L := Example.lib) (I := ExampleExt.imaging)
      60 (Py.max 1 (Py.min 100 85)) 640 480 30 0
  /\ Py.max 1 (Py.min 100 85) = 85.
Proof.
  destruct (parameters_clamped_not_rejected (L := Example.lib)
              (I := ExampleExt.imaging)
              ["generate_echo_dicom_jpeg.py"; "./output"; "60"; "85"] 0
              ascii_arguments) as (Hj & _ & Hq & _).
  split.
  - exact (Hj 60 85 eq_refl eq_refl).
  - apply (proj2 (Hq 85)). lia.
Defined.

End CliExamples.


(* --------------------------------------------------------------------- *)
(** *** Tissue textures *)
(* --------------------------------------------------------------------- *)

Section TextureFacts.
Import Np Lib LibExt Texture.
Import String.StringSyntax.
Context {L : NumLib} {I : ImagingLib}.
Local Open Scope R_scope.
Local Open Scope string_scope.

Lemma clip_scaled_range (v k : R) : 0 <= k -> 0 <= clip v 0 1 * k <= k.
Proof.
  intros Hk. destruct (clip_unit v) as [H0 H1]. split; nra.
Qed.

Lemma ew_full (f : R -> R) (height width : Z) (c : R) :
  ew f (full height width c) = full height width (f c).
Proof.
  unfold ew, full, ogrid. rewrite map_map. apply map_ext. intros y.
  now rewrite map_map.
Qed.

Lemma texture_of_returns (width height : Z) (texture_type : String.string) (g : rng) :
  exists texture intensity g',
    texture_of width height texture_type g = (Ok (texture, intensity), g')
    /\ 0 <= intensity <= 0.95
    /\ (texture_type = "blood" -> intensity = 0.08).
Proof.
  unfold texture_of.
  destruct (String.eqb_spec texture_type "myocardium") as [->|H1].
  { unfold bind, rayleigh, ret. destruct (random_rayleigh 0.5 height width g).
    do 3 eexists. split; [reflexivity|]. split; [lra|discriminate]. }
  destruct (String.eqb_spec texture_type "blood") as [->|H2].
  { unfold bind, exponential, ret. destruct (random_exponential 0.1 height width g).
    do 3 eexists. split; [reflexivity|]. split; [lra|reflexivity]. }
  destruct (String.eqb_spec texture_type "valve") as [->|H3].
  { unfold bind, normal2, ret. destruct (random_normal2 0.9 0.05 height width g).
    do 3 eexists. split; [reflexivity|]. split; [lra|discriminate]. }
  destruct (String.eqb_spec texture_type "pericardium") as [->|H4].
  { unfold bind, normal2, ret. destruct (random_normal2 0.85 0.08 height width g).
    do 3 eexists. split; [reflexivity|]. split; [lra|discriminate]. }
  unfold ret. do 3 eexists. split; [reflexivity|]. split; [lra|contradiction].
Qed.

(** X23: [generate_tissue_texture] returns, for every texture type, values
    between 0 and 0.95, and at most 0.08 for blood; for a type other than
    the four it knows it returns the constant 0.25 and draws no random
    sample. *)
Theorem tissue_texture_range (width height : Z) (texture_type : String.string)
  (g : rng) :
  exists texture g',
    generate_tissue_texture width height texture_type g = (Ok texture, g')
    /\ Forall (Forall (fun v => 0 <= v <= 0.95)) texture
    /\ (texture_type = "blood" -> Forall (Forall (fun v => 0 <= v <= 0.08)) texture)
    /\ (texture_type <> "myocardium" -> texture_type <> "blood" ->
        texture_type <> "valve" -> texture_type <> "pericardium" ->
        texture = full height width 0.25 /\ g' = g).
Proof.
  destruct (texture_of_returns width height texture_type g)
    as (t & k & g' & E & Hk & Hblood).
  exists (ew (fun v => clip v 0 1 * k) t), g'.
  split; [unfold generate_tissue_texture, bind; rewrite E; reflexivity|].
  split; [|split].
  - apply Forall_ew_all. intros v.
    pose proof (clip_scaled_range v k ltac:(lra)). lra.
  - intros Hb. apply Forall_ew_all. intros v. rewrite (Hblood Hb).
    apply clip_scaled_range. lra.
  - intros H1 H2 H3 H4. unfold texture_of in E.
    destruct (String.eqb_spec texture_type "myocardium"); [contradiction|].
    destruct (String.eqb_spec texture_type "blood"); [contradiction|].
    destruct (String.eqb_spec texture_type "valve"); [contradiction|].
    destruct (String.eqb_spec texture_type "pericardium"); [contradiction|].
    unfold ret in E. injection E as <- <- <-. split; [|reflexivity].
    rewrite ew_full. f_equal. unfold clip, Rmin, Rmax.
    repeat destruct (Rle_dec _ _); lra.
Qed.

End TextureFacts.


Section TextureExamples.
Import Np Lib LibExt Texture.
Import String.StringSyntax.
Local Open Scope R_scope.
Local Open Scope string_scope.

Lemma tissue_texture_range_witness :
  generate_tissue_texture (L := Example.lib) (I := ExampleExt.imaging) 4 2 "bone" 5%Z
  = (Ok (full 2 4 0.25), 5%Z).
Proof.
  destruct (tissue_texture_range (L := Example.lib) (I := ExampleExt.imaging)
              4 2 "bone" 5%Z)
    as (t & g' & E & _ & _ & H).
  destruct H as [-> ->]; try discriminate. exact E.
Defined.

End TextureExamples.


(* --------------------------------------------------------------------- *)
(** *** The first generator *)
(* --------------------------------------------------------------------- *)

Section V1Geometry.
Import V1.
Local Open Scope R_scope.

(** X24: at every phase of the cycle the left ventricle of the first
    generator has an outer ellipse of radii in [[74,86]] and [[114,125]], a
    cavity of radii in [[37,59]] and [[58,86]], hence a cavity that stays
    clear of the wall outline of width 8, and a valve opening in [[25,34]]:
    the valve never closes. *)
Theorem v1_heart_geometry (phase : R) :
  let c := contraction phase in
  (74 <= outer_rx c <= 86)%Z /\ (114 <= outer_ry c <= 125)%Z
  /\ (37 <= inner_rx c <= 59)%Z /\ (58 <= inner_ry c <= 86)%Z
  /\ (inner_rx c + 8 <= outer_rx c)%Z /\ (inner_ry c + 8 <= outer_ry c)%Z
  /\ (25 <= valve_opening c <= 34)%Z.
Proof.
  intros c. pose proof (SIN_bound phase) as [Hlo Hhi].
  assert (Hc : -0.15 <= c <= 0.15) by (unfold c, contraction; lra).
  assert (Hox : (74 <= outer_rx c <= 86)%Z)
    by (unfold outer_rx; apply py_int_bounds; lra).
  assert (Hoy : (114 <= outer_ry c <= 125)%Z)
    by (unfold outer_ry; apply py_int_range; [lia | lra | lra]).
  assert (Hox' : 74 <= IZR (outer_rx c) <= 86)
    by (split; apply IZR_le; lia).
  assert (Hoy' : 114 <= IZR (outer_ry c) <= 125)
    by (split; apply IZR_le; lia).
  assert (Hix : (37 <= inner_rx c <= 59)%Z)
    by (unfold inner_rx; apply py_int_range; [lia | nra | nra]).
  assert (Hiy : (58 <= inner_ry c <= 86)%Z)
    by (unfold inner_ry; apply py_int_range; [lia | nra | nra]).
  assert (Hv : (25 <= valve_opening c <= 34)%Z)
    by (unfold valve_opening; apply py_int_range; [lia | lra | lra]).
  repeat split; lia.
Qed.

End V1Geometry.


Section V1Facts.
Import Np Lib LibExt V1.
Context {L : NumLib} {I : ImagingLib}.
Local Open Scope Z_scope.

Ltac euclid h :=
  pose proof (Z.div_mod h 2 ltac:(lia));
  pose proof (Z.div_mod h 4 ltac:(lia));
  pose proof (Z.mod_pos_bound h 2 ltac:(lia));
  pose proof (Z.mod_pos_bound h 4 ltac:(lia)).

(** The dimensions [generate_speckle_noise] accepts. *)
Lemma v1_speckle_outcome (width height : Z) (scale : R) (g : rng) :
  rayleigh_shaped ->
  exists r g',
    generate_speckle_noise width height scale g = (r, g')
    /\ if (0 <? height) && (0 <? width) && (height mod 4 =? 0) && (width mod 4 =? 0)
       then exists noise, r = Ok noise /\ has_dims height width noise
       else r = Raise ValueError.
Proof.
  intros Hlib. unfold generate_speckle_noise. rewrite bind_lift. unfold np_zeros.
  destruct (Z.ltb_spec height 0) as [Hh|Hh].
  { cbn [orb]. eexists _, _. split; [reflexivity|].
    destruct (Z.ltb_spec 0 height); [lia|reflexivity]. }
  destruct (Z.ltb_spec width 0) as [Hw|Hw].
  { cbn [orb]. eexists _, _. split; [reflexivity|].
    destruct (Z.ltb_spec 0 width); [lia|]. now rewrite andb_false_r. }
  cbn [orb].
  pose proof (has_dims_ogrid height width (fun _ _ => 0%R)) as H0.
  fold (full height width 0) in H0.
  euclid height. euclid width.
  (* scale 1 *)
  destruct (speckle_pass_outcome width height scale 1 (full height width 0) g
              Hlib ltac:(lia) Hh Hw H0) as [g1 P1].
  rewrite !Z.mod_1_r in P1. cbn [Z.eqb andb orb] in P1.
  rewrite orb_true_r in P1. destruct P1 as (n1 & E1 & D1).
  unfold bind at 1. rewrite E1.
  (* scale 2 *)
  destruct (speckle_pass_outcome width height scale 2 n1 g1
              Hlib ltac:(lia) Hh Hw D1) as [g2 P2].
  unfold bind at 1.
  destruct ((height mod 2 =? 0) && ((height =? 0) || (width mod 2 =? 0))) eqn:C2.
  2:{ rewrite P2. eexists _, _. split; [reflexivity|].
      replace ((0 <? height) && (0 <? width) && (height mod 4 =? 0)
               && (width mod 4 =? 0)) with false; [reflexivity|].
      symmetry. apply andb_false_iff in C2 as [C|C].
      - apply Z.eqb_neq in C.
        destruct (Z.eqb_spec (height mod 4) 0); [lia|].
        now rewrite andb_false_r.
      - apply orb_false_iff in C as [Ca Cb].
        apply Z.eqb_neq in Ca. apply Z.eqb_neq in Cb.
        destruct (Z.eqb_spec (width mod 4) 0); [lia|].
        now rewrite andb_false_r. }
  destruct P2 as (n2 & E2 & D2). rewrite E2.
  (* scale 4 *)
  destruct (speckle_pass_outcome width height scale 4 n2 g2
              Hlib ltac:(lia) Hh Hw D2) as [g3 P3].
  unfold bind at 1.
  destruct ((height mod 4 =? 0) && ((height =? 0) || (width mod 4 =? 0))) eqn:C4.
  2:{ rewrite P3. eexists _, _. split; [reflexivity|].
      replace ((0 <? height) && (0 <? width) && (height mod 4 =? 0)
               && (width mod 4 =? 0)) with false; [reflexivity|].
      symmetry. apply andb_false_iff in C4 as [C|C].
      - rewrite C. now rewrite andb_false_r.
      - apply orb_false_iff in C as [Ca Cb]. rewrite Cb.
        now rewrite andb_false_r. }
  destruct P3 as (n3 & E3 & D3). rewrite E3.
  (* the maximum *)
  rewrite bind_lift. unfold np_max.
  pose proof (concat_has_dims height width n3 D3) as Hc.
  apply andb_true_iff in C4 as [C4a C4b]. rewrite C4a.
  destruct (concat n3) as [|v vs] eqn:En.
  - eexists _, _. split; [reflexivity|].
    replace ((0 <? height) && (0 <? width)) with false; [reflexivity|].
    symmetry. destruct (proj1 Hc eq_refl) as [Hz|Hz].
    + destruct (Z.ltb_spec 0 height); [lia|reflexivity].
    + destruct (Z.ltb_spec 0 width); [lia|]. now rewrite andb_false_r.
  - assert (Hpos : 0 < height /\ 0 < width).
    { destruct (Z_lt_dec 0 height) as [Hp|Hp].
      - destruct (Z_lt_dec 0 width) as [Hq|Hq]; [now split|].
        assert (v :: vs = []) by (apply (proj2 Hc); right; lia).
        discriminate.
      - assert (v :: vs = []) by (apply (proj2 Hc); left; lia).
        discriminate. }
    destruct Hpos as [Hp Hq].
    unfold ret. eexists _, _. split; [reflexivity|].
    destruct (Z.ltb_spec 0 height); [|lia]. destruct (Z.ltb_spec 0 width); [|lia].
    destruct (Z.eqb_spec height 0); [lia|]. cbn [orb] in C4b. rewrite C4b.
    cbn [andb]. eexists. split; [reflexivity|].
    now apply has_dims_ew.
Qed.

(** X25: when every Rayleigh draw has the shape asked for,
    [generate_speckle_noise] of the first generator returns a field of
    [height] rows and [width] columns when both dimensions are positive
    multiples of 4, and raises [ValueError] for all other dimensions. *)
Theorem v1_speckle_dimensions (width height : Z) (scale : R) (g : rng) :
  rayleigh_shaped ->
  (0 < height /\ 0 < width /\ height mod 4 = 0 /\ width mod 4 = 0 ->
   exists noise g',
     generate_speckle_noise width height scale g = (Ok noise, g')
     /\ has_dims height width noise)
  /\ (~ (0 < height /\ 0 < width /\ height mod 4 = 0 /\ width mod 4 = 0) ->
      exists g', generate_speckle_noise width height scale g = (Raise ValueError, g')).
Proof.
  intros Hlib.
  destruct (v1_speckle_outcome width height scale g Hlib) as (r & g' & E & H).
  destruct (Z.ltb_spec 0 height), (Z.ltb_spec 0 width),
    (Z.eqb_spec (height mod 4) 0), (Z.eqb_spec (width mod 4) 0);
    cbn [andb] in H; split; intros Hc;
    try (exfalso; lia); try (subst r; now exists g');
    try (destruct H as (noise & -> & D); now exists noise, g').
Qed.

End V1Facts.


Section V1Frames.
Import Np Lib LibExt V1.
Context {L : NumLib} {I : ImagingLib}.
Local Open Scope R_scope.

Lemma getitem_ogrid_inv {A : Type} (height width : Z) (f : Z -> Z -> A) (y x : Z) v :
  (0 <= y)%Z -> (0 <= x)%Z ->
  getitem (ogrid height width f) y x = Some v -> v = f y x.
Proof.
  intros Hy Hx H.
  destruct (Z_lt_dec y height) as [Hyh|Hyh], (Z_lt_dec x width) as [Hxw|Hxw].
  - rewrite getitem_ogrid in H by lia. now injection H as <-.
  - exfalso. unfold getitem, ogrid in H. rewrite nth_error_map in H.
    destruct (nth_error (arange height) (Z.to_nat y)); [|discriminate].
    cbn [option_map] in H.
    assert (E : nth_error (map (fun x0 => f z x0) (arange width)) (Z.to_nat x) = None)
      by (apply nth_error_None; rewrite length_map, length_arange; lia).
    rewrite E in H. discriminate.
  - exfalso. unfold getitem, ogrid in H.
    assert (E : nth_error (map (fun y0 => map (fun x0 => f y0 x0) (arange width))
                               (arange height)) (Z.to_nat y) = None)
      by (apply nth_error_None; rewrite length_map, length_arange; lia).
    rewrite E in H. discriminate.
  - exfalso. unfold getitem, ogrid in H.
    assert (E : nth_error (map (fun y0 => map (fun x0 => f y0 x0) (arange width))
                               (arange height)) (Z.to_nat y) = None)
      by (apply nth_error_None; rewrite length_map, length_arange; lia).
    rewrite E in H. discriminate.
Qed.

Lemma v1_heart_outcome (width height frame total_frames : Z) :
  (0 <= width)%Z -> (0 <= height)%Z ->
  if (total_frames =? 0)%Z
  then generate_heart_structure width height frame total_frames
       = Raise ZeroDivisionError
  else exists heart, generate_heart_structure width height frame total_frames
                     = Ok heart.
Proof.
  intros Hw Hh. unfold generate_heart_structure, image_new.
  destruct (Z.ltb_spec width 0); [lia|]. destruct (Z.ltb_spec height 0); [lia|].
  cbn [orb rbind]. unfold truediv_float.
  destruct (total_frames =? 0)%Z; cbn [rbind]; [reflexivity|].
  eexists. reflexivity.
Qed.


(** X27: with such a library, [generate_echo_frame] of the first generator
    raises [ValueError] unless both dimensions are positive multiples of 4,
    whatever the frame count, and [ZeroDivisionError] for such dimensions
    and a frame count of 0. *)
Theorem v1_frame_raises (width height frame total_frames : Z) (g : rng) :
  rayleigh_shaped ->
  (~ (0 < height /\ 0 < width /\ height mod 4 = 0 /\ width mod 4 = 0)%Z ->
   exists g',
     generate_echo_frame width height frame total_frames g = (Raise ValueError, g'))
  /\ ((0 < height /\ 0 < width /\ height mod 4 = 0 /\ width mod 4 = 0)%Z ->
      exists g',
        generate_echo_frame width height frame 0 g = (Raise ZeroDivisionError, g')).
Proof.
  intros Hlib. split.
  - intros Hbad.
    destruct (v1_speckle_outcome width height 0.4 g Hlib) as (r & g' & E & H).
    exists g'. unfold generate_echo_frame. unfold bind at 1. rewrite E.
    destruct (Z.ltb_spec 0 height), (Z.ltb_spec 0 width),
      (Z.eqb_spec (height mod 4) 0), (Z.eqb_spec (width mod 4) 0);
      cbn [andb] in H; try (exfalso; apply Hbad; tauto); now subst r.
  - intros (Hh & Hw & Hh4 & Hw4).
    destruct (v1_speckle_outcome width height 0.4 g Hlib) as (r & g' & E & H).
    destruct (Z.ltb_spec 0 height); [|lia]. destruct (Z.ltb_spec 0 width); [|lia].
    rewrite Hh4, Hw4 in H. cbn [Z.eqb andb] in H. destruct H as (noise & -> & _).
    pose proof (v1_heart_outcome width height frame 0 ltac:(lia) ltac:(lia)) as Hheart.
    cbn [Z.eqb] in Hheart.
    exists g'. unfold generate_echo_frame. unfold bind at 1. rewrite E.
    now rewrite bind_lift, Hheart.
Qed.

End V1Frames.


Section V1Examples.
Import Np Lib LibExt V1.
Local Open Scope R_scope.

Lemma v1_speckle_dimensions_witness :
  (exists noise g',
     generate_speckle_noise (L := Example.lib) 8 4 0.4 0%Z = (Ok noise, g')
     /\ has_dims 4 8 noise)
  /\ (exists g',
        generate_speckle_noise (L := Example.lib) 8 6 0.4 0%Z = (Raise ValueError, g')).
Proof.
  split.
  - apply (proj1 (v1_speckle_dimensions (L := Example.lib) 8 4 0.4 0%Z
                    example_rayleigh_shaped)).
    repeat split; lia.
  - apply (proj2 (v1_speckle_dimensions (L := Example.lib) 8 6 0.4 0%Z
                    example_rayleigh_shaped)).
    intros (_ & _ & H & _). vm_compute in H. discriminate.
Defined.


Lemma v1_frame_raises_witness :
  (exists g',
     generate_echo_frame (L := Example.lib) (I := ExampleExt.imaging) 10 10 3 20 0%Z
     = (Raise ValueError, g'))
  /\ (exists g',
        generate_echo_frame (L := Example.lib) (I := ExampleExt.imaging) 64 64 3 0 0%Z
        = (Raise ZeroDivisionError, g')).
Proof.
  split.
  - apply (proj1 (v1_frame_raises (L := Example.lib) (I := ExampleExt.imaging)
                    10 10 3 20 0%Z example_rayleigh_shaped)).
    intros (_ & _ & H & _). vm_compute in H. discriminate.
  - apply (proj2 (v1_frame_raises (L := Example.lib) (I := ExampleExt.imaging)
                    64 64 3 0 0%Z example_rayleigh_shaped)).
    repeat split; lia.
Defined.

End V1Examples.


Section V1FileFacts.
Import Uncompressed Np Lib LibExt V1Files.
Local Open Scope Z_scope.

Lemma rows_of_concat (rows cols : nat) (a : frame) :
  has_shape rows cols a -> rows_of rows cols (concat a) = a.
Proof.
  intros [H1 H2]. subst rows. induction H2 as [|row a Hrow _ IH]; [reflexivity|].
  cbn [length rows_of concat].
  rewrite firstn_app, skipn_app, Hrow, Nat.sub_diag, firstn_all2, skipn_all2 by lia.
  cbn [firstn skipn app]. rewrite app_nil_r. now rewrite IH.
Qed.

Lemma reshape_1_shaped (rows cols : nat) (a : frame) :
  has_shape rows cols a ->
  reshape_1 (Z.of_nat rows) (Z.of_nat cols) a = Ok [a].
Proof.
  intros Ha. unfold reshape_1.
  rewrite (has_shape_tobytes2 rows cols a Ha).
  destruct (Z.leb_spec 0 (Z.of_nat rows)); [|lia].
  destruct (Z.leb_spec 0 (Z.of_nat cols)); [|lia].
  destruct (Z.eqb_spec (Z.of_nat (rows * cols)) (Z.of_nat rows * Z.of_nat cols));
    [|lia].
  cbn [andb]. rewrite !Nat2Z.id. unfold tobytes2.
  now rewrite (rows_of_concat rows cols a Ha).
Qed.

Lemma single_frame_shaped (rows cols : nat) (i : Z) (a : frame) :
  (0 < rows)%nat -> has_shape rows cols a ->
  exists ds_single,
    single_frame (Z.of_nat rows) (Z.of_nat cols) i a = Ok (i + 1, ds_single)
    /\ NumberOfFrames ds_single = 1
    /\ Rows ds_single = Z.of_nat rows /\ Columns ds_single = Z.of_nat cols
    /\ PixelData ds_single = tobytes2 a.
Proof.
  intros Hrows Ha. unfold single_frame.
  rewrite (reshape_1_shaped rows cols a Ha). cbn [rbind].
  eexists. split; [reflexivity|]. cbn [NumberOfFrames Rows Columns PixelData].
  unfold create_dicom_dataset.
  rewrite (shape3_uniform rows cols [a]);
    [|discriminate|now constructor|exact Hrows].
  cbn [Rows Columns PixelData]. unfold tobytes. cbn [map concat].
  rewrite app_nil_r. repeat split; reflexivity.
Qed.

Lemma single_frames_shaped (rows cols : nat) (frames : list frame) :
  (0 < rows)%nat -> Forall (has_shape rows cols) frames ->
  forall i, exists singles,
    single_frames (Z.of_nat rows) (Z.of_nat cols) i frames = Ok singles
    /\ map fst singles = map (fun k => i + Z.of_nat k + 1) (seq 0 (length frames))
    /\ Forall (fun s => NumberOfFrames (snd s) = 1
                        /\ Rows (snd s) = Z.of_nat rows
                        /\ Columns (snd s) = Z.of_nat cols) singles
    /\ concat (map (fun s => PixelData (snd s)) singles) = tobytes frames.
Proof.
  intros Hrows Hall. induction Hall as [|a frames Ha _ IH]; intros i.
  - exists []. cbn. repeat split. constructor.
  - destruct (single_frame_shaped rows cols i a Hrows Ha)
      as (ds1 & E1 & Hn & Hr & Hc & Hp).
    destruct (IH (i + 1)) as (singles & E & Hfst & Hattr & Hpix).
    exists ((i + 1, ds1) :: singles). cbn [single_frames].
    rewrite E1. cbn [rbind]. rewrite E. cbn [rbind].
    split; [reflexivity|]. split; [|split].
    + cbn [map fst length seq]. rewrite Hfst. f_equal; [lia|].
      rewrite <- seq_shift, map_map. apply map_ext. intros k. lia.
    + constructor; [cbn [snd]; auto|exact Hattr].
    + cbn [map concat snd]. rewrite Hpix, Hp. reflexivity.
Qed.

(** X28: for a non-empty list of frames of one shape [rows x cols] (with
    [rows > 0]), [generate_echo_dicom_files] builds one multi-frame dataset
    of instance number 1 and one single-frame dataset per frame, numbered
    1, 2, ...; each single-frame dataset has [NumberOfFrames = 1] and the
    rows and columns of the multi-frame one, and the pixel data of the
    single-frame datasets, concatenated in order, are the pixel data of the
    multi-frame dataset. *)
Theorem v1_files_compose (rows cols : nat) (frames : list frame) :
  frames <> [] -> (0 < rows)%nat -> Forall (has_shape rows cols) frames ->
  exists ds singles,
    datasets (Z.of_nat rows) (Z.of_nat cols) frames = Ok ((1, ds), singles)
    /\ NumberOfFrames ds = Z.of_nat (length frames)
    /\ Rows ds = Z.of_nat rows /\ Columns ds = Z.of_nat cols
    /\ map fst singles = map (fun k => Z.of_nat k + 1) (seq 0 (length frames))
    /\ Forall (fun s => NumberOfFrames (snd s) = 1
                        /\ Rows (snd s) = Rows ds
                        /\ Columns (snd s) = Columns ds) singles
    /\ concat (map (fun s => PixelData (snd s)) singles) = PixelData ds.
Proof.
  intros Hne Hrows Hall.
  destruct (single_frames_shaped rows cols frames Hrows Hall 0)
    as (singles & E & Hfst & Hattr & Hpix).
  exists (create_dicom_dataset frames), singles.
  unfold datasets, assemble. rewrite (np_stack_uniform rows cols frames Hne Hall).
  cbn [rbind]. rewrite E. cbn [rbind]. split; [reflexivity|].
  unfold create_dicom_dataset.
  rewrite (shape3_uniform rows cols frames Hne Hall Hrows).
  cbn [NumberOfFrames Rows Columns PixelData].
  repeat split; try reflexivity; assumption.
Qed.

Lemma v1_files_compose_witness :
  exists ds singles,
    datasets 1 2 [[[x01; x02]]; [[x03; x04]]] = Ok ((1, ds), singles)
    /\ map fst singles = [1; 2]
    /\ concat (map (fun s => PixelData (snd s)) singles) = PixelData ds.
Proof.
  destruct (v1_files_compose 1 2 [[[x01; x02]]; [[x03; x04]]]
              ltac:(discriminate) ltac:(lia)
              ltac:(repeat constructor))
    as (ds & singles & E & _ & _ & _ & Hfst & _ & Hpix).
  exists ds, singles. split; [exact E|]. split; [exact Hfst|exact Hpix].
Defined.

End V1FileFacts.


Section V1RunFacts.
Import Uncompressed Np Lib LibExt V1 V1Files.
Context {L : NumLib} {I : ImagingLib}.
Local Open Scope Z_scope.

Lemma has_shape_to_bytes (height width : Z) (img : list (list Z)) :
  has_dims height width img ->
  has_shape (Z.to_nat height) (Z.to_nat width) (to_bytes img).
Proof.
  intros [H1 H2]. unfold to_bytes. split; [now rewrite length_map|].
  apply Forall_map. eapply Forall_impl; [|exact H2].
  cbv beta. intros row Hrow. now rewrite length_map.
Qed.

Lemma v1_heart_dims (width height frame total_frames : Z) :
  drawing_shaped -> 0 <= width -> 0 <= height -> total_frames <> 0 ->
  exists heart,
    generate_heart_structure width height frame total_frames = Ok heart
    /\ has_dims height width heart.
Proof.
  intros Hdraw Hw Hh Ht. unfold generate_heart_structure, image_new.
  destruct (Z.ltb_spec width 0); [lia|]. destruct (Z.ltb_spec height 0); [lia|].
  cbn [orb rbind]. rewrite (truediv_float_nonzero _ total_frames Ht). cbn [rbind].
  eexists. split; [reflexivity|]. apply has_dims_ew.
  apply Hdraw. apply Hdraw. apply Hdraw. apply has_dims_ogrid.
Qed.

(** A frame of the first generator has the dimensions asked for. *)
Lemma v1_frame_dims (width height frame total_frames : Z) (g : rng) :
  rayleigh_shaped -> drawing_shaped ->
  0 < height -> 0 < width -> height mod 4 = 0 -> width mod 4 = 0 ->
  total_frames <> 0 ->
  exists img g',
    generate_echo_frame width height frame total_frames g = (Ok img, g')
    /\ has_dims height width img.
Proof.
  intros Hlib Hdraw Hh Hw Hh4 Hw4 Ht.
  destruct (v1_speckle_outcome width height 0.4%R g Hlib) as (r & g' & E & H).
  destruct (Z.ltb_spec 0 height); [|lia]. destruct (Z.ltb_spec 0 width); [|lia].
  rewrite Hh4, Hw4 in H. cbn [Z.eqb andb] in H. destruct H as (noise & -> & Dn).
  destruct (v1_heart_dims width height frame total_frames Hdraw
              ltac:(lia) ltac:(lia) Ht) as (heart & Eh & Dh).
  unfold generate_echo_frame. unfold bind at 1. rewrite E.
  rewrite bind_lift, Eh. unfold ret.
  eexists _, g'. split; [reflexivity|].
  do 2 apply has_dims_ew. apply has_dims_ew_col.
  - apply has_dims_ew2; [|apply has_dims_ogrid].
    apply has_dims_ew2; [|now apply has_dims_ew].
    apply has_dims_ew2; [apply has_dims_ogrid|now apply has_dims_ew].
  - now rewrite length_map, length_arange.
Qed.

(** X29: [generate_echo_dicom_files] raises [ValueError] when no frame is
    asked for ([np.stack] of an empty list), before any random sample is
    drawn; with a library that keeps the shapes, dimensions that are positive
    multiples of 4 and at least one frame it builds a multi-frame dataset of
    [num_frames] frames of [height] rows and [width] columns and [num_frames]
    single-frame datasets holding the same pixel data. *)
Theorem v1_run_outcome (num_frames width height : Z) (g : rng) :
  (num_frames <= 0 ->
   generate_echo_dicom_files num_frames width height g = (Raise ValueError, g))
  /\ (rayleigh_shaped -> drawing_shaped -> 0 < num_frames ->
      0 < height -> 0 < width -> height mod 4 = 0 -> width mod 4 = 0 ->
      exists ds singles g',
        generate_echo_dicom_files num_frames width height g
        = (Ok ((1, ds), singles), g')
        /\ NumberOfFrames ds = num_frames
        /\ Rows ds = height /\ Columns ds = width
        /\ Z.of_nat (length singles) = num_frames
        /\ concat (map (fun s => PixelData (snd s)) singles) = PixelData ds).
Proof.
  split.
  - intros Hn. unfold generate_echo_dicom_files, generate_frames.
    rewrite (arange_nonpos num_frames Hn). reflexivity.
  - intros Hlib Hdraw Hn Hh Hw Hh4 Hw4.
    unfold generate_echo_dicom_files, generate_frames.
    destruct (for_each_returns
                (fun i => generate_echo_frame width height i num_frames)
                (has_dims height width) (arange num_frames)) with (g := g)
      as (frames & g' & El & Hlen & HP).
    { intros i _ g0. apply v1_frame_dims; (assumption || lia). }
    rewrite length_arange in Hlen.
    unfold bind. rewrite El. unfold lift.
    set (images := map to_bytes frames).
    assert (Hne : images <> []).
    { intros Hnil. apply (f_equal (@length _)) in Hnil. unfold images in Hnil.
      rewrite length_map, Hlen in Hnil. cbn in Hnil. lia. }
    assert (Hrows : (0 < Z.to_nat height)%nat) by lia.
    assert (Hall : Forall (has_shape (Z.to_nat height) (Z.to_nat width)) images).
    { apply Forall_map. eapply Forall_impl; [|exact HP].
      intros img. apply has_shape_to_bytes. }
    destruct (single_frames_shaped _ _ images Hrows Hall 0)
      as (singles & E & Hfst & _ & Hpix).
    rewrite !Z2Nat.id in E by lia.
    exists (create_dicom_dataset images), singles, g'.
    unfold datasets, assemble. rewrite (np_stack_uniform _ _ images Hne Hall).
    cbn [rbind]. rewrite E. cbn [rbind]. split; [reflexivity|].
    unfold create_dicom_dataset. rewrite (shape3_uniform _ _ images Hne Hall Hrows).
    cbn [NumberOfFrames Rows Columns PixelData].
    unfold images in *. rewrite length_map, Hlen in *.
    split; [lia|]. split; [lia|]. split; [lia|]. split; [|exact Hpix].
    apply (f_equal (@length _)) in Hfst.
    rewrite !length_map, length_seq in Hfst. unfold instance in *. lia.
Qed.

End V1RunFacts.


Section V1RunExamples.
Import Uncompressed Np Lib LibExt V1 V1Files.
Local Open Scope Z_scope.

Lemma example_drawing_shaped :
  drawing_shaped (L := Example.lib) (I := ExampleExt.imaging).
Proof. intros rows cols img H. split; [|split]; intros; exact H. Qed.

Lemma v1_run_outcome_witness :
  generate_echo_dicom_files (L := Example.lib) (I := ExampleExt.imaging) 0 512 512 0
  = (Raise ValueError, 0)
  /\ exists ds singles g',
       generate_echo_dicom_files (L := Example.lib) (I := ExampleExt.imaging)
         2 8 4 0
       = (Ok ((1, ds), singles), g')
       /\ NumberOfFrames ds = 2 /\ Z.of_nat (length singles) = 2.
Proof.
  split.
  - apply (proj1 (v1_run_outcome (L := Example.lib) (I := ExampleExt.imaging)
                    0 512 512 0)). lia.
  - destruct (proj2 (v1_run_outcome (L := Example.lib) (I := ExampleExt.imaging)
                       2 8 4 0)
                example_rayleigh_shaped example_drawing_shaped
                ltac:(lia) ltac:(lia) ltac:(lia) ltac:(reflexivity) ltac:(reflexivity))
      as (ds & singles & g' & E & Hn & _ & _ & Hl & _).
    exists ds, singles, g'. split; [exact E|]. split; assumption.
Defined.

End V1RunExamples.
